(** * Active-session lifecycle and live stream of the time-tracker backend

    A shallow embedding of [src/modules/sessions/activeSessionEmitter.ts]:
    the change emitter and the session routes that use it (create, patch,
    active-session upsert, stop, SSE stream), with the store reached
    through Prisma modelled as finite maps.

    Conventions.
    - A [Date] is its [getTime()] value: an integer number of milliseconds,
      here a [Z].  [Math.floor(x / 1000)] on such integers is [x / 1000] in
      [Z] (floor division); within the range of [Date] the double-precision
      quotient rounds to the same integer.
    - A JavaScript string is a [string]; each character is one code unit.
    - A value of type [T | null | undefined] is a [js_opt T]; a nullable
      column is an [option]. *)

From stdpp Require Import base option strings list gmap fin_maps.
From Stdlib Require Import ZArith Lia Ascii String.

#[local] Open Scope Z_scope.
#[local] Open Scope string_scope.
#[local] Open Scope list_scope.

(** ** JavaScript values *)

Inductive js_opt (A : Type) : Type :=
  | Undefined
  | Null
  | Val (a : A).
Arguments Undefined {A}.
Arguments Null {A}.
Arguments Val {A} a.

(** What Prisma stores in a nullable column when a row is created. *)
Definition to_column {A} (v : js_opt A) : option A :=
  match v with
  | Val a => Some a
  | Null | Undefined => None
  end.

(** What Prisma's [update] does with one field of [data]: [undefined]
    leaves the column alone, [null] clears it, a value overwrites it. *)
Definition update_column {A} (v : js_opt A) (old : option A) : option A :=
  match v with
  | Undefined => old
  | Null => None
  | Val a => Some a
  end.

(** A string in a boolean position. *)
Definition truthy (s : string) : bool :=
  match s with
  | EmptyString => false
  | String _ _ => true
  end.

(** [x || null] for a string [x] that may be [null] or [undefined]. *)
Definition or_null (v : js_opt string) : option string :=
  match v with
  | Val s => if truthy s then Some s else None
  | Null | Undefined => None
  end.

(** The white space of [String.prototype.trim] among the code units
    below 256: TAB, LF, VT, FF, CR, SP and NBSP. *)
Definition is_whitespace (c : ascii) : bool :=
  match N_of_ascii c with
  | 9 | 10 | 11 | 12 | 13 | 32 | 160 => true
  | _ => false
  end%N.

Fixpoint trimStart (s : string) : string :=
  match s with
  | EmptyString => EmptyString
  | String c s' => if is_whitespace c then trimStart s' else s
  end.

Fixpoint trimEnd (s : string) : string :=
  match s with
  | EmptyString => EmptyString
  | String c s' =>
      match trimEnd s' with
      | EmptyString => if is_whitespace c then EmptyString else String c EmptyString
      | t => String c t
      end
  end.

Definition trim (s : string) : string := trimEnd (trimStart s).

(** ** Rows of the store *)

Inductive SessionMode := stopwatch | timer | pomodoro.
Inductive PomodoroPhase := work | shortBreak | longBreak.

Record Project := {
  p_id : string;
  p_name : string;
  p_color : string;
  p_userId : string
}.

(** [select: { id, name, color }] *)
Record ProjectSummary := {
  ps_id : string;
  ps_name : string;
  ps_color : string
}.

Record ActiveSession := {
  as_id : string;
  as_startTime : Z;
  as_mode : SessionMode;
  as_description : option string;
  as_targetSeconds : option Z;
  as_pomodoroPhase : option PomodoroPhase;
  as_pomodoroCycle : Z;
  as_projectId : option string;
  as_userId : string
}.

Record TimeSession := {
  ts_id : string;
  ts_description : option string;
  ts_startTime : Z;
  ts_endTime : Z;
  ts_durationSeconds : Z;
  ts_mode : SessionMode;
  ts_projectId : option string;
  ts_userId : string
}.

(** The three tables the session routes touch.  [project] and
    [timeSession] are keyed by their primary key [id]; [activeSession] is
    keyed by [userId], its unique index, which is the only key the routes
    ever use for it. *)
Record Db := {
  project : gmap string Project;
  activeSession : gmap string ActiveSession;
  timeSession : gmap string TimeSession
}.

Definition set_activeSession (m : gmap string ActiveSession) (d : Db) : Db :=
  {| project := project d; activeSession := m; timeSession := timeSession d |}.

Definition set_timeSession (m : gmap string TimeSession) (d : Db) : Db :=
  {| project := project d; activeSession := activeSession d; timeSession := m |}.

(** ** Prisma calls *)

(** What the environment decides for one request: the clock, the id the
    store gives to a created row, and which calls are rejected for
    reasons outside the model (lost connection, constraint of another
    table, ...). *)
Record Env := {
  now : Z;
  newId : string;
  find_fails : bool;
  create_fails : bool;
  delete_fails : bool;
  upsert_fails : bool;
  update_fails : bool
}.

Inductive Outcome (A : Type) : Type :=
  | Done (a : A)
  | Thrown.
Arguments Done {A} a.
Arguments Thrown {A}.

(** A call changes the store and resolves or rejects.  Outside a
    transaction, what was written before a rejection stays written. *)
Definition Prisma (A : Type) : Type := Db -> Db * Outcome A.

Definition pret {A} (a : A) : Prisma A := fun d => (d, Done a).

Definition pbind {A B} (m : Prisma A) (k : A -> Prisma B) : Prisma B :=
  fun d =>
    match m d with
    | (d', Done a) => k a d'
    | (d', Thrown) => (d', Thrown)
    end.

Notation "'let*' x ':=' m 'in' k" := (pbind m (fun x => k))
  (at level 10, x name, m at level 100, k at level 200, only parsing).

(** [prisma.$transaction(async tx => ...)]: the writes of a rejected
    body are rolled back. *)
Definition transaction {A} (body : Prisma A) : Prisma A :=
  fun d =>
    match body d with
    | (d', Done a) => (d', Done a)
    | (_, Thrown) => (d, Thrown)
    end.

Definition include_project (d : Db) (pid : option string) : option ProjectSummary :=
  p ← (pid ≫= fun i => project d !! i);
  Some {| ps_id := p_id p; ps_name := p_name p; ps_color := p_color p |}.

(** [prisma.project.findFirst({ where: { id, userId } })] *)
Definition project_findFirst (env : Env) (id userId : string) : Prisma (option Project) :=
  fun d =>
    if find_fails env then (d, Thrown)
    else (d, Done (p ← project d !! id;
                   if decide (p_userId p = userId) then Some p else None)).

(** [prisma.activeSession.findUnique({ where: { userId } })] *)
Definition activeSession_findUnique (env : Env) (userId : string)
  : Prisma (option ActiveSession) :=
  fun d => if find_fails env then (d, Thrown) else (d, Done (activeSession d !! userId)).

(** [activeSession.delete({ where: { userId } })]; a missing row rejects. *)
Definition activeSession_delete (env : Env) (userId : string) : Prisma ActiveSession :=
  fun d =>
    if delete_fails env then (d, Thrown)
    else match activeSession d !! userId with
         | Some a => (set_activeSession (delete userId (activeSession d)) d, Done a)
         | None => (d, Thrown)
         end.

(** [data] of [timeSession.create] as the routes build it; [None] in
    [sd_description] is a property left out, [None] in [sd_projectId]
    is [null]. *)
Record SessionData := {
  sd_description : option string;
  sd_startTime : Z;
  sd_endTime : Z;
  sd_durationSeconds : Z;
  sd_mode : SessionMode;
  sd_userId : string;
  sd_projectId : option string
}.

(** [timeSession.create({ data })]: the new row gets the id the store
    picked; an id already in use violates the primary key. *)
Definition timeSession_create (env : Env) (data : SessionData) : Prisma TimeSession :=
  fun d =>
    if create_fails env then (d, Thrown)
    else match timeSession d !! newId env with
         | Some _ => (d, Thrown)
         | None =>
             let row := {| ts_id := newId env;
                           ts_description := sd_description data;
                           ts_startTime := sd_startTime data;
                           ts_endTime := sd_endTime data;
                           ts_durationSeconds := sd_durationSeconds data;
                           ts_mode := sd_mode data;
                           ts_projectId := sd_projectId data;
                           ts_userId := sd_userId data |} in
             (set_timeSession (<[newId env := row]> (timeSession d)) d, Done row)
         end.

(** [activeSessionData] of the upsert route.  [projectId] is always set
    (a string or [null]); [description] is a string or left out. *)
Record ActiveSessionData := {
  ad_startTime : Z;
  ad_mode : SessionMode;
  ad_userId : string;
  ad_projectId : option string;
  ad_description : option string;
  ad_targetSeconds : js_opt Z;
  ad_pomodoroPhase : js_opt PomodoroPhase;
  ad_pomodoroCycle : Z
}.

(** The row [create: data] makes. *)
Definition activeSession_created (id : string) (data : ActiveSessionData) : ActiveSession :=
  {| as_id := id;
     as_startTime := ad_startTime data;
     as_mode := ad_mode data;
     as_description := ad_description data;
     as_targetSeconds := to_column (ad_targetSeconds data);
     as_pomodoroPhase := to_column (ad_pomodoroPhase data);
     as_pomodoroCycle := ad_pomodoroCycle data;
     as_projectId := ad_projectId data;
     as_userId := ad_userId data |}.

(** The row [update: data] leaves: a property of [data] that is
    [undefined] does not touch its column. *)
Definition activeSession_updated (old : ActiveSession) (data : ActiveSessionData)
  : ActiveSession :=
  {| as_id := as_id old;
     as_startTime := ad_startTime data;
     as_mode := ad_mode data;
     as_description :=
       match ad_description data with
       | Some s => Some s
       | None => as_description old
       end;
     as_targetSeconds := update_column (ad_targetSeconds data) (as_targetSeconds old);
     as_pomodoroPhase := update_column (ad_pomodoroPhase data) (as_pomodoroPhase old);
     as_pomodoroCycle := ad_pomodoroCycle data;
     as_projectId := ad_projectId data;
     as_userId := ad_userId data |}.

(** [activeSession.upsert({ where: { userId }, update: data, create: data })] *)
Definition activeSession_upsert (env : Env) (userId : string) (data : ActiveSessionData)
  : Prisma ActiveSession :=
  fun d =>
    if upsert_fails env then (d, Thrown)
    else
      let row := match activeSession d !! userId with
                 | Some old => activeSession_updated old data
                 | None => activeSession_created (newId env) data
                 end in
      (set_activeSession (<[userId := row]> (activeSession d)) d, Done row).

(** ** The notifier and the request handlers *)

(** The process: the store and the ['activeSessionChange'] events the
    emitter has emitted so far, oldest first. *)
Record World := {
  db : Db;
  emitted : list string
}.

Definition set_db (d : Db) (w : World) : World :=
  {| db := d; emitted := emitted w |}.

Inductive Failure :=
  | NenhumaSessaoAtiva     (* 404, no active session *)
  | ProjetoNaoEncontrado   (* 404, project not found for this user *)
  | SessaoNaoEncontrada    (* 404, session not found for this user *)
  | DuracaoInvalida        (* 400, invalid duration *)
  | DadosInvalidos         (* 400, ZodError *)
  | DataInicioInvalida     (* 400, invalid start date *)
  | DataTerminoInvalida    (* 400, invalid end date *)
  | TerminoAntesDoInicio   (* 400, end before start *)
  | ErroInterno.           (* next(error): 500 from errorHandler *)

Definition status (f : Failure) : Z :=
  match f with
  | NenhumaSessaoAtiva | ProjetoNaoEncontrado | SessaoNaoEncontrada => 404
  | DuracaoInvalida | DadosInvalidos | DataInicioInvalida
  | DataTerminoInvalida | TerminoAntesDoInicio => 400
  | ErroInterno => 500
  end.

Inductive Reply (A : Type) : Type :=
  | Json (code : Z) (data : A)
  | Failed (f : Failure).
Arguments Json {A} code data.
Arguments Failed {A} f.

(** The HTTP status of a reply. *)
Definition reply_code {A} (r : Reply A) : Z :=
  match r with
  | Json code _ => code
  | Failed f => status f
  end.

Definition Handler (A : Type) : Type := World -> World * Reply A.

(** An awaited Prisma call inside [try { ... } catch (error) { next(error) }]. *)
Definition call {A R} (m : Prisma A) (k : A -> Handler R) : Handler R :=
  fun w =>
    match m (db w) with
    | (d, Done a) => k a (set_db d w)
    | (d, Thrown) => (set_db d w, Failed ErroInterno)
    end.

Definition respond {R} (r : Reply R) : Handler R := fun w => (w, r).

(** [activeSessionEmitter.notifyActiveSessionChange(userId)] *)
Definition notifyActiveSessionChange {R} (userId : string) (k : Handler R) : Handler R :=
  fun w => k {| db := db w; emitted := emitted w ++ [userId] |}.

Notation "'await' x ':=' m 'in' k" := (call m (fun x => k))
  (at level 10, x name, m at level 100, k at level 200, only parsing).

(** [s && s.trim() ? s.trim() : undefined], and the same test in the stop
    route. *)
Definition trimmed_or_undefined (s : string) : option string :=
  if truthy s && truthy (trim s) then Some (trim s) else None.

Definition min1 (v : js_opt string) : bool :=
  match v with
  | Val s => truthy s
  | Null | Undefined => true
  end.

Definition min0 (v : js_opt Z) : bool :=
  match v with
  | Val n => Z.leb 0 n
  | Null | Undefined => true
  end.

(** The ownership check shared by the routes: made only for a truthy
    [projectId]. *)
Definition check_project {R} (env : Env) (userId : string) (pid : js_opt string)
    (k : Handler R) : Handler R :=
  match or_null pid with
  | Some i =>
      await p := project_findFirst env i userId in
      match p with
      | Some _ => k
      | None => respond (Failed ProjetoNaoEncontrado)
      end
  | None => k
  end.

(** *** POST /sessions *)

(** The body once [createSessionSchema] has typed it: the two datetime
    strings are the instants they denote. *)
Record CreateBody := {
  cb_projectId : js_opt string;
  cb_description : option string;
  cb_startTime : Z;
  cb_endTime : Z;
  cb_durationSeconds : Z;
  cb_mode : SessionMode
}.

Definition createSessionSchema (b : CreateBody) : bool :=
  min1 (cb_projectId b) && Z.leb 0 (cb_durationSeconds b).

Definition post_session (env : Env) (userId : string) (body : CreateBody)
  : Handler (TimeSession * option ProjectSummary) :=
  if negb (createSessionSchema body) then respond (Failed DadosInvalidos)
  else
    check_project env userId (cb_projectId body) (
      let sessionData :=
        {| sd_description := cb_description body;
           sd_startTime := cb_startTime body;
           sd_endTime := cb_endTime body;
           sd_durationSeconds := cb_durationSeconds body;
           sd_mode := cb_mode body;
           sd_userId := userId;
           sd_projectId := or_null (cb_projectId body) |} in
      await session := timeSession_create env sessionData in
      fun w => (w, Json 201 (session, include_project (db w) (ts_projectId session)))).

(** *** GET /sessions/active *)

Definition get_active (env : Env) (userId : string)
  : Handler (ActiveSession * option ProjectSummary) :=
  await activeSession := activeSession_findUnique env userId in
  match activeSession with
  | None => respond (Failed NenhumaSessaoAtiva)
  | Some a => fun w => (w, Json 200 (a, include_project (db w) (as_projectId a)))
  end.

(** *** POST /sessions/active *)

Record ActiveBody := {
  ab_startTime : Z;
  ab_mode : SessionMode;
  ab_projectId : js_opt string;
  ab_description : option string;
  ab_targetSeconds : js_opt Z;
  ab_pomodoroPhase : js_opt PomodoroPhase;
  ab_pomodoroCycle : option Z
}.

Definition activeSessionSchema (b : ActiveBody) : bool :=
  min1 (ab_projectId b) && min0 (ab_targetSeconds b)
  && match ab_pomodoroCycle b with Some n => Z.leb 0 n | None => true end.

Definition activeSessionData (userId : string) (body : ActiveBody) : ActiveSessionData :=
  {| ad_startTime := ab_startTime body;
     ad_mode := ab_mode body;
     ad_userId := userId;
     ad_pomodoroCycle := default 0 (ab_pomodoroCycle body);
     ad_description := ab_description body ≫= trimmed_or_undefined;
     ad_projectId := or_null (ab_projectId body);
     ad_targetSeconds := ab_targetSeconds body;
     ad_pomodoroPhase := ab_pomodoroPhase body |}.

Definition post_active (env : Env) (userId : string) (body : ActiveBody)
  : Handler (ActiveSession * option ProjectSummary) :=
  if negb (activeSessionSchema body) then respond (Failed DadosInvalidos)
  else
    check_project env userId (ab_projectId body) (
      await activeSession := activeSession_upsert env userId (activeSessionData userId body) in
      notifyActiveSessionChange userId
        (fun w => (w, Json 200 (activeSession,
                                include_project (db w) (as_projectId activeSession))))).

(** *** DELETE /sessions/active *)

Definition elapsed (t startTime : Z) : Z := (t - startTime) / 1000.

Definition sessionData_of (endTime duration : Z) (userId : string) (a : ActiveSession)
  : SessionData :=
  {| sd_startTime := as_startTime a;
     sd_endTime := endTime;
     sd_durationSeconds := duration;
     sd_mode := as_mode a;
     sd_userId := userId;
     sd_projectId := as_projectId a ≫= fun i => if truthy i then Some i else None;
     sd_description := as_description a ≫= trimmed_or_undefined |}.

Definition delete_active (env : Env) (userId : string)
  : Handler (TimeSession * option ProjectSummary) :=
  await activeSession := activeSession_findUnique env userId in
  match activeSession with
  | None => respond (Failed NenhumaSessaoAtiva)
  | Some a =>
      let endTime := now env in
      let duration := elapsed endTime (as_startTime a) in
      if Z.leb duration 0 then
        await _ := activeSession_delete env userId in
        respond (Failed DuracaoInvalida)
      else
        let sessionData := sessionData_of endTime duration userId a in
        await result := transaction (
            let* timeSession := timeSession_create env sessionData in
            let* _ := activeSession_delete env userId in
            fun d => (d, Done (timeSession,
                               include_project d (ts_projectId timeSession)))) in
        notifyActiveSessionChange userId (respond (Json 200 result))
  end.

(** *** PATCH /sessions/:id *)

(** A string handed to [new Date], as the route reads it: falsy (left
    out or empty), not a date ([NaN]), or an instant. *)
Inductive DateField :=
  | NoDate
  | InvalidDate
  | ValidDate (t : Z).

Record UpdateBody := {
  ub_description : option string;
  ub_projectId : js_opt string;
  ub_startTime : DateField;
  ub_endTime : DateField
}.

Definition updateSessionSchema (b : UpdateBody) : bool := min1 (ub_projectId b).

Record UpdateData := {
  ud_description : option string;
  ud_projectId : option (option string);
  ud_startTime : option Z;
  ud_endTime : option Z;
  ud_durationSeconds : option Z
}.

Definition timeSession_updated (old : TimeSession) (data : UpdateData) : TimeSession :=
  {| ts_id := ts_id old;
     ts_description :=
       match ud_description data with Some s => Some s | None => ts_description old end;
     ts_startTime := default (ts_startTime old) (ud_startTime data);
     ts_endTime := default (ts_endTime old) (ud_endTime data);
     ts_durationSeconds := default (ts_durationSeconds old) (ud_durationSeconds data);
     ts_mode := ts_mode old;
     ts_projectId := default (ts_projectId old) (ud_projectId data);
     ts_userId := ts_userId old |}.

(** [timeSession.findFirst({ where: { id, userId } })] *)
Definition timeSession_findFirst (env : Env) (id userId : string)
  : Prisma (option TimeSession) :=
  fun d =>
    if find_fails env then (d, Thrown)
    else (d, Done (s ← timeSession d !! id;
                   if decide (ts_userId s = userId) then Some s else None)).

(** [timeSession.update({ where: { id }, data })] *)
Definition timeSession_update (env : Env) (id : string) (data : UpdateData)
  : Prisma TimeSession :=
  fun d =>
    if update_fails env then (d, Thrown)
    else match timeSession d !! id with
         | Some old =>
             let row := timeSession_updated old data in
             (set_timeSession (<[id := row]> (timeSession d)) d, Done row)
         | None => (d, Thrown)
         end.

Definition supplied (f : DateField) : bool :=
  match f with NoDate => false | _ => true end.

Definition patch_session (env : Env) (userId id : string) (body : UpdateBody)
  : Handler (TimeSession * option ProjectSummary) :=
  if negb (updateSessionSchema body) then respond (Failed DadosInvalidos)
  else
    await existingSession := timeSession_findFirst env id userId in
    match existingSession with
    | None => respond (Failed SessaoNaoEncontrada)
    | Some existing =>
        check_project env userId (ub_projectId body) (
          match ub_startTime body with
          | InvalidDate => respond (Failed DataInicioInvalida)
          | st =>
            match ub_endTime body with
            | InvalidDate => respond (Failed DataTerminoInvalida)
            | en =>
              let startTime := match st with ValidDate t => Some t | _ => None end in
              let endTime := match en with ValidDate t => Some t | _ => None end in
              let newStartTime := default (ts_startTime existing) startTime in
              let newEndTime := default (ts_endTime existing) endTime in
              let durationSeconds :=
                if supplied st || supplied en
                then Some ((newEndTime - newStartTime) / 1000) else None in
              if match durationSeconds with Some n => Z.ltb n 0 | None => false end
              then respond (Failed TerminoAntesDoInicio)
              else
                let updateData :=
                  {| ud_description := ub_description body;
                     ud_projectId :=
                       match ub_projectId body with
                       | Undefined => None
                       | v => Some (or_null v)
                       end;
                     ud_startTime := startTime;
                     ud_endTime := endTime;
                     ud_durationSeconds := durationSeconds |} in
                await session := timeSession_update env id updateData in
                fun w => (w, Json 200 (session,
                                       include_project (db w) (ts_projectId session)))
            end
          end)
    end.

(** ** GET /sessions/active/stream *)

(** What [findUnique] with [include: { project }] resolves to. *)
Definition Fetched : Type := option (ActiveSession * option ProjectSummary).

(** The active event; [pl_startTime] is the instant [toISOString]
    renders. *)
Record ActivePayload := {
  pl_id : string;
  pl_startTime : Z;
  pl_mode : SessionMode;
  pl_projectId : option string;
  pl_description : option string;
  pl_targetSeconds : option Z;
  pl_pomodoroPhase : option PomodoroPhase;
  pl_pomodoroCycle : Z;
  pl_project : option ProjectSummary;
  pl_elapsedSeconds : Z
}.

(** The three objects the route hands to [sendEvent]. *)
Inductive Event :=
  | StateActive (p : ActivePayload)   (* { active: true, ..., elapsedSeconds } *)
  | StateInactive                     (* { active: false, elapsedSeconds: 0 } *)
  | StateError.                       (* { active: false, error } *)

Definition ev_active (e : Event) : bool :=
  match e with StateActive _ => true | _ => false end.

Definition ev_elapsedSeconds (e : Event) : option Z :=
  match e with
  | StateActive p => Some (pl_elapsedSeconds p)
  | StateInactive => Some 0
  | StateError => None
  end.

(** The variables the route's closures share, with two counters kept
    for the proofs: the events handed to [sendEvent], oldest first, and
    how many [findUnique] calls the connection has issued. *)
Record Conn := {
  conn_userId : string;
  cachedState : option Fetched;     (* [null], or [{ activeSession }] *)
  lastQueryTime : Z;
  isClosed : bool;
  written : list Event;
  queries : nat
}.

Definition QUERY_CACHE_MS : Z := 100.

Definition sendEvent (e : Event) (c : Conn) : Conn :=
  {| conn_userId := conn_userId c; cachedState := cachedState c;
     lastQueryTime := lastQueryTime c; isClosed := isClosed c;
     written := written c ++ [e]; queries := queries c |}.

Definition payload (a : ActiveSession) (p : option ProjectSummary) (elapsedSeconds : Z)
  : ActivePayload :=
  {| pl_id := as_id a;
     pl_startTime := as_startTime a;
     pl_mode := as_mode a;
     pl_projectId := as_projectId a;
     pl_description := as_description a;
     pl_targetSeconds := as_targetSeconds a;
     pl_pomodoroPhase := as_pomodoroPhase a;
     pl_pomodoroCycle := as_pomodoroCycle a;
     pl_project := p;
     pl_elapsedSeconds := elapsedSeconds |}.

Definition fetch (userId : string) (d : Db) : Fetched :=
  a ← activeSession d !! userId; Some (a, include_project d (as_projectId a)).

(** The event [sendCurrentState] builds from [activeSession]. *)
Definition state_event (f : Fetched) (currentTime : Z) : Event :=
  match f with
  | Some (a, p) => StateActive (payload a p (elapsed currentTime (as_startTime a)))
  | None => StateInactive
  end.

(** [sendCurrentState(forceQuery)], run when the clock reads [t]
    ([Date.now()]) and then [currentTime] ([new Date()] after the await),
    against the store [d]; [fails] says whether the query rejects. *)
Definition sendCurrentState (forceQuery : bool) (t currentTime : Z) (fails : bool)
    (d : Db) (c : Conn) : Conn :=
  let shouldQuery := forceQuery || Z.ltb QUERY_CACHE_MS (t - lastQueryTime c) in
  if shouldQuery then
    let c1 := {| conn_userId := conn_userId c; cachedState := cachedState c;
                 lastQueryTime := lastQueryTime c; isClosed := isClosed c;
                 written := written c; queries := S (queries c) |} in
    if fails then sendEvent StateError c1
    else
      let activeSession := fetch (conn_userId c) d in
      sendEvent (state_event activeSession currentTime)
        {| conn_userId := conn_userId c1; cachedState := Some activeSession;
           lastQueryTime := t; isClosed := isClosed c1;
           written := written c1; queries := queries c1 |}
  else
    sendEvent (state_event (mjoin (cachedState c)) currentTime) c.

(** The connection as the route leaves it once it has returned: fresh
    variables, then [await sendCurrentState(true)]. *)
Definition stream_opening (userId : string) : Conn :=
  {| conn_userId := userId; cachedState := None; lastQueryTime := 0;
     isClosed := false; written := []; queries := 0 |}.

Definition open_stream (userId : string) (t currentTime : Z) (fails : bool) (d : Db)
  : Conn :=
  sendCurrentState true t currentTime fails d (stream_opening userId).

Definition onChangeHandler (changedUserId : string) (t currentTime : Z) (fails : bool)
    (d : Db) (c : Conn) : Conn :=
  if decide (changedUserId = conn_userId c)
  then sendCurrentState true t currentTime fails d c
  else c.

(** One firing of the [setInterval] callback at clock reading [t]. *)
Definition tick (t : Z) (c : Conn) : Conn :=
  if isClosed c then c
  else match cachedState c with
       | Some (Some (a, p)) =>
           sendEvent (StateActive (payload a p (elapsed t (as_startTime a)))) c
       | _ => c
       end.

Definition cleanup (c : Conn) : Conn :=
  {| conn_userId := conn_userId c; cachedState := cachedState c;
     lastQueryTime := lastQueryTime c; isClosed := true;
     written := written c; queries := queries c |}.

(** What can happen to an open connection.  After [cleanup] the listener
    is removed, so a change event no longer reaches the handler. *)
Inductive StreamStep :=
  | Tick (t : Z)
  | Change (changedUserId : string) (t currentTime : Z) (fails : bool) (d : Db)
  | Close.

Definition stream_step (c : Conn) (s : StreamStep) : Conn :=
  match s with
  | Tick t => tick t c
  | Change u t currentTime fails d =>
      if isClosed c then c else onChangeHandler u t currentTime fails d c
  | Close => cleanup c
  end.

Definition stream_run (c : Conn) (steps : list StreamStep) : Conn :=
  foldl stream_step c steps.

(** ** Predicates and values used in the statements *)

(** A description is stored trimmed and never blank; a project id is
    never empty. *)
Definition clean_description (o : option string) : Prop :=
  match o with
  | Some s => s <> "" /\ trim s = s
  | None => True
  end.

Definition clean_projectId (o : option string) : Prop :=
  match o with
  | Some i => i <> ""
  | None => True
  end.

Definition as_upserted (a : ActiveSession) : Prop :=
  clean_description (as_description a) /\ clean_projectId (as_projectId a).

(** The row a successful promotion of [a] at [now env] creates. *)
Definition promoted_row (env : Env) (userId : string) (a : ActiveSession) : TimeSession :=
  {| ts_id := newId env;
     ts_description := as_description a ≫= trimmed_or_undefined;
     ts_startTime := as_startTime a;
     ts_endTime := now env;
     ts_durationSeconds := elapsed (now env) (as_startTime a);
     ts_mode := as_mode a;
     ts_projectId := as_projectId a ≫= (fun i => if truthy i then Some i else None);
     ts_userId := userId |}.


(** A small store for the examples: user [u1] owns project [p1] and runs
    a pomodoro timer started at instant 1000. *)
Definition demo_project : Project :=
  {| p_id := "p1"; p_name := "Thesis"; p_color := "blue"; p_userId := "u1" |}.

Definition demo_slot : ActiveSession :=
  {| as_id := "a1"; as_startTime := 1000; as_mode := pomodoro;
     as_description := Some "write report"; as_targetSeconds := Some 1500;
     as_pomodoroPhase := Some work; as_pomodoroCycle := 0;
     as_projectId := Some "p1"; as_userId := "u1" |}.

Definition demo_db : Db :=
  {| project := {[ "p1" := demo_project ]};
     activeSession := {[ "u1" := demo_slot ]};
     timeSession := ∅ |}.

Definition demo_world : World := {| db := demo_db; emitted := [] |}.

Definition idle_world : World :=
  {| db := {| project := {[ "p1" := demo_project ]};
              activeSession := ∅; timeSession := ∅ |};
     emitted := [] |}.

(** A request served at clock reading [t] with no storage fault. *)
Definition demo_env (t : Z) : Env :=
  {| now := t; newId := "s1"; find_fails := false; create_fails := false;
     delete_fails := false; upsert_fails := false; update_fails := false |}.

(** Two upsert bodies: the first supplies every field, the second leaves
    out everything that is optional. *)
Definition first_body : ActiveBody :=
  {| ab_startTime := 1000; ab_mode := pomodoro; ab_projectId := Val "p1";
     ab_description := Some "write report"; ab_targetSeconds := Val 1500;
     ab_pomodoroPhase := Val work; ab_pomodoroCycle := Some 1 |}.

Definition second_body : ActiveBody :=
  {| ab_startTime := 2000; ab_mode := stopwatch; ab_projectId := Undefined;
     ab_description := None; ab_targetSeconds := Undefined;
     ab_pomodoroPhase := Undefined; ab_pomodoroCycle := None |}.

(** A first call for a user without a slot: a padded description, no
    cycle, [null] for the project and the phase. *)
Definition padded_call : ActiveBody :=
  {| ab_startTime := 3000; ab_mode := timer; ab_projectId := Null;
     ab_description := Some "  deep work "; ab_targetSeconds := Val 600;
     ab_pomodoroPhase := Null; ab_pomodoroCycle := None |}.

Definition after_first_upsert : World :=
  (post_active (demo_env 1000) "u1" first_body idle_world).1.

Definition after_second_upsert : World :=
  (post_active (demo_env 2000) "u1" second_body after_first_upsert).1.

(** A create body whose duration disagrees with its two instants, ten
    seconds apart. *)
Definition skewed_body : CreateBody :=
  {| cb_projectId := Null; cb_description := None; cb_startTime := 0;
     cb_endTime := 10000; cb_durationSeconds := 999; cb_mode := stopwatch |}.

(** A create body of zero seconds between two equal instants. *)
Definition zero_body : CreateBody :=
  {| cb_projectId := Null; cb_description := None; cb_startTime := 5000;
     cb_endTime := 5000; cb_durationSeconds := 0; cb_mode := timer |}.

Definition after_create : World :=
  (post_session (demo_env 20000) "u1" skewed_body idle_world).1.

(** A patch that moves the end of a session. *)
Definition move_end (t : Z) : UpdateBody :=
  {| ub_description := None; ub_projectId := Undefined;
     ub_startTime := NoDate; ub_endTime := ValidDate t |}.

(** A change event for the connection's own user, as a stream step. *)
Definition own_change (c : Conn) (e : Z * Z * bool * Db) : StreamStep :=
  let '(t, currentTime, fails, d) := e in
  Change (conn_userId c) t currentTime fails d.

(** A stream opened by [u1] at clock reading 5000 over the demo store,
    and one opened over the store without a slot. *)
Definition demo_conn : Conn := open_stream "u1" 5000 5000 false demo_db.

Definition idle_conn : Conn := open_stream "u1" 5000 5000 false (db idle_world).

(** Two change events 10 and 20 ms after the opening query. *)
Definition demo_burst : list StreamStep :=
  [Change "u1" 5010 5010 false demo_db; Change "u1" 5020 5021 false demo_db].

(** Every slot of the register is one the upsert route wrote. *)
Definition register_clean (w : World) : Prop :=
  forall userId a, activeSession (db w) !! userId = Some a -> as_upserted a.

(** The worlds the session routes reach from a store whose register is
    empty, whatever the requests, the clock and the storage faults. *)
Inductive reachable : World -> Prop :=
  | reach_start (d : Db) :
      activeSession d = ∅ -> reachable {| db := d; emitted := [] |}
  | reach_post_session env userId body w :
      reachable w -> reachable (post_session env userId body w).1
  | reach_patch_session env userId id body w :
      reachable w -> reachable (patch_session env userId id body w).1
  | reach_post_active env userId body w :
      reachable w -> reachable (post_active env userId body w).1
  | reach_delete_active env userId w :
      reachable w -> reachable (delete_active env userId w).1.

(** * The rest of the session routes *)

(** *** DELETE /sessions/:id *)

(** [timeSession.delete({ where: { id } })]; a missing row rejects. *)
Definition timeSession_delete (env : Env) (id : string) : Prisma TimeSession :=
  fun d =>
    if delete_fails env then (d, Thrown)
    else match timeSession d !! id with
         | Some s => (set_timeSession (delete id (timeSession d)) d, Done s)
         | None => (d, Thrown)
         end.

(** The route answers [res.status(204).send()], a 204 without a body. *)
Definition delete_session (env : Env) (userId id : string) : Handler unit :=
  await session := timeSession_findFirst env id userId in
  match session with
  | None => respond (Failed SessaoNaoEncontrada)
  | Some _ =>
      await _ := timeSession_delete env id in
      respond (Json 204 tt)
  end.

(** ** Values for the examples *)

(** A body that names a project nobody owns. *)
Definition foreign_body : ActiveBody :=
  {| ab_startTime := 1000; ab_mode := timer; ab_projectId := Val "p9";
     ab_description := None; ab_targetSeconds := Undefined;
     ab_pomodoroPhase := Undefined; ab_pomodoroCycle := None |}.

(** A body with a padded description and nothing else optional. *)
Definition padded_body : ActiveBody :=
  {| ab_startTime := 1000; ab_mode := stopwatch; ab_projectId := Undefined;
     ab_description := Some "  draft  "; ab_targetSeconds := Undefined;
     ab_pomodoroPhase := Undefined; ab_pomodoroCycle := None |}.

Definition after_padded_start : World :=
  (post_active (demo_env 1000) "u1" padded_body idle_world).1.

(** The demo store with one historical session of [u1]. *)
Definition demo_session : TimeSession :=
  {| ts_id := "s0"; ts_description := None; ts_startTime := 0; ts_endTime := 60000;
     ts_durationSeconds := 60; ts_mode := stopwatch; ts_projectId := Some "p1";
     ts_userId := "u1" |}.

Definition history_world : World :=
  {| db := {| project := {[ "p1" := demo_project ]};
              activeSession := {[ "u1" := demo_slot ]};
              timeSession := {[ "s0" := demo_session ]} |};
     emitted := [] |}.

(** Whether a stream step is a change event for user [u]. *)
Definition is_change_of (u : string) (s : StreamStep) : bool :=
  match s with
  | Change u' _ _ _ _ => bool_decide (u' = u)
  | Tick _ | Close => false
  end.

Definition is_close (s : StreamStep) : bool :=
  match s with Close => true | _ => false end.

(** What every slot of the register looks like: it is filed under its
    own user, written as the upsert route writes, and its numbers are
    those the body schema lets through. *)
Definition slot_wf (userId : string) (a : ActiveSession) : Prop :=
  as_userId a = userId
  /\ as_upserted a
  /\ 0 <= as_pomodoroCycle a
  /\ (forall n, as_targetSeconds a = Some n -> 0 <= n).

(** A patch of the description alone, and one whose end is not a date. *)
Definition rename_to (s : string) : UpdateBody :=
  {| ub_description := Some s; ub_projectId := Undefined;
     ub_startTime := NoDate; ub_endTime := NoDate |}.

Definition bad_end : UpdateBody :=
  {| ub_description := None; ub_projectId := Undefined;
     ub_startTime := NoDate; ub_endTime := InvalidDate |}.

(** The demo stream after a query of its own that was rejected. *)
Definition demo_conn_after_fault : Conn :=
  sendCurrentState true 6000 6000 true demo_db demo_conn.

(** A mixed run: ticks, a change for another user, two changes for
    [u1]. *)
Definition mixed_steps : list StreamStep :=
  [Tick 6000; Change "u2" 6100 6100 false demo_db; Change "u1" 6200 6200 false demo_db;
   Tick 7000; Change "u1" 7100 7100 true demo_db; Tick 8000].

(** * Pomodoro settings ([src/modules/settings/routes.ts]) *)

Record PomodoroSettings := {
  pm_id : string;
  pm_workMinutes : Z;
  pm_shortBreakMinutes : Z;
  pm_longBreakMinutes : Z;
  pm_longBreakInterval : Z;
  pm_autoStartBreak : bool;
  pm_userId : string
}.

(** The body of the PUT route; a property left out is [None].  The
    numbers are integers: what [.int()] or the type checks of zod refuse
    is not a value of this type. *)
Record SettingsBody := {
  sb_workMinutes : option Z;
  sb_shortBreakMinutes : option Z;
  sb_longBreakMinutes : option Z;
  sb_longBreakInterval : option Z;
  sb_autoStartBreak : option bool
}.

(** What [pomodoroSettingsSchema.parse] returns: every property set. *)
Record SettingsData := {
  st_workMinutes : Z;
  st_shortBreakMinutes : Z;
  st_longBreakMinutes : Z;
  st_longBreakInterval : Z;
  st_autoStartBreak : bool
}.

(** [z.number().int().positive().default(dflt)] *)
Definition positive_default (dflt : Z) (v : option Z) : option Z :=
  match v with
  | None => Some dflt
  | Some n => if Z.ltb 0 n then Some n else None
  end.

Definition pomodoroSettingsSchema (b : SettingsBody) : option SettingsData :=
  workMinutes ← positive_default 25 (sb_workMinutes b);
  shortBreakMinutes ← positive_default 5 (sb_shortBreakMinutes b);
  longBreakMinutes ← positive_default 15 (sb_longBreakMinutes b);
  longBreakInterval ← positive_default 4 (sb_longBreakInterval b);
  Some {| st_workMinutes := workMinutes;
          st_shortBreakMinutes := shortBreakMinutes;
          st_longBreakMinutes := longBreakMinutes;
          st_longBreakInterval := longBreakInterval;
          st_autoStartBreak := default false (sb_autoStartBreak b) |}.

Definition settings_row (id userId : string) (data : SettingsData) : PomodoroSettings :=
  {| pm_id := id;
     pm_workMinutes := st_workMinutes data;
     pm_shortBreakMinutes := st_shortBreakMinutes data;
     pm_longBreakMinutes := st_longBreakMinutes data;
     pm_longBreakInterval := st_longBreakInterval data;
     pm_autoStartBreak := st_autoStartBreak data;
     pm_userId := userId |}.

(** The data the GET route creates a missing row with. *)
Definition default_settings : SettingsData :=
  {| st_workMinutes := 25; st_shortBreakMinutes := 5; st_longBreakMinutes := 15;
     st_longBreakInterval := 4; st_autoStartBreak := false |}.

(** GET /settings/pomodoro over the [PomodoroSettings] table, keyed by
    its unique [userId]. *)
Definition get_pomodoro (env : Env) (userId : string)
    (m : gmap string PomodoroSettings)
  : gmap string PomodoroSettings * Reply PomodoroSettings :=
  if find_fails env then (m, Failed ErroInterno)
  else match m !! userId with
       | Some settings => (m, Json 200 settings)
       | None =>
           if create_fails env then (m, Failed ErroInterno)
           else
             let settings := settings_row (newId env) userId default_settings in
             (<[userId := settings]> m, Json 200 settings)
       end.

(** PUT /settings/pomodoro: [upsert] with [update: body] and
    [create: { userId, ...body }]. *)
Definition put_pomodoro (env : Env) (userId : string) (body : SettingsBody)
    (m : gmap string PomodoroSettings)
  : gmap string PomodoroSettings * Reply PomodoroSettings :=
  match pomodoroSettingsSchema body with
  | None => (m, Failed DadosInvalidos)
  | Some data =>
      if upsert_fails env then (m, Failed ErroInterno)
      else
        let settings :=
          match m !! userId with
          | Some old => settings_row (pm_id old) (pm_userId old) data
          | None => settings_row (newId env) userId data
          end in
        (<[userId := settings]> m, Json 200 settings)
  end.

(** Every stored duration and interval is positive, and each row is
    filed under its own user. *)
Definition settings_ok (m : gmap string PomodoroSettings) : Prop :=
  forall userId s, m !! userId = Some s ->
    pm_userId s = userId
    /\ 0 < pm_workMinutes s /\ 0 < pm_shortBreakMinutes s
    /\ 0 < pm_longBreakMinutes s /\ 0 < pm_longBreakInterval s.

(** Example bodies and a store. *)
Definition long_work : SettingsBody :=
  {| sb_workMinutes := Some 50; sb_shortBreakMinutes := Some 10;
     sb_longBreakMinutes := None; sb_longBreakInterval := None;
     sb_autoStartBreak := Some true |}.

Definition only_interval : SettingsBody :=
  {| sb_workMinutes := None; sb_shortBreakMinutes := None;
     sb_longBreakMinutes := None; sb_longBreakInterval := Some 2;
     sb_autoStartBreak := None |}.

Definition zero_work : SettingsBody :=
  {| sb_workMinutes := Some 0; sb_shortBreakMinutes := None;
     sb_longBreakMinutes := None; sb_longBreakInterval := None;
     sb_autoStartBreak := None |}.

Definition settings_after_put : gmap string PomodoroSettings :=
  (put_pomodoro (demo_env 0) "u1" long_work ∅).1.

(** * Access tokens ([middleware/authToken.ts], [modules/tokens/routes.ts]) *)

Record AccessToken := {
  at_id : string;
  at_token : string;
  at_createdAt : Z;
  at_lastUsedAt : option Z;
  at_revokedAt : option Z;
  at_userId : string
}.

(** [s.substring(n)] *)
Fixpoint substring_from (n : nat) (s : string) : string :=
  match n, s with
  | O, _ => s
  | S n', String _ s' => substring_from n' s'
  | S _, EmptyString => EmptyString
  end.

(** The [token] variable of the middleware once both branches are
    past: the rest of a header that starts with ["Bearer "], trimmed, or
    else a truthy query token. *)
Definition presented_token (authHeader queryToken : option string) : option string :=
  match authHeader with
  | Some h =>
      if String.prefix "Bearer " h then Some (trim (substring_from 7 h))
      else queryToken ≫= fun q => if truthy q then Some q else None
  | None => queryToken ≫= fun q => if truthy q then Some q else None
  end.

(** [accessToken.findFirst({ where: { token, revokedAt: null } })] *)
Definition accessToken_findValid (token : string) (rows : list AccessToken)
  : option AccessToken :=
  List.find (fun r => bool_decide (at_token r = token)
                      && bool_decide (at_revokedAt r = None)) rows.

(** [accessToken.update({ where: { id }, data: { lastUsedAt } })] *)
Definition accessToken_touch (id : string) (t : Z) (rows : list AccessToken)
  : list AccessToken :=
  List.map (fun r => if bool_decide (at_id r = id)
                     then {| at_id := at_id r; at_token := at_token r;
                             at_createdAt := at_createdAt r; at_lastUsedAt := Some t;
                             at_revokedAt := at_revokedAt r; at_userId := at_userId r |}
                     else r) rows.

Inductive AuthResult :=
  | Next (userId : string)   (* [req.userId] set, [next()] called *)
  | TokenAusente             (* 401, token missing *)
  | TokenInvalido            (* 401, token unknown or revoked *)
  | ErroDeAutenticacao.      (* 500, a rejected call *)

Definition authToken (env : Env) (authHeader queryToken : option string)
    (rows : list AccessToken) : list AccessToken * AuthResult :=
  match presented_token authHeader queryToken with
  | None => (rows, TokenAusente)
  | Some token =>
      if negb (truthy token) then (rows, TokenAusente)
      else if find_fails env then (rows, ErroDeAutenticacao)
      else match accessToken_findValid token rows with
           | None => (rows, TokenInvalido)
           | Some accessToken =>
               if update_fails env then (rows, ErroDeAutenticacao)
               else (accessToken_touch (at_id accessToken) (now env) rows,
                     Next (at_userId accessToken))
           end
  end.

Inductive TokenReply :=
  | TokenCreated (id token : string) (createdAt : Z)   (* 201 *)
  | TokenDeleted                                       (* 204 *)
  | TokenNaoEncontrado                                 (* 404 *)
  | TokenErro.                                         (* next(error): 500 *)

(** POST /tokens; [token] is the hex string of the 32 random bytes.
    The table refuses a token already stored (unique index). *)
Definition post_token (env : Env) (userId token : string) (rows : list AccessToken)
  : list AccessToken * TokenReply :=
  if create_fails env then (rows, TokenErro)
  else if existsb (fun r => bool_decide (at_token r = token)
                            || bool_decide (at_id r = newId env)) rows
       then (rows, TokenErro)
       else (rows ++ [{| at_id := newId env; at_token := token; at_createdAt := now env;
                         at_lastUsedAt := None; at_revokedAt := None;
                         at_userId := userId |}],
             TokenCreated (newId env) token (now env)).

(** DELETE /tokens/:id *)
Definition delete_token (env : Env) (userId id : string) (rows : list AccessToken)
  : list AccessToken * TokenReply :=
  if find_fails env then (rows, TokenErro)
  else match List.find (fun r => bool_decide (at_id r = id)
                                 && bool_decide (at_userId r = userId)) rows with
       | None => (rows, TokenNaoEncontrado)
       | Some _ =>
           if delete_fails env then (rows, TokenErro)
           else (List.filter (fun r => negb (bool_decide (at_id r = id))) rows,
                 TokenDeleted)
       end.

(** The two unique indexes of the table. *)
Definition tokens_unique (rows : list AccessToken) : Prop :=
  NoDup (List.map at_token rows) /\ NoDup (List.map at_id rows).

(** A row with everything but [lastUsedAt]. *)
Definition without_lastUsedAt (r : AccessToken) : AccessToken :=
  {| at_id := at_id r; at_token := at_token r; at_createdAt := at_createdAt r;
     at_lastUsedAt := None; at_revokedAt := at_revokedAt r; at_userId := at_userId r |}.

(** Example rows: a live token of [u1] and a revoked one of [u2]. *)
Definition demo_tokens : list AccessToken :=
  [{| at_id := "t1"; at_token := "abc123"; at_createdAt := 10; at_lastUsedAt := None;
      at_revokedAt := None; at_userId := "u1" |};
   {| at_id := "t2"; at_token := "def456"; at_createdAt := 20; at_lastUsedAt := Some 30;
      at_revokedAt := Some 40; at_userId := "u2" |}].

(** * Reports ([src/modules/reports/routes.ts]) *)

#[global] Instance SessionMode_eq_dec : EqDecision SessionMode.
Proof. solve_decision. Defined.

(** [findMany] with [where: { userId, mode?, startTime: { gte, lte } }]
    and the project joined.  No [orderBy] is given: the rows come in the
    store's order, here that of [map_to_list]. *)
Definition in_period (userId : string) (mode : option SessionMode)
    (fromDate toDate : Z) (s : TimeSession) : bool :=
  bool_decide (ts_userId s = userId)
  && match mode with
     | Some m => bool_decide (ts_mode s = m)
     | None => true
     end
  && Z.leb fromDate (ts_startTime s) && Z.leb (ts_startTime s) toDate.

Definition timeSession_findMany (userId : string) (mode : option SessionMode)
    (fromDate toDate : Z) (d : Db) : list (TimeSession * option ProjectSummary) :=
  List.map (fun s => (s, include_project d (ts_projectId s)))
    (List.filter (in_period userId mode fromDate toDate)
       (List.map snd (map_to_list (timeSession d)))).

(** An entry of [byProject]; the pomodoro report has [count] alone,
    kept here in [pt_sessionCount] with [pt_totalSeconds] unused. *)
Record ProjectTotal := {
  pt_project : option ProjectSummary;
  pt_totalSeconds : Z;
  pt_sessionCount : Z
}.

(** [session.projectId] as a property name: [null] reads ["null"]. *)
Definition project_key (pid : option string) : string := default "null" pid.

(** One turn of the loop of the summary.  [byProject] is a plain object
    used as a dictionary, here a map; an id that names a member of
    [Object.prototype] is outside the model. *)
Definition add_session (byProject : gmap string ProjectTotal)
    (session : TimeSession * option ProjectSummary) : gmap string ProjectTotal :=
  let projectId := project_key (ts_projectId session.1) in
  let entry := default {| pt_project := session.2; pt_totalSeconds := 0;
                          pt_sessionCount := 0 |} (byProject !! projectId) in
  <[projectId := {| pt_project := pt_project entry;
                    pt_totalSeconds := pt_totalSeconds entry + ts_durationSeconds session.1;
                    pt_sessionCount := pt_sessionCount entry + 1 |}]> byProject.

(** One turn of the loop of the pomodoro report. *)
Definition count_session (byProject : gmap string ProjectTotal)
    (session : TimeSession * option ProjectSummary) : gmap string ProjectTotal :=
  let projectId := project_key (ts_projectId session.1) in
  let entry := default {| pt_project := session.2; pt_totalSeconds := 0;
                          pt_sessionCount := 0 |} (byProject !! projectId) in
  <[projectId := {| pt_project := pt_project entry;
                    pt_totalSeconds := pt_totalSeconds entry;
                    pt_sessionCount := pt_sessionCount entry + 1 |}]> byProject.

(** The [data] of the two reports, for a period that ends up as
    [fromDate] to [toDate] once [setHours] has run.  [totalHours], the
    floating-point quotient [totalSeconds / 3600], is left out, and
    [byProject] stands for [Object.values(byProject)] up to order. *)
Record Summary := {
  su_from : Z;
  su_to : Z;
  su_totalSeconds : Z;
  su_byProject : gmap string ProjectTotal;
  su_sessionCount : Z
}.

Definition get_summary (env : Env) (userId : string) (fromDate toDate : Z) (d : Db)
  : Reply Summary :=
  if find_fails env then Failed ErroInterno
  else
    let sessions := timeSession_findMany userId None fromDate toDate d in
    Json 200 {| su_from := fromDate; su_to := toDate;
                su_totalSeconds :=
                  foldl (fun sum s => sum + ts_durationSeconds s.1) 0 sessions;
                su_byProject := foldl add_session ∅ sessions;
                su_sessionCount := Z.of_nat (List.length sessions) |}.

Record PomodoroReport := {
  pr_from : Z;
  pr_to : Z;
  pr_total : Z;
  pr_byProject : gmap string ProjectTotal
}.

Definition get_pomodoro_report (env : Env) (userId : string) (fromDate toDate : Z)
    (d : Db) : Reply PomodoroReport :=
  if find_fails env then Failed ErroInterno
  else
    let pomodoroSessions := timeSession_findMany userId (Some pomodoro) fromDate toDate d in
    Json 200 {| pr_from := fromDate; pr_to := toDate;
                pr_total := Z.of_nat (List.length pomodoroSessions);
                pr_byProject := foldl count_session ∅ pomodoroSessions |}.

(** The sum of one column of [byProject]. *)
Definition total_of (f : ProjectTotal -> Z) (m : gmap string ProjectTotal) : Z :=
  map_fold (fun _ e acc => f e + acc) 0 m.

(** The sessions filed under key [k], and the sum of their durations. *)
Definition under_key (k : string) (sessions : list (TimeSession * option ProjectSummary))
  : list (TimeSession * option ProjectSummary) :=
  List.filter (fun s => bool_decide (project_key (ts_projectId s.1) = k)) sessions.

Definition seconds_of (sessions : list (TimeSession * option ProjectSummary)) : Z :=
  foldr (fun s acc => ts_durationSeconds s.1 + acc) 0 sessions.

(** A store with three sessions of [u1], two on project [p1] and one
    without project, and one session of [u2]. *)
Definition report_db : Db :=
  {| project := {[ "p1" := demo_project ]};
     activeSession := ∅;
     timeSession :=
       {[ "s0" := demo_session;
          "s2" := {| ts_id := "s2"; ts_description := None; ts_startTime := 100000;
                     ts_endTime := 1600000; ts_durationSeconds := 1500; ts_mode := pomodoro;
                     ts_projectId := Some "p1"; ts_userId := "u1" |};
          "s3" := {| ts_id := "s3"; ts_description := None; ts_startTime := 200000;
                     ts_endTime := 230000; ts_durationSeconds := 30; ts_mode := timer;
                     ts_projectId := None; ts_userId := "u1" |};
          "s4" := {| ts_id := "s4"; ts_description := None; ts_startTime := 300000;
                     ts_endTime := 400000; ts_durationSeconds := 100; ts_mode := pomodoro;
                     ts_projectId := None; ts_userId := "u2" |} ]} |}.

(** The two loops are one, up to what a session weighs in
    [totalSeconds]. *)
Definition bump (weight : TimeSession -> Z) (byProject : gmap string ProjectTotal)
    (session : TimeSession * option ProjectSummary) : gmap string ProjectTotal :=
  let projectId := project_key (ts_projectId session.1) in
  let entry := default {| pt_project := session.2; pt_totalSeconds := 0;
                          pt_sessionCount := 0 |} (byProject !! projectId) in
  <[projectId := {| pt_project := pt_project entry;
                    pt_totalSeconds := pt_totalSeconds entry + weight session.1;
                    pt_sessionCount := pt_sessionCount entry + 1 |}]> byProject.

Definition weight_of (weight : TimeSession -> Z)
    (sessions : list (TimeSession * option ProjectSummary)) : Z :=
  foldr (fun s acc => weight s.1 + acc) 0 sessions.

(** * Projects (the project routes) *)

(** The project routes have no [try]/[catch]: when a Prisma call
    rejects, the route sends nothing ([Unanswered]). *)
Inductive ProjectFailure :=
  | ProjetoDadosInvalidos   (* 400, invalid body *)
  | ProjetoInexistente      (* 404, project not found for this user *)
  | ProjetoComSessoes.      (* 400, project still has sessions *)

Inductive ProjectReply (A : Type) : Type :=
  | Answered (code : Z) (data : A)
  | Refused (f : ProjectFailure)
  | Unanswered.
Arguments Answered {A} code data.
Arguments Refused {A} f.
Arguments Unanswered {A}.

Record ProjectBody := {
  pb_name : string;
  pb_color : string
}.

(** [projectBodySchema]: both strings at least one character long. *)
Definition projectBodySchema (b : ProjectBody) : bool :=
  truthy (pb_name b) && truthy (pb_color b).

Definition set_project (m : gmap string Project) (d : Db) : Db :=
  {| project := m; activeSession := activeSession d; timeSession := timeSession d |}.

(** POST /projects *)
Definition post_project (env : Env) (userId : string) (body : ProjectBody) (w : World)
  : World * ProjectReply Project :=
  if negb (projectBodySchema body) then (w, Refused ProjetoDadosInvalidos)
  else if create_fails env then (w, Unanswered)
  else match project (db w) !! newId env with
       | Some _ => (w, Unanswered)
       | None =>
           let row := {| p_id := newId env; p_name := pb_name body;
                         p_color := pb_color body; p_userId := userId |} in
           (set_db (set_project (<[newId env := row]> (project (db w))) (db w)) w,
            Answered 201 row)
       end.

(** [project.findFirst({ where: { id, userId } })], without the fault. *)
Definition project_owned (d : Db) (id userId : string) : option Project :=
  p ← project d !! id; if decide (p_userId p = userId) then Some p else None.

(** PUT /projects/:id *)
Definition put_project (env : Env) (userId id : string) (body : ProjectBody) (w : World)
  : World * ProjectReply Project :=
  if negb (projectBodySchema body) then (w, Refused ProjetoDadosInvalidos)
  else if find_fails env then (w, Unanswered)
  else match project_owned (db w) id userId with
       | None => (w, Refused ProjetoInexistente)
       | Some existing =>
           if update_fails env then (w, Unanswered)
           else
             let row := {| p_id := p_id existing; p_name := pb_name body;
                           p_color := pb_color body; p_userId := p_userId existing |} in
             (set_db (set_project (<[id := row]> (project (db w))) (db w)) w,
              Answered 200 row)
       end.

(** [timeSession.count({ where: { projectId: id, userId } })] *)
Definition sessions_of_project (d : Db) (id userId : string) : nat :=
  List.length
    (List.filter (fun s => bool_decide (ts_projectId s = Some id)
                           && bool_decide (ts_userId s = userId))
       (List.map snd (map_to_list (timeSession d)))).

(** What the store does when a project row goes: both foreign keys are
    [ON DELETE SET NULL]. *)
Definition unlink_slot (id : string) (a : ActiveSession) : ActiveSession :=
  {| as_id := as_id a; as_startTime := as_startTime a; as_mode := as_mode a;
     as_description := as_description a; as_targetSeconds := as_targetSeconds a;
     as_pomodoroPhase := as_pomodoroPhase a; as_pomodoroCycle := as_pomodoroCycle a;
     as_projectId := if bool_decide (as_projectId a = Some id) then None
                     else as_projectId a;
     as_userId := as_userId a |}.

Definition unlink_session (id : string) (s : TimeSession) : TimeSession :=
  {| ts_id := ts_id s; ts_description := ts_description s;
     ts_startTime := ts_startTime s; ts_endTime := ts_endTime s;
     ts_durationSeconds := ts_durationSeconds s; ts_mode := ts_mode s;
     ts_projectId := if bool_decide (ts_projectId s = Some id) then None
                     else ts_projectId s;
     ts_userId := ts_userId s |}.

Definition project_delete (id : string) (d : Db) : Db :=
  {| project := delete id (project d);
     activeSession := unlink_slot id <$> activeSession d;
     timeSession := unlink_session id <$> timeSession d |}.

(** DELETE /projects/:id *)
Definition delete_project (env : Env) (userId id : string) (w : World)
  : World * ProjectReply unit :=
  if find_fails env then (w, Unanswered)
  else match project_owned (db w) id userId with
       | None => (w, Refused ProjetoInexistente)
       | Some _ =>
           if (0 <? sessions_of_project (db w) id userId)%nat
           then (w, Refused ProjetoComSessoes)
           else if delete_fails env then (w, Unanswered)
           else (set_db (project_delete id (db w)) w, Answered 204 tt)
       end.

(** Every project a slot or a historical session names exists and
    belongs to the user the slot or session belongs to. *)
Definition refs_owned (d : Db) : Prop :=
  (forall u a i, activeSession d !! u = Some a -> as_projectId a = Some i ->
     exists p, project d !! i = Some p /\ p_userId p = u)
  /\ (forall k s i, timeSession d !! k = Some s -> ts_projectId s = Some i ->
        exists p, project d !! i = Some p /\ p_userId p = ts_userId s).

(** One request to a session or project route. *)
Inductive api_step (w : World) : World -> Prop :=
  | step_post_session env userId body :
      api_step w (post_session env userId body w).1
  | step_patch_session env userId id body :
      api_step w (patch_session env userId id body w).1
  | step_delete_session env userId id :
      api_step w (delete_session env userId id w).1
  | step_post_active env userId body :
      api_step w (post_active env userId body w).1
  | step_delete_active env userId :
      api_step w (delete_active env userId w).1
  | step_post_project env userId body :
      api_step w (post_project env userId body w).1
  | step_put_project env userId id body :
      api_step w (put_project env userId id body w).1
  | step_delete_project env userId id :
      api_step w (delete_project env userId id w).1.

(** A second user with a project of their own. *)
Definition other_project : Project :=
  {| p_id := "p2"; p_name := "Garden"; p_color := "green"; p_userId := "u2" |}.

Definition shared_world : World :=
  {| db := {| project := {[ "p1" := demo_project; "p2" := other_project ]};
              activeSession := {[ "u1" := demo_slot ]};
              timeSession := {[ "s0" := demo_session ]} |};
     emitted := [] |}.

(** The row the create route stores. *)
Definition created_row (env : Env) (userId : string) (body : CreateBody) : TimeSession :=
  {| ts_id := newId env;
     ts_description := cb_description body;
     ts_startTime := cb_startTime body;
     ts_endTime := cb_endTime body;
     ts_durationSeconds := cb_durationSeconds body;
     ts_mode := cb_mode body;
     ts_projectId := or_null (cb_projectId body);
     ts_userId := userId |}.
(** * Properties *)

(** ** Trimming *)

Lemma trimEnd_idem (s : string) : trimEnd (trimEnd s) = trimEnd s.
Proof.
  induction s as [|c s IH]; simpl; [done|].
  destruct (trimEnd s) as [|c' t] eqn:E.
  - destruct (is_whitespace c) eqn:W; simpl; [done|]. by rewrite W.
  - simpl in *. rewrite IH. done.
Qed.

Lemma trimStart_trimEnd (s : string) :
  trimStart s = s -> trimStart (trimEnd s) = trimEnd s.
Proof.
  destruct s as [|c s]; simpl; [done|].
  destruct (is_whitespace c) eqn:W.
  - intros H. exfalso.
    assert (L : forall u, (String.length (trimStart u) <= String.length u)%nat).
    { induction u as [|x u IHu]; simpl; [lia|]. destruct (is_whitespace x); simpl; lia. }
    specialize (L s). rewrite H in L. simpl in L. lia.
  - intros _. destruct (trimEnd s); simpl; by rewrite W.
Qed.

Lemma trimStart_idem (s : string) : trimStart (trimStart s) = trimStart s.
Proof.
  induction s as [|c s IH]; simpl; [done|].
  destruct (is_whitespace c) eqn:W; [done|]. simpl. by rewrite W.
Qed.

Lemma trim_idem (s : string) : trim (trim s) = trim s.
Proof.
  unfold trim.
  rewrite (trimStart_trimEnd (trimStart s)) by apply trimStart_idem.
  apply trimEnd_idem.
Qed.

Lemma truthy_true (s : string) : truthy s = true <-> s <> "".
Proof. destruct s; simpl; split; congruence. Qed.

(** ** Slots as the upsert route writes them *)

Lemma trimmed_or_undefined_clean (s : string) :
  clean_description (trimmed_or_undefined s).
Proof.
  unfold trimmed_or_undefined.
  destruct (truthy s); simpl; [|done].
  destruct (truthy (trim s)) eqn:T; simpl; [|done].
  split; [by apply truthy_true | apply trim_idem].
Qed.

Lemma clean_description_keeps (o : option string) :
  clean_description o -> o ≫= trimmed_or_undefined = o.
Proof.
  destruct o as [s|]; simpl; [|done].
  intros [Hne Htrim]. unfold trimmed_or_undefined.
  rewrite Htrim. apply truthy_true in Hne. by rewrite Hne.
Qed.

Lemma clean_projectId_keeps (o : option string) :
  clean_projectId o -> o ≫= (fun i => if truthy i then Some i else None) = o.
Proof.
  destruct o as [i|]; simpl; [|done].
  intros Hne. apply truthy_true in Hne. by rewrite Hne.
Qed.

Lemma or_null_clean (v : js_opt string) : clean_projectId (or_null v).
Proof.
  destruct v as [| |s]; simpl; try done.
  destruct (truthy s) eqn:T; simpl; [|done]. by apply truthy_true.
Qed.

Lemma activeSessionData_clean (userId : string) (body : ActiveBody) :
  clean_description (ad_description (activeSessionData userId body))
  /\ clean_projectId (ad_projectId (activeSessionData userId body)).
Proof.
  split; simpl; [|apply or_null_clean].
  destruct (ab_description body) as [s|]; simpl; [|done].
  apply trimmed_or_undefined_clean.
Qed.

(** Whatever slot the upsert call writes is clean, provided the slot it
    replaces (if any) was. *)
Lemma activeSession_upsert_clean (env : Env) (userId : string) (body : ActiveBody)
    (d d' : Db) (row : ActiveSession) :
  (forall old, activeSession d !! userId = Some old -> as_upserted old) ->
  activeSession_upsert env userId (activeSessionData userId body) d = (d', Done row) ->
  as_upserted row /\ activeSession d' !! userId = Some row.
Proof.
  intros Hold. unfold activeSession_upsert.
  destruct (upsert_fails env); [done|].
  intros [= <- <-]. split; [|simpl; by rewrite lookup_insert_eq].
  destruct (activeSessionData_clean userId body) as [Hd Hp].
  destruct (activeSession d !! userId) as [old|] eqn:E; split; simpl.
  - destruct (ab_description body ≫= trimmed_or_undefined) as [s|] eqn:D.
    + rewrite <- D. apply Hd.
    + by apply Hold.
  - apply or_null_clean.
  - apply Hd.
  - apply or_null_clean.
Qed.

(** ** Stopping the active session *)

Lemma set_db_id (w : World) : set_db (db w) w = w.
Proof. by destruct w. Qed.

(** The stop route, case by case. *)
Lemma delete_active_absent (env : Env) (userId : string) (w : World) :
  find_fails env = false ->
  activeSession (db w) !! userId = None ->
  delete_active env userId w = (w, Failed NenhumaSessaoAtiva).
Proof.
  intros Hf Hnone. unfold delete_active, call, activeSession_findUnique.
  rewrite Hf, Hnone. unfold respond. by rewrite set_db_id.
Qed.

Lemma delete_active_find_fails (env : Env) (userId : string) (w : World) :
  find_fails env = true ->
  delete_active env userId w = (w, Failed ErroInterno).
Proof.
  intros Hf. unfold delete_active, call, activeSession_findUnique.
  rewrite Hf. by rewrite set_db_id.
Qed.

Lemma delete_active_invalid (env : Env) (userId : string) (w : World) (a : ActiveSession) :
  find_fails env = false ->
  activeSession (db w) !! userId = Some a ->
  elapsed (now env) (as_startTime a) <= 0 ->
  delete_active env userId w =
    if delete_fails env then (w, Failed ErroInterno)
    else (set_db (set_activeSession (delete userId (activeSession (db w))) (db w)) w,
          Failed DuracaoInvalida).
Proof.
  intros Hf Hsome Hle. unfold delete_active, call, activeSession_findUnique.
  rewrite Hf, Hsome.
  destruct (Z.leb_spec (elapsed (now env) (as_startTime a)) 0) as [_|?]; [|lia].
  unfold activeSession_delete. simpl.
  destruct (delete_fails env); simpl.
  - by rewrite !set_db_id.
  - rewrite !set_db_id. by rewrite Hsome.
Qed.

Lemma delete_active_positive (env : Env) (userId : string) (w : World) (a : ActiveSession) :
  find_fails env = false ->
  activeSession (db w) !! userId = Some a ->
  0 < elapsed (now env) (as_startTime a) ->
  delete_active env userId w =
    if create_fails env || bool_decide (is_Some (timeSession (db w) !! newId env))
       || delete_fails env
    then (w, Failed ErroInterno)
    else
      let row := promoted_row env userId a in
      ({| db := {| project := project (db w);
                   activeSession := delete userId (activeSession (db w));
                   timeSession := <[newId env := row]> (timeSession (db w)) |};
          emitted := emitted w ++ [userId] |},
       Json 200 (row, include_project (db w) (ts_projectId row))).
Proof.
  intros Hf Hsome Hpos. unfold delete_active, call, activeSession_findUnique.
  rewrite Hf, Hsome.
  destruct (Z.leb_spec (elapsed (now env) (as_startTime a)) 0) as [?|_]; [lia|].
  unfold transaction, pbind, timeSession_create, activeSession_delete. simpl.
  destruct (create_fails env); simpl; [by rewrite !set_db_id|].
  destruct (timeSession (db w) !! newId env) as [s|] eqn:E; simpl.
  - by rewrite !set_db_id.
  - destruct (delete_fails env); simpl; [by rewrite !set_db_id|].
    rewrite Hsome. reflexivity.
Qed.

(** C9.  Stopping when the user has no active session changes nothing:
    no historical session is created, no slot is touched and nothing is
    emitted; the reply is the 404 "no active session" whenever the lookup
    itself went through. *)
Theorem stop_without_active_session (env : Env) (userId : string) (w : World) :
  activeSession (db w) !! userId = None ->
  (delete_active env userId w).1 = w
  /\ (find_fails env = false ->
      (delete_active env userId w).2 = Failed NenhumaSessaoAtiva
      /\ status NenhumaSessaoAtiva = 404).
Proof.
  intros Hnone. destruct (find_fails env) eqn:Hf.
  - rewrite delete_active_find_fails by done. split; [done|]. discriminate.
  - rewrite delete_active_absent by done. by split.
Qed.

Lemma stop_without_active_session_witness :
  (delete_active (demo_env 5000) "u1" idle_world).1 = idle_world
  /\ (delete_active (demo_env 5000) "u1" idle_world).2 = Failed NenhumaSessaoAtiva.
Proof.
  destruct (stop_without_active_session (demo_env 5000) "u1" idle_world) as [H1 H2].
  - reflexivity.
  - split; [exact H1|]. apply H2. reflexivity.
Defined.

(** C4.  Stopping an active session whose elapsed time is zero or
    negative removes the slot, answers 400 "invalid duration" and leaves
    the historical sessions as they were. *)
Theorem stop_nonpositive_elapsed (env : Env) (userId : string) (w : World)
    (a : ActiveSession) :
  activeSession (db w) !! userId = Some a ->
  elapsed (now env) (as_startTime a) <= 0 ->
  find_fails env = false ->
  delete_fails env = false ->
  activeSession (db (delete_active env userId w).1) !! userId = None
  /\ (delete_active env userId w).2 = Failed DuracaoInvalida
  /\ status DuracaoInvalida = 400
  /\ timeSession (db (delete_active env userId w).1) = timeSession (db w).
Proof.
  intros Hsome Hle Hf Hd.
  rewrite (delete_active_invalid env userId w a) by done.
  rewrite Hd. simpl. by rewrite lookup_delete_eq.
Qed.

Lemma stop_nonpositive_elapsed_witness :
  activeSession (db (delete_active (demo_env 1000) "u1" demo_world).1) !! "u1" = None
  /\ (delete_active (demo_env 1000) "u1" demo_world).2 = Failed DuracaoInvalida
  /\ status DuracaoInvalida = 400
  /\ timeSession (db (delete_active (demo_env 1000) "u1" demo_world).1)
     = timeSession (db demo_world).
Proof.
  apply (stop_nonpositive_elapsed (demo_env 1000) "u1" demo_world demo_slot).
  - reflexivity.
  - vm_compute. discriminate.
  - reflexivity.
  - reflexivity.
Defined.

(** C2 (the stop route on the invalid-duration path).  The slot is
    deleted from the store, yet the emitter has emitted nothing: the
    route answers 400 before it reaches [notifyActiveSessionChange]. *)
Theorem stop_nonpositive_elapsed_emits_nothing (env : Env) (userId : string)
    (w : World) (a : ActiveSession) :
  activeSession (db w) !! userId = Some a ->
  elapsed (now env) (as_startTime a) <= 0 ->
  find_fails env = false ->
  delete_fails env = false ->
  activeSession (db (delete_active env userId w).1)
    = delete userId (activeSession (db w))
  /\ emitted (delete_active env userId w).1 = emitted w.
Proof.
  intros Hsome Hle Hf Hd.
  rewrite (delete_active_invalid env userId w a) by done.
  by rewrite Hd.
Qed.

Lemma stop_nonpositive_elapsed_emits_nothing_witness :
  activeSession (db demo_world) !! "u1" = Some demo_slot
  /\ activeSession (db (delete_active (demo_env 1000) "u1" demo_world).1)
     = delete "u1" (activeSession (db demo_world))
  /\ emitted (delete_active (demo_env 1000) "u1" demo_world).1 = [].
Proof.
  split; [reflexivity|].
  apply (stop_nonpositive_elapsed_emits_nothing (demo_env 1000) "u1" demo_world demo_slot).
  - reflexivity.
  - vm_compute. discriminate.
  - reflexivity.
  - reflexivity.
Defined.

(** ** The upsert route *)

(** The ownership check either lets the route continue on the same
    world or answers with a failure and changes nothing. *)
Lemma check_project_cases {R} (env : Env) (userId : string) (pid : js_opt string)
    (k : Handler R) (w : World) :
  check_project env userId pid k w = k w
  \/ exists f, check_project env userId pid k w = (w, Failed f).
Proof.
  unfold check_project. destruct (or_null pid) as [i|]; [|by left].
  unfold call, project_findFirst. destruct (find_fails env).
  - right. exists ErroInterno. by rewrite set_db_id.
  - rewrite set_db_id.
    destruct (_ ≫= _) as [p|]; [by left|]. right. by exists ProjetoNaoEncontrado.
Qed.

(** A 200 from the upsert route: the Prisma upsert resolved with [row],
    and the emitter emitted once, after the write. *)
Lemma post_active_success (env : Env) (userId : string) (body : ActiveBody)
    (w w' : World) (code : Z) (r : ActiveSession * option ProjectSummary) :
  post_active env userId body w = (w', Json code r) ->
  exists d' row,
    activeSession_upsert env userId (activeSessionData userId body) (db w) = (d', Done row)
    /\ w' = {| db := d'; emitted := emitted w ++ [userId] |}
    /\ r.1 = row /\ code = 200.
Proof.
  unfold post_active. destruct (activeSessionSchema body); simpl; [|discriminate].
  destruct (check_project_cases env userId (ab_projectId body)
              (call (activeSession_upsert env userId (activeSessionData userId body))
                 (fun activeSession =>
                    notifyActiveSessionChange userId
                      (fun w0 => (w0, Json 200 (activeSession,
                                   include_project (db w0) (as_projectId activeSession))))))
              w) as [-> | [f ->]]; [|discriminate].
  unfold call, notifyActiveSessionChange.
  destruct (activeSession_upsert env userId (activeSessionData userId body) (db w))
    as [d' [row|]]; [|discriminate].
  intros [= <- <- <-]. by exists d', row.
Qed.

(** The two routes that write the register keep it clean, so the
    slots met by the stop route are the ones [as_upserted] describes. *)
Lemma post_active_keeps_clean (env : Env) (userId : string) (body : ActiveBody)
    (w : World) :
  register_clean w -> register_clean (post_active env userId body w).1.
Proof.
  intros Hclean. unfold post_active.
  destruct (activeSessionSchema body); simpl; [|done].
  match goal with
  | |- context [check_project ?e ?u ?p ?k ?w] =>
      destruct (check_project_cases e u p k w) as [-> | [f ->]]; [|done]
  end.
  unfold call, notifyActiveSessionChange.
  destruct (activeSession_upsert env userId (activeSessionData userId body) (db w))
    as [d' [row|]] eqn:E; simpl.
  - assert (Hold : forall old, activeSession (db w) !! userId = Some old -> as_upserted old)
      by (intros old; apply Hclean).
    destruct (activeSession_upsert_clean env userId body (db w) d' row Hold E)
      as [Hrow _].
    unfold activeSession_upsert in E. destruct (upsert_fails env); [done|].
    injection E as <- <-. intros u a. simpl.
    destruct (decide (userId = u)) as [->|Hne].
    + rewrite lookup_insert_eq. intros [= <-]. exact Hrow.
    + rewrite lookup_insert_ne by done. apply Hclean.
  - unfold activeSession_upsert in E. destruct (upsert_fails env); [|done].
    by injection E as <-.
Qed.

Lemma delete_active_keeps_clean (env : Env) (userId : string) (w : World) :
  register_clean w -> register_clean (delete_active env userId w).1.
Proof.
  intros Hclean.
  assert (Hdel : forall w0, activeSession (db w0) = delete userId (activeSession (db w)) ->
                            register_clean w0).
  { intros w0 E u a. rewrite E. intros Hu.
    apply lookup_delete_Some in Hu as [_ Hu]. by apply (Hclean u). }
  destruct (find_fails env) eqn:Hf.
  { by rewrite delete_active_find_fails. }
  destruct (activeSession (db w) !! userId) as [a|] eqn:Ha.
  2: { by rewrite delete_active_absent. }
  destruct (Z.le_gt_cases (elapsed (now env) (as_startTime a)) 0) as [Hle|Hpos].
  - rewrite (delete_active_invalid env userId w a) by done.
    destruct (delete_fails env); [done|]. by apply Hdel.
  - rewrite (delete_active_positive env userId w a) by done.
    destruct (_ || _); [done|]. by apply Hdel.
Qed.

Lemma post_session_register (env : Env) (userId : string) (body : CreateBody)
    (w : World) :
  activeSession (db (post_session env userId body w).1) = activeSession (db w).
Proof.
  unfold post_session. destruct (negb _); [done|].
  match goal with
  | |- context [check_project ?e ?u ?p ?k ?w] =>
      destruct (check_project_cases e u p k w) as [-> | [f ->]]; [|done]
  end.
  unfold call, timeSession_create.
  destruct (create_fails env); [done|].
  by destruct (timeSession (db w) !! newId env).
Qed.

Lemma patch_session_register (env : Env) (userId id : string) (body : UpdateBody)
    (w : World) :
  activeSession (db (patch_session env userId id body w).1) = activeSession (db w).
Proof.
  unfold patch_session. destruct (negb _); [done|].
  unfold call at 1. unfold timeSession_findFirst.
  destruct (find_fails env); [done|]. rewrite set_db_id.
  destruct (_ ≫= _) as [existing|]; [|done].
  match goal with
  | |- context [check_project ?e ?u ?p ?k ?w] =>
      destruct (check_project_cases e u p k w) as [-> | [f ->]]; [|done]
  end.
  destruct (ub_startTime body), (ub_endTime body); try done;
    simpl; try (destruct (Z.ltb _ 0); [done|]);
    unfold call, timeSession_update;
    (destruct (update_fails env); [done|]);
    by destruct (timeSession (db w) !! id).
Qed.

(** Every world the session routes can reach has a clean register. *)
Lemma reachable_register_clean (w : World) : reachable w -> register_clean w.
Proof.
  induction 1 as [d Hempty | env u b w _ IH | env u id b w _ IH
                 | env u b w _ IH | env u w _ IH].
  - intros u a. simpl. by rewrite Hempty, lookup_empty.
  - intros u' a. rewrite post_session_register. apply IH.
  - intros u' a. rewrite patch_session_register. apply IH.
  - by apply post_active_keeps_clean.
  - by apply delete_active_keeps_clean.
Qed.

(** C1.  Stopping an active session with positive elapsed time, the
    whole seconds from its start time to the clock reading, is
    all-or-nothing.
    - When the create and the delete both go through, the user's slot is
      gone and the historical sessions are the old ones plus exactly one
      new row, whose duration is the elapsed seconds, whose start time
      and mode are those of the slot [a] and whose end time is the clock
      reading.  Its project and description are those of [a] as well, [a]
      being a slot as the upsert route writes it (description trimmed and
      not blank, project id not empty), which every slot of the register
      is ([reachable_register_clean]); in general they are the project id
      unless empty and the trimmed description unless blank.
    - When the create is rejected (a storage fault or an id already in
      use) the world is unchanged and the slot is still [a].
    - In every case, a rejected delete included, either both halves took
      effect or the world is unchanged. *)
Theorem stop_promotes_atomically (env : Env) (userId : string) (w : World)
    (a : ActiveSession) :
  activeSession (db w) !! userId = Some a ->
  0 < (now env - as_startTime a) / 1000 ->
  let w' := (delete_active env userId w).1 in
  let create_rejected :=
    create_fails env = true \/ is_Some (timeSession (db w) !! newId env) in
  (find_fails env = false -> ~ create_rejected -> delete_fails env = false ->
     activeSession (db w') !! userId = None
     /\ exists s : TimeSession,
          timeSession (db w) !! ts_id s = None
          /\ timeSession (db w') = <[ts_id s := s]> (timeSession (db w))
          /\ ts_durationSeconds s = (now env - as_startTime a) / 1000
          /\ ts_startTime s = as_startTime a
          /\ ts_endTime s = now env
          /\ ts_mode s = as_mode a
          /\ ts_userId s = userId
          /\ ts_projectId s
             = as_projectId a ≫= (fun i => if truthy i then Some i else None)
          /\ ts_description s = as_description a ≫= trimmed_or_undefined
          /\ (as_upserted a ->
              ts_projectId s = as_projectId a
              /\ ts_description s = as_description a))
  /\ (create_rejected -> w' = w /\ activeSession (db w') !! userId = Some a)
  /\ (w' = w
      \/ (activeSession (db w') !! userId = None
          /\ exists s : TimeSession,
               timeSession (db w) !! ts_id s = None
               /\ timeSession (db w') = <[ts_id s := s]> (timeSession (db w)))).
Proof.
  intros Hsome Hpos w' create_rejected. subst w'.
  destruct (find_fails env) eqn:Hf.
  { rewrite delete_active_find_fails by done. simpl.
    split; [discriminate|]. split; [by intros _|]. by left. }
  rewrite (delete_active_positive env userId w a) by done.
  destruct (create_fails env) eqn:Hc; simpl.
  { split; [intros _ Hn; destruct Hn; by left|]. split; [by intros _|]. by left. }
  destruct (timeSession (db w) !! newId env) as [s0|] eqn:Hid; simpl.
  { split; [intros _ Hn; destruct Hn; right; eauto|]. split; [by intros _|]. by left. }
  assert (Hrow : activeSession
                   {| project := project (db w);
                      activeSession := delete userId (activeSession (db w));
                      timeSession :=
                        <[newId env := promoted_row env userId a]> (timeSession (db w)) |}
                   !! userId = None)
    by (simpl; apply lookup_delete_eq).
  destruct (delete_fails env) eqn:Hd; simpl.
  { split; [discriminate|]. split; [by intros _|]. by left. }
  split; [|split].
  - intros _ _ _. split; [exact Hrow|].
    exists (promoted_row env userId a). simpl.
    do 9 (split; [done|]). intros [Hdesc Hproj].
    by rewrite (clean_description_keeps _ Hdesc), (clean_projectId_keeps _ Hproj).
  - intros [?|[? ?]]; congruence.
  - right. split; [exact Hrow|]. by exists (promoted_row env userId a).
Qed.

Lemma demo_slot_as_upserted : as_upserted demo_slot.
Proof. repeat split; discriminate. Qed.

Lemma stop_promotes_atomically_witness :
  let w' := (delete_active (demo_env 11000) "u1" demo_world).1 in
  activeSession (db w') !! "u1" = None
  /\ exists s : TimeSession,
       timeSession (db demo_world) !! ts_id s = None
       /\ timeSession (db w') = <[ts_id s := s]> (timeSession (db demo_world))
       /\ ts_durationSeconds s = 10
       /\ ts_startTime s = 1000
       /\ ts_endTime s = 11000
       /\ ts_mode s = pomodoro
       /\ ts_projectId s = Some "p1"
       /\ ts_description s = Some "write report"
       /\ ts_userId s = "u1".
Proof.
  destruct (stop_promotes_atomically (demo_env 11000) "u1" demo_world demo_slot)
    as (Hboth & _ & _).
  - reflexivity.
  - reflexivity.
  - destruct Hboth as (Hgone & s & Hfresh & Hone & Hdur & Hst & Hen & Hmode & Hu
                       & _ & _ & Hcopied).
    + reflexivity.
    + intros [Hc | [s Hs]]; [discriminate Hc | vm_compute in Hs; discriminate Hs].
    + reflexivity.
    + destruct (Hcopied demo_slot_as_upserted) as [Hproj Hdesc].
      split; [exact Hgone|]. exists s. repeat split; assumption.
Defined.

Lemma trim_truthy (s : string) : trim s <> "" -> truthy s && truthy (trim s) = true.
Proof.
  intros H. destruct s; [done|]. simpl truthy at 1.
  by apply truthy_true in H as ->.
Qed.

Lemma post_active_schema (env : Env) (userId : string) (body : ActiveBody)
    (w w' : World) (code : Z) (r : ActiveSession * option ProjectSummary) :
  post_active env userId body w = (w', Json code r) ->
  activeSessionSchema body = true.
Proof.
  unfold post_active. destruct (activeSessionSchema body); [done|]. discriminate.
Qed.

(** C3, as the code has it.  A successful upsert creates the user's
    slot or updates it in place, and leaves one slot for the user, the
    other users' slots untouched.  Whether the slot existed or not, its
    start time, mode, cycle and project are those of the call, cycle 0
    and no project when left out; an existing slot keeps its id, a new
    one gets the id the store picks.  The target and the pomodoro phase
    are those of the call when it supplies them, [null] included; when
    it leaves them out they are those of the replaced slot, and absent
    when there was no slot.  So is the description when left out, while
    a supplied description that is not blank is stored trimmed. *)
Theorem upsert_replaces_what_is_supplied (env : Env) (userId : string)
    (body : ActiveBody) (w : World)
    (r : ActiveSession * option ProjectSummary) :
  (post_active env userId body w).2 = Json 200 r ->
  let w' := (post_active env userId body w).1 in
  let old := activeSession (db w) !! userId in
  exists row : ActiveSession,
    activeSession (db w') = <[userId := row]> (activeSession (db w))
    /\ r.1 = row
    /\ as_id row = match old with Some o => as_id o | None => newId env end
    /\ as_userId row = userId
    /\ as_startTime row = ab_startTime body
    /\ as_mode row = ab_mode body
    /\ as_pomodoroCycle row
       = match ab_pomodoroCycle body with Some n => n | None => 0 end
    /\ as_projectId row
       = match ab_projectId body with Val i => Some i | Null | Undefined => None end
    /\ as_targetSeconds row =
         match ab_targetSeconds body with
         | Undefined => match old with Some o => as_targetSeconds o | None => None end
         | Null => None
         | Val n => Some n
         end
    /\ as_pomodoroPhase row =
         match ab_pomodoroPhase body with
         | Undefined => match old with Some o => as_pomodoroPhase o | None => None end
         | Null => None
         | Val p => Some p
         end
    /\ (ab_description body = None ->
        as_description row
        = match old with Some o => as_description o | None => None end)
    /\ (forall s, ab_description body = Some s -> trim s <> "" ->
                  as_description row = Some (trim s)).
Proof.
  intros Hr w' old. subst w' old.
  destruct (post_active env userId body w) as [w1 r1] eqn:E. simpl in Hr. subst r1.
  pose proof (post_active_schema _ _ _ _ _ _ _ E) as Hschema.
  apply post_active_success in E as (d' & row & Hup & -> & Hrow & _).
  unfold activeSession_upsert in Hup.
  destruct (upsert_fails env); [discriminate|].
  injection Hup as <- <-. eexists. split; [reflexivity|]. split; [done|].
  assert (Hproj : or_null (ab_projectId body)
                  = match ab_projectId body with
                    | Val i => Some i
                    | Null | Undefined => None
                    end).
  { unfold activeSessionSchema in Hschema.
    destruct (ab_projectId body) as [| |i]; simpl in *; [done|done|].
    by destruct (truthy i). }
  destruct (activeSession (db w) !! userId) as [o|]; simpl; rewrite Hproj;
    unfold update_column, to_column;
    repeat split;
    try (by destruct (ab_pomodoroCycle body));
    try (by destruct (ab_targetSeconds body));
    try (by destruct (ab_pomodoroPhase body));
    try (by intros ->);
    intros s -> Hs; simpl; unfold trimmed_or_undefined; by rewrite trim_truthy.
Qed.

(** Two upserts in a row, the second leaving out the description, the
    target and the phase: the slot keeps those of the first call next to
    the start time, mode, project and cycle of the second. *)
Lemma upsert_twice_keeps_omitted_fields :
  reply_code (post_active (demo_env 1000) "u1" first_body idle_world).2 = 200
  /\ reply_code (post_active (demo_env 2000) "u1" second_body after_first_upsert).2 = 200
  /\ ab_description second_body = None
  /\ ab_targetSeconds second_body = Undefined
  /\ ab_pomodoroPhase second_body = Undefined
  /\ exists row : ActiveSession,
       activeSession (db after_second_upsert) !! "u1" = Some row
       /\ as_startTime row = 2000
       /\ as_mode row = stopwatch
       /\ as_projectId row = None
       /\ as_pomodoroCycle row = 0
       /\ as_description row = Some "write report"
       /\ as_targetSeconds row = Some 1500
       /\ as_pomodoroPhase row = Some work.
Proof.
  repeat split; try reflexivity.
  eexists. split; [vm_compute; reflexivity|]. repeat split.
Qed.

Lemma upsert_replaces_what_is_supplied_witness :
  (exists row : ActiveSession,
     activeSession (db after_second_upsert)
       = <["u1" := row]> (activeSession (db after_first_upsert))
     /\ as_id row = "s1"
     /\ as_startTime row = 2000
     /\ as_mode row = stopwatch
     /\ as_pomodoroCycle row = 0
     /\ as_projectId row = None
     /\ as_targetSeconds row = Some 1500
     /\ as_pomodoroPhase row = Some work
     /\ as_description row = Some "write report")
  /\ (exists row : ActiveSession,
        activeSession (db (post_active (demo_env 3000) "u2" padded_call demo_world).1)
          = <["u2" := row]> (activeSession (db demo_world))
        /\ as_id row = "s1"
        /\ as_startTime row = 3000
        /\ as_mode row = timer
        /\ as_pomodoroCycle row = 0
        /\ as_projectId row = None
        /\ as_targetSeconds row = Some 600
        /\ as_pomodoroPhase row = None
        /\ as_description row = Some "deep work").
Proof.
  split.
  - edestruct (upsert_replaces_what_is_supplied (demo_env 2000) "u1" second_body
                 after_first_upsert)
      as (row & Hmap & _ & Hid & _ & Hstart & Hmode & Hcycle & Hproj & Htarget & Hphase
          & Hkept & _).
    + reflexivity.
    + exists row. split; [exact Hmap|]. split; [exact Hid|]. split; [exact Hstart|].
      split; [exact Hmode|]. split; [exact Hcycle|]. split; [exact Hproj|].
      split; [exact Htarget|]. split; [exact Hphase|]. apply Hkept. reflexivity.
  - edestruct (upsert_replaces_what_is_supplied (demo_env 3000) "u2" padded_call
                 demo_world)
      as (row & Hmap & _ & Hid & _ & Hstart & Hmode & Hcycle & Hproj & Htarget & Hphase
          & _ & Htrimmed).
    + reflexivity.
    + exists row. split; [exact Hmap|]. split; [exact Hid|]. split; [exact Hstart|].
      split; [exact Hmode|]. split; [exact Hcycle|]. split; [exact Hproj|].
      split; [exact Htarget|]. split; [exact Hphase|].
      apply (Htrimmed "  deep work "); [reflexivity | discriminate].
Defined.

(** ** Durations of historical sessions *)

(** A 200 from the stop route is a promotion. *)
Lemma delete_active_success (env : Env) (userId : string) (w w' : World) (code : Z)
    (r : TimeSession * option ProjectSummary) :
  delete_active env userId w = (w', Json code r) ->
  exists a,
    activeSession (db w) !! userId = Some a
    /\ 0 < elapsed (now env) (as_startTime a)
    /\ r.1 = promoted_row env userId a
    /\ timeSession (db w') = <[newId env := r.1]> (timeSession (db w))
    /\ activeSession (db w') = delete userId (activeSession (db w))
    /\ emitted w' = emitted w ++ [userId]
    /\ code = 200.
Proof.
  destruct (find_fails env) eqn:Hf.
  { rewrite delete_active_find_fails by done. discriminate. }
  destruct (activeSession (db w) !! userId) as [a|] eqn:Ha.
  2: { rewrite delete_active_absent by done. discriminate. }
  destruct (Z.le_gt_cases (elapsed (now env) (as_startTime a)) 0) as [Hle|Hpos].
  { rewrite (delete_active_invalid env userId w a) by done.
    destruct (delete_fails env); discriminate. }
  rewrite (delete_active_positive env userId w a) by done.
  destruct (_ || _); [discriminate|].
  simpl. intros [= <- <- <-]. by exists a.
Qed.

Lemma post_session_success (env : Env) (userId : string) (body : CreateBody)
    (w w' : World) (code : Z) (r : TimeSession * option ProjectSummary) :
  post_session env userId body w = (w', Json code r) ->
  timeSession (db w) !! newId env = None
  /\ timeSession (db w') = <[newId env := r.1]> (timeSession (db w))
  /\ ts_id r.1 = newId env
  /\ ts_startTime r.1 = cb_startTime body
  /\ ts_endTime r.1 = cb_endTime body
  /\ ts_durationSeconds r.1 = cb_durationSeconds body
  /\ 0 <= cb_durationSeconds body
  /\ code = 201.
Proof.
  unfold post_session, createSessionSchema.
  destruct (min1 (cb_projectId body)); simpl; [|discriminate].
  destruct (Z.leb_spec 0 (cb_durationSeconds body)) as [Hnn|]; simpl; [|discriminate].
  match goal with
  | |- check_project ?e ?u ?p ?k ?w = _ -> _ =>
      destruct (check_project_cases e u p k w) as [-> | [f ->]]; [|discriminate]
  end.
  unfold call, timeSession_create.
  destruct (create_fails env); [discriminate|].
  destruct (timeSession (db w) !! newId env) eqn:E; [discriminate|].
  simpl. intros [= <- <- <-]. done.
Qed.

Lemma patch_session_success (env : Env) (userId id : string) (body : UpdateBody)
    (w w' : World) (code : Z) (r : TimeSession * option ProjectSummary) :
  patch_session env userId id body w = (w', Json code r) ->
  exists existing,
    timeSession (db w) !! id = Some existing
    /\ timeSession (db w') = <[id := r.1]> (timeSession (db w))
    /\ ts_startTime r.1 =
         match ub_startTime body with ValidDate t => t | _ => ts_startTime existing end
    /\ ts_endTime r.1 =
         match ub_endTime body with ValidDate t => t | _ => ts_endTime existing end
    /\ ts_durationSeconds r.1 =
         (if supplied (ub_startTime body) || supplied (ub_endTime body)
          then (ts_endTime r.1 - ts_startTime r.1) / 1000
          else ts_durationSeconds existing)
    /\ (supplied (ub_startTime body) || supplied (ub_endTime body) = true ->
        0 <= ts_durationSeconds r.1)
    /\ code = 200.
Proof.
  unfold patch_session.
  destruct (updateSessionSchema body); simpl; [|discriminate].
  unfold call at 1. unfold timeSession_findFirst.
  destruct (find_fails env) eqn:Hf; [discriminate|].
  destruct (timeSession (db w) !! id) as [s0|] eqn:Hs0; simpl; [|discriminate].
  destruct (decide (ts_userId s0 = userId)); [|discriminate].
  rewrite set_db_id.
  match goal with
  | |- check_project ?e ?u ?p ?k ?w = _ -> _ =>
      destruct (check_project_cases e u p k w) as [-> | [f ->]]; [|discriminate]
  end.
  destruct (ub_startTime body) as [| |st]; [|discriminate|];
    (destruct (ub_endTime body) as [| |en]; [|discriminate|]);
    simpl;
    try (match goal with
         | |- context [Z.ltb ?x 0] => destruct (Z.ltb_spec x 0) as [Hneg|Hnn]
         end; [discriminate|]);
    unfold call, timeSession_update;
    (destruct (update_fails env); [discriminate|]);
    rewrite Hs0; simpl; intros [= <- <- <-];
    exists s0; simpl; repeat split; try done.
Qed.

(** The create route stores a duration of 999 seconds for a session that
    starts at 0 and ends at 10000 ms: nothing compares the caller's
    [durationSeconds] with the two instants. *)
Lemma create_stores_disagreeing_duration :
  reply_code (post_session (demo_env 20000) "u1" skewed_body idle_world).2 = 201
  /\ exists s : TimeSession,
       timeSession (db after_create) !! "s1" = Some s
       /\ ts_startTime s = 0
       /\ ts_endTime s = 10000
       /\ ts_durationSeconds s = 999
       /\ (ts_endTime s - ts_startTime s) / 1000 = 10
       /\ ts_durationSeconds s <> (ts_endTime s - ts_startTime s) / 1000.
Proof.
  split; [reflexivity|].
  eexists. split; [vm_compute; reflexivity|]. repeat split. discriminate.
Qed.

(** C5, as the code has it.  The duration of a historical session is
    computed by the system in two places: a session created by stopping
    the active session has the whole seconds between its start and its
    end, a positive number; and a patch that supplies a start or an end
    time stores the whole seconds between the row's new start and end,
    never a negative number.  The create route stores the caller's
    [durationSeconds] as given: whatever the two instants, a duration of
    zero or more, with no project or a project of the user, is answered
    201 and stored unchanged once the store takes the write, and a 201
    is never given to a negative one. *)
Theorem duration_of_stored_sessions (env : Env) (userId : string) (w : World)
    (code : Z) (r : TimeSession * option ProjectSummary) :
  ((delete_active env userId w).2 = Json code r ->
     timeSession (db (delete_active env userId w).1) !! ts_id r.1 = Some r.1
     /\ ts_durationSeconds r.1 = (ts_endTime r.1 - ts_startTime r.1) / 1000
     /\ 0 < ts_durationSeconds r.1)
  /\ (forall (id : string) (body : UpdateBody),
        (patch_session env userId id body w).2 = Json code r ->
        supplied (ub_startTime body) || supplied (ub_endTime body) = true ->
        timeSession (db (patch_session env userId id body w).1) !! id = Some r.1
        /\ ts_durationSeconds r.1 = (ts_endTime r.1 - ts_startTime r.1) / 1000
        /\ 0 <= ts_durationSeconds r.1)
  /\ (forall body : CreateBody,
        (post_session env userId body w).2 = Json code r ->
        timeSession (db (post_session env userId body w).1) !! ts_id r.1 = Some r.1
        /\ ts_startTime r.1 = cb_startTime body
        /\ ts_endTime r.1 = cb_endTime body
        /\ ts_durationSeconds r.1 = cb_durationSeconds body
        /\ 0 <= ts_durationSeconds r.1)
  /\ (forall body : CreateBody,
        0 <= cb_durationSeconds body ->
        (cb_projectId body = Undefined \/ cb_projectId body = Null
         \/ exists i p, cb_projectId body = Val i /\ i <> ""
                        /\ find_fails env = false
                        /\ project (db w) !! i = Some p /\ p_userId p = userId) ->
        create_fails env = false ->
        timeSession (db w) !! newId env = None ->
        exists row,
          (post_session env userId body w).2
            = Json 201 (row, include_project (db w) (ts_projectId row))
          /\ timeSession (db (post_session env userId body w).1) !! newId env = Some row
          /\ ts_startTime row = cb_startTime body
          /\ ts_endTime row = cb_endTime body
          /\ ts_durationSeconds row = cb_durationSeconds body).
Proof.
  split; [|split; [|split]].
  - destruct (delete_active env userId w) as [w' r'] eqn:E. simpl. intros ->.
    apply delete_active_success in E as (a & _ & Hpos & Hrow & Hts & _).
    rewrite Hts, Hrow. simpl. rewrite lookup_insert_eq. done.
  - intros id body. destruct (patch_session env userId id body w) as [w' r'] eqn:E.
    simpl. intros -> Hsup.
    apply patch_session_success in E as (s0 & _ & Hts & _ & _ & Hdur & Hnn & _).
    rewrite Hsup in Hdur. rewrite Hts, lookup_insert_eq. auto.
  - intros body. destruct (post_session env userId body w) as [w' r'] eqn:E.
    simpl. intros ->.
    apply post_session_success in E as (_ & Hts & Hid & Hst & Hen & Hdur & Hnn & _).
    rewrite Hts, Hid, lookup_insert_eq, Hdur. done.
  - intros body Hnn Hproject Hcreate Hfresh.
    assert (Hschema : createSessionSchema body = true).
    { unfold createSessionSchema. apply Z.leb_le in Hnn. rewrite Hnn.
      destruct Hproject as [-> | [-> | (i & p & -> & Hi & _)]]; simpl; [done|done|].
      apply truthy_true in Hi. by rewrite Hi. }
    unfold post_session. rewrite Hschema. simpl.
    assert (Hcheck : forall k : Handler (TimeSession * option ProjectSummary),
              check_project env userId (cb_projectId body) k w = k w).
    { intros k. unfold check_project.
      destruct Hproject as [-> | [-> | (i & p & -> & Hi & Hf & Hp & Hown)]];
        simpl; [done|done|].
      apply truthy_true in Hi. rewrite Hi.
      unfold call, project_findFirst. rewrite Hf, Hp. simpl.
      rewrite decide_True by done. by rewrite set_db_id. }
    rewrite Hcheck. unfold call, timeSession_create. rewrite Hcreate, Hfresh.
    exists {| ts_id := newId env; ts_description := cb_description body;
              ts_startTime := cb_startTime body; ts_endTime := cb_endTime body;
              ts_durationSeconds := cb_durationSeconds body; ts_mode := cb_mode body;
              ts_projectId := or_null (cb_projectId body); ts_userId := userId |}.
    simpl. split; [reflexivity|]. by rewrite lookup_insert_eq.
Qed.

(** The parts at work: the skewed create, a create of zero seconds
    between equal instants, a patch that moves the end of the stored row
    to 61500 ms, and a stop after ten seconds. *)
Lemma duration_of_stored_sessions_witness :
  (exists r, (post_session (demo_env 20000) "u1" skewed_body idle_world).2 = Json 201 r
             /\ ts_durationSeconds r.1 = 999)
  /\ (exists row,
        (post_session (demo_env 20000) "u1" zero_body idle_world).2
          = Json 201 (row, include_project (db idle_world) (ts_projectId row))
        /\ ts_startTime row = 5000
        /\ ts_endTime row = 5000
        /\ ts_durationSeconds row = 0)
  /\ (exists r, (patch_session (demo_env 30000) "u1" "s1" (move_end 61500) after_create).2
                = Json 200 r
                /\ ts_durationSeconds r.1 = 61
                /\ ts_endTime r.1 = 61500)
  /\ (exists r, (delete_active (demo_env 11000) "u1" demo_world).2 = Json 200 r
                /\ ts_durationSeconds r.1 = 10).
Proof.
  split; [|split; [|split]].
  - eexists. split; [reflexivity|].
    match goal with
    | |- ts_durationSeconds ?r.1 = _ =>
        destruct (duration_of_stored_sessions (demo_env 20000) "u1" idle_world 201 r)
          as (_ & _ & Hcreate & _)
    end.
    destruct (Hcreate skewed_body) as (_ & _ & _ & Hdur & _); [reflexivity|].
    exact Hdur.
  - destruct (duration_of_stored_sessions (demo_env 20000) "u1" idle_world 201
                (demo_session, None)) as (_ & _ & _ & Haccept).
    destruct (Haccept zero_body) as (row & Hreply & _ & Hst & Hen & Hdur);
      [simpl; lia | by right; left | reflexivity | reflexivity |].
    exists row. split; [exact Hreply|]. split; [exact Hst|]. split; [exact Hen|].
    exact Hdur.
  - eexists. split; [reflexivity|]. split; [|reflexivity].
    match goal with
    | |- ts_durationSeconds ?r.1 = _ =>
        destruct (duration_of_stored_sessions (demo_env 30000) "u1" after_create 200 r)
          as (_ & Hpatch & _)
    end.
    destruct (Hpatch "s1" (move_end 61500)) as (_ & Hdur & _); [reflexivity..|].
    rewrite Hdur. reflexivity.
  - eexists. split; [reflexivity|].
    match goal with
    | |- ts_durationSeconds ?r.1 = _ =>
        destruct (duration_of_stored_sessions (demo_env 11000) "u1" demo_world 200 r)
          as (Hstop & _ & _)
    end.
    destruct Hstop as (_ & Hdur & _); [reflexivity|].
    rewrite Hdur. reflexivity.
Defined.

(** ** The stream *)

Lemma sendCurrentState_forced (t currentTime : Z) (d : Db) (c : Conn) :
  sendCurrentState true t currentTime false d c =
    {| conn_userId := conn_userId c;
       cachedState := Some (fetch (conn_userId c) d);
       lastQueryTime := t;
       isClosed := isClosed c;
       written := written c ++ [state_event (fetch (conn_userId c) d) currentTime];
       queries := S (queries c) |}.
Proof. reflexivity. Qed.

Lemma sendCurrentState_keeps (forceQuery : bool) (t currentTime : Z) (fails : bool)
    (d : Db) (c : Conn) :
  conn_userId (sendCurrentState forceQuery t currentTime fails d c) = conn_userId c
  /\ isClosed (sendCurrentState forceQuery t currentTime fails d c) = isClosed c
  /\ exists e, written (sendCurrentState forceQuery t currentTime fails d c)
               = written c ++ [e].
Proof.
  unfold sendCurrentState.
  destruct (forceQuery || _); [destruct fails|]; simpl; eauto.
Qed.

Lemma tick_cases (t : Z) (c : Conn) :
  tick t c = c
  \/ exists a p,
       isClosed c = false
       /\ cachedState c = Some (Some (a, p))
       /\ tick t c = sendEvent (StateActive (payload a p (elapsed t (as_startTime a)))) c.
Proof.
  unfold tick. destruct (isClosed c); [by left|].
  destruct (cachedState c) as [[[a p]|]|]; [right; eauto | by left | by left].
Qed.

(** Whatever happens to a connection only adds to what it has written. *)
Lemma stream_step_written (c : Conn) (s : StreamStep) :
  exists more, written (stream_step c s) = written c ++ more.
Proof.
  destruct s as [t | u t currentTime fails d |]; simpl.
  - destruct (tick_cases t c) as [-> | (a & p & _ & _ & ->)].
    + exists []. by rewrite app_nil_r.
    + by eexists.
  - destruct (isClosed c); [exists []; by rewrite app_nil_r|].
    unfold onChangeHandler. destruct (decide _); [|exists []; by rewrite app_nil_r].
    destruct (sendCurrentState_keeps true t currentTime fails d c) as (_ & _ & ev & ->).
    by eexists.
  - exists []. by rewrite app_nil_r.
Qed.

Lemma stream_run_written (steps : list StreamStep) (c : Conn) :
  exists more, written (stream_run c steps) = written c ++ more.
Proof.
  revert c. induction steps as [|s steps IH]; intros c; simpl.
  - exists []. by rewrite app_nil_r.
  - destruct (IH (stream_step c s)) as [m2 ->].
    destruct (stream_step_written c s) as [m1 ->].
    exists (m1 ++ m2). by rewrite app_assoc.
Qed.

(** C6.  Opening a stream issues one query, whatever the cache window,
    and writes exactly one event, the register's state for the user at
    that moment: every field of the slot, the joined project and the
    elapsed seconds when there is a slot, the inactive event (flag false,
    zero elapsed seconds) when there is none.  That event stays first
    whatever ticks and change events follow. *)
Theorem open_stream_pushes_current_state (userId : string) (t currentTime : Z)
    (d : Db) :
  let c := open_stream userId t currentTime false d in
  queries c = 1%nat
  /\ cachedState c = Some (fetch userId d)
  /\ written c = [state_event (fetch userId d) currentTime]
  /\ (forall a, activeSession d !! userId = Some a ->
        written c =
          [StateActive
             {| pl_id := as_id a;
                pl_startTime := as_startTime a;
                pl_mode := as_mode a;
                pl_projectId := as_projectId a;
                pl_description := as_description a;
                pl_targetSeconds := as_targetSeconds a;
                pl_pomodoroPhase := as_pomodoroPhase a;
                pl_pomodoroCycle := as_pomodoroCycle a;
                pl_project := include_project d (as_projectId a);
                pl_elapsedSeconds := (currentTime - as_startTime a) / 1000 |}])
  /\ (activeSession d !! userId = None ->
        written c = [StateInactive]
        /\ ev_active StateInactive = false
        /\ ev_elapsedSeconds StateInactive = Some 0)
  /\ (forall steps, exists more,
        written (stream_run c steps)
          = state_event (fetch userId d) currentTime :: more).
Proof.
  intros c. subst c. unfold open_stream. rewrite sendCurrentState_forced. simpl.
  split; [done|]. split; [done|]. split; [done|]. split; [|split].
  - intros a Ha. unfold fetch. by rewrite Ha.
  - intros Hnone. unfold fetch. by rewrite Hnone.
  - intros steps.
    match goal with |- context [stream_run ?c0 steps] =>
      destruct (stream_run_written steps c0) as [more ->] end.
    by exists more.
Qed.

(** C7.  A tick issues no query and leaves the cache and the time of
    the last query alone.  On an open connection whose cache holds an
    active session it writes one event: every field as cached, with the
    elapsed seconds recomputed from the clock and the cached start
    time. *)
Theorem tick_recomputes_elapsed_only (t : Z) (c : Conn) :
  queries (tick t c) = queries c
  /\ cachedState (tick t c) = cachedState c
  /\ lastQueryTime (tick t c) = lastQueryTime c
  /\ (forall a p,
        isClosed c = false ->
        cachedState c = Some (Some (a, p)) ->
        written (tick t c) =
          written c ++
          [StateActive
             {| pl_id := as_id a;
                pl_startTime := as_startTime a;
                pl_mode := as_mode a;
                pl_projectId := as_projectId a;
                pl_description := as_description a;
                pl_targetSeconds := as_targetSeconds a;
                pl_pomodoroPhase := as_pomodoroPhase a;
                pl_pomodoroCycle := as_pomodoroCycle a;
                pl_project := p;
                pl_elapsedSeconds := (t - as_startTime a) / 1000 |}]).
Proof.
  unfold tick. destruct (isClosed c) eqn:Hclosed.
  - repeat split. discriminate.
  - destruct (cachedState c) as [[[a p]|]|] eqn:Hcache; simpl;
      repeat split; try done.
    intros a' p' _ [= <- <-]. reflexivity.
Qed.

Lemma tick_recomputes_elapsed_only_witness :
  cachedState demo_conn = Some (Some (demo_slot, include_project demo_db (Some "p1")))
  /\ queries (tick 8200 demo_conn) = queries demo_conn
  /\ written (tick 8200 demo_conn)
     = written demo_conn
       ++ [StateActive (payload demo_slot (include_project demo_db (Some "p1")) 7)].
Proof.
  destruct (tick_recomputes_elapsed_only 8200 demo_conn) as (Hq & _ & _ & Hpush).
  split; [reflexivity|]. split; [exact Hq|].
  apply (Hpush demo_slot (include_project demo_db (Some "p1"))); reflexivity.
Defined.

(** C10.  On a connection whose cache holds no active session a tick
    does nothing at all.  A tick never writes anything but an active
    event; the inactive event comes from the forced reads, at opening
    and on a change event, when the user has no slot. *)
Theorem tick_is_silent_when_idle (t : Z) (c : Conn) :
  (mjoin (cachedState c) = None -> tick t c = c)
  /\ (tick t c = c
      \/ exists p, written (tick t c) = written c ++ [StateActive p])
  /\ (forall currentTime d,
        activeSession d !! conn_userId c = None ->
        written (onChangeHandler (conn_userId c) t currentTime false d c)
          = written c ++ [StateInactive]
        /\ written (open_stream (conn_userId c) t currentTime false d)
          = [StateInactive]).
Proof.
  split; [|split].
  - intros Hidle. unfold tick. destruct (isClosed c); [done|].
    destruct (cachedState c) as [[[a p]|]|]; done.
  - destruct (tick_cases t c) as [-> | (a & p & _ & _ & ->)]; [by left|].
    right. by eexists.
  - intros currentTime d Hnone. unfold onChangeHandler, open_stream.
    rewrite decide_True by done. rewrite !sendCurrentState_forced. simpl.
    unfold fetch. by rewrite Hnone.
Qed.

Lemma tick_is_silent_when_idle_witness :
  mjoin (cachedState idle_conn) = None
  /\ tick 6000 idle_conn = idle_conn
  /\ written idle_conn = [StateInactive].
Proof.
  destruct (tick_is_silent_when_idle 6000 idle_conn) as (Hsilent & _ & Hforced).
  split; [reflexivity|]. split; [apply Hsilent; reflexivity|].
  apply (Hforced 5000 (db idle_world)). reflexivity.
Defined.

(** Two change events 10 and 20 ms after the opening query: each one
    issues its own query. *)
Lemma change_burst_queries_each_time :
  lastQueryTime demo_conn = 5000
  /\ queries demo_conn = 1%nat
  /\ queries (stream_run demo_conn demo_burst) = 3%nat
  /\ ~ (queries (stream_run demo_conn demo_burst) <= queries demo_conn + 1)%nat.
Proof.
  repeat split. vm_compute. lia.
Qed.

Lemma onChangeHandler_own (t currentTime : Z) (fails : bool) (d : Db) (c : Conn) :
  conn_userId (onChangeHandler (conn_userId c) t currentTime fails d c) = conn_userId c
  /\ isClosed (onChangeHandler (conn_userId c) t currentTime fails d c) = isClosed c
  /\ queries (onChangeHandler (conn_userId c) t currentTime fails d c) = S (queries c).
Proof.
  unfold onChangeHandler. rewrite decide_True by done.
  unfold sendCurrentState. simpl. by destruct fails.
Qed.

Lemma change_burst_queries (burst : list (Z * Z * bool * Db)) (c : Conn) :
  isClosed c = false ->
  queries (stream_run c (map (own_change c) burst)) = (queries c + List.length burst)%nat.
Proof.
  revert c. induction burst as [|[[[t currentTime] fails] d] burst IH]; intros c Hopen.
  - simpl. lia.
  - simpl. rewrite Hopen.
    destruct (onChangeHandler_own t currentTime fails d c) as (Hu & Hc & Hq).
    set (c1 := onChangeHandler (conn_userId c) t currentTime fails d c) in *.
    assert (Hsame : map (own_change c) burst = map (own_change c1) burst).
    { apply map_ext. intros [[[? ?] ?] ?]. unfold own_change. by rewrite Hu. }
    rewrite Hsame. unfold stream_run in IH. rewrite IH by congruence. lia.
Qed.

(** C8, as the code has it.  A call of [sendCurrentState] that does not
    force the query and comes no later than 100 ms after the last query
    issues none and writes the last fetched value.  A change event for
    the connection's user forces the query: each event issues one, so a
    burst of [n] events issues [n] queries, whatever the clock reads. *)
Theorem change_events_always_query (c : Conn) (t currentTime : Z) (fails : bool)
    (d : Db) :
  (t - lastQueryTime c <= QUERY_CACHE_MS ->
     queries (sendCurrentState false t currentTime fails d c) = queries c
     /\ cachedState (sendCurrentState false t currentTime fails d c) = cachedState c
     /\ written (sendCurrentState false t currentTime fails d c)
        = written c ++ [state_event (mjoin (cachedState c)) currentTime])
  /\ queries (onChangeHandler (conn_userId c) t currentTime fails d c) = S (queries c)
  /\ (forall burst : list (Z * Z * bool * Db),
        isClosed c = false ->
        queries (stream_run c (map (own_change c) burst))
          = (queries c + List.length burst)%nat).
Proof.
  split; [|split].
  - intros Hwin. unfold sendCurrentState. simpl.
    destruct (Z.ltb_spec QUERY_CACHE_MS (t - lastQueryTime c)); [lia|done].
  - apply onChangeHandler_own.
  - intros burst Hopen. by apply change_burst_queries.
Qed.

Lemma change_events_always_query_witness :
  queries (sendCurrentState false 5060 5060 false demo_db demo_conn) = 1%nat
  /\ queries (stream_run demo_conn
                (map (own_change demo_conn)
                   [(5010, 5010, false, demo_db); (5020, 5021, false, demo_db)]))
     = 3%nat.
Proof.
  destruct (change_events_always_query demo_conn 5060 5060 false demo_db)
    as (Hwin & _ & Hburst).
  split.
  - apply Hwin. vm_compute. discriminate.
  - apply (Hburst [(5010, 5010, false, demo_db); (5020, 5021, false, demo_db)]).
    reflexivity.
Defined.

(** * Further properties of the session routes *)

(** What the upsert route does, case by case. *)
Lemma post_active_cases (env : Env) (userId : string) (body : ActiveBody) (w : World) :
  (exists f, post_active env userId body w = (w, Failed f))
  \/ (upsert_fails env = false /\ activeSessionSchema body = true
      /\ exists row,
           row = match activeSession (db w) !! userId with
                 | Some old => activeSession_updated old (activeSessionData userId body)
                 | None => activeSession_created (newId env) (activeSessionData userId body)
                 end
           /\ post_active env userId body w =
                ({| db := set_activeSession (<[userId := row]> (activeSession (db w))) (db w);
                    emitted := emitted w ++ [userId] |},
                 Json 200 (row, include_project (db w) (as_projectId row)))).
Proof.
  unfold post_active. destruct (activeSessionSchema body); simpl; [|left; by eexists].
  match goal with
  | |- context [check_project ?e ?u ?p ?k ?w] =>
      destruct (check_project_cases e u p k w) as [-> | [f ->]]; [|left; by eexists]
  end.
  unfold call, notifyActiveSessionChange, activeSession_upsert.
  destruct (upsert_fails env); simpl.
  - left. exists ErroInterno. by rewrite set_db_id.
  - right. split; [done|]. split; [done|]. by eexists.
Qed.

(** X1.  The project of an upsert is looked up under the requesting
    user: a valid body naming a project that does not exist or belongs
    to somebody else is answered 404 "project not found", and nothing is
    written or emitted. *)
Theorem post_active_checks_project_owner (env : Env) (userId i : string)
    (body : ActiveBody) (w : World) :
  activeSessionSchema body = true ->
  find_fails env = false ->
  ab_projectId body = Val i ->
  (forall p, project (db w) !! i = Some p -> p_userId p <> userId) ->
  post_active env userId body w = (w, Failed ProjetoNaoEncontrado)
  /\ status ProjetoNaoEncontrado = 404.
Proof.
  intros Hschema Hfind Hpid Hforeign. split; [|done].
  unfold post_active. rewrite Hschema. simpl.
  unfold check_project. rewrite Hpid. simpl.
  assert (Hi : truthy i = true).
  { unfold activeSessionSchema in Hschema. rewrite Hpid in Hschema. simpl in Hschema.
    by destruct (truthy i). }
  rewrite Hi. unfold call, project_findFirst. rewrite Hfind, set_db_id.
  destruct (project (db w) !! i) as [p|] eqn:Hp; simpl; [|done].
  destruct (decide (p_userId p = userId)) as [Hown|]; [|done].
  by destruct (Hforeign p).
Qed.

Lemma post_active_checks_project_owner_witness :
  post_active (demo_env 1000) "u2" first_body demo_world
    = (demo_world, Failed ProjetoNaoEncontrado)
  /\ status ProjetoNaoEncontrado = 404.
Proof.
  apply (post_active_checks_project_owner (demo_env 1000) "u2" "p1" first_body demo_world).
  - reflexivity.
  - reflexivity.
  - reflexivity.
  - intros p Hp. vm_compute in Hp. injection Hp as <-. discriminate.
Defined.

(** X2.  Reading the active session never changes the world; with the
    lookup going through it answers 404 exactly when the user has no
    slot, and right after a successful upsert it answers 200 with the
    very row and project the upsert replied. *)
Theorem get_active_reads_back (env : Env) (userId : string) (w : World) :
  (get_active env userId w).1 = w
  /\ (find_fails env = false ->
      ((get_active env userId w).2 = Failed NenhumaSessaoAtiva
       <-> activeSession (db w) !! userId = None)
      /\ forall env0 body w0 code r,
           post_active env0 userId body w0 = (w, Json code r) ->
           (get_active env userId w).2 = Json 200 r).
Proof.
  unfold get_active, call, activeSession_findUnique.
  destruct (find_fails env) eqn:Hf; simpl.
  { split; [apply set_db_id | discriminate]. }
  rewrite set_db_id.
  destruct (activeSession (db w) !! userId) as [a|] eqn:Ha; simpl.
  - split; [done|]. intros _. split; [split; discriminate|].
    intros env0 body w0 code r Hpost.
    destruct (post_active_cases env0 userId body w0)
      as [[f Hfail] | (_ & _ & row & _ & Hok)]; [congruence|].
    rewrite Hok in Hpost. injection Hpost as <- _ <-.
    simpl in Ha. rewrite lookup_insert_eq in Ha. by injection Ha as <-.
  - split; [done|]. intros _. split; [done|].
    intros env0 body w0 code r Hpost.
    destruct (post_active_cases env0 userId body w0)
      as [[f Hfail] | (_ & _ & row & _ & Hok)]; [congruence|].
    rewrite Hok in Hpost. injection Hpost as <- _ _.
    simpl in Ha. by rewrite lookup_insert_eq in Ha.
Qed.

Lemma get_active_reads_back_witness :
  (get_active (demo_env 3000) "u1" idle_world).2 = Failed NenhumaSessaoAtiva
  /\ (get_active (demo_env 3000) "u1" after_first_upsert).2
     = (post_active (demo_env 1000) "u1" first_body idle_world).2.
Proof.
  split.
  - destruct (get_active_reads_back (demo_env 3000) "u1" idle_world) as [_ H].
    destruct H as [Hiff _]; [reflexivity|]. apply Hiff. reflexivity.
  - destruct (get_active_reads_back (demo_env 3000) "u1" after_first_upsert) as [_ H].
    destruct H as [_ Hback]; [reflexivity|].
    rewrite (Hback (demo_env 1000) first_body idle_world 200
               (activeSession_created "s1" (activeSessionData "u1" first_body),
                include_project (db idle_world) (Some "p1"))); reflexivity.
Defined.

(** X3.  An upsert touches the requesting user's slot only: the other
    users' slots, the historical sessions and the projects are as
    before, whatever the outcome; and an upsert that does not answer 200
    has written nothing and emitted nothing. *)
Theorem post_active_leaves_the_rest (env : Env) (userId : string)
    (body : ActiveBody) (w : World) :
  let w' := (post_active env userId body w).1 in
  (forall other, other <> userId ->
     activeSession (db w') !! other = activeSession (db w) !! other)
  /\ timeSession (db w') = timeSession (db w)
  /\ project (db w') = project (db w)
  /\ (forall f, (post_active env userId body w).2 = Failed f -> w' = w).
Proof.
  destruct (post_active_cases env userId body w)
    as [[f ->] | (_ & _ & row & _ & ->)]; simpl; [done|].
  repeat split; [|discriminate]. intros other Hne. by rewrite lookup_insert_ne.
Qed.

Lemma post_active_leaves_the_rest_witness :
  activeSession (db (post_active (demo_env 9000) "u2" second_body demo_world).1) !! "u1"
    = Some demo_slot
  /\ (post_active (demo_env 1000) "u1" foreign_body demo_world).1 = demo_world.
Proof.
  destruct (post_active_leaves_the_rest (demo_env 9000) "u2" second_body demo_world)
    as (Hslot & _).
  destruct (post_active_leaves_the_rest (demo_env 1000) "u1" foreign_body demo_world)
    as (_ & _ & _ & Hfail).
  split.
  - rewrite Hslot; [reflexivity|discriminate].
  - apply (Hfail ProjetoNaoEncontrado). reflexivity.
Defined.

(** What the stop route does, whatever the outcome. *)
Lemma delete_active_cases (env : Env) (userId : string) (w : World) :
  (exists f, delete_active env userId w = (w, Failed f))
  \/ (exists a,
        activeSession (db w) !! userId = Some a
        /\ elapsed (now env) (as_startTime a) <= 0
        /\ delete_active env userId w =
             (set_db (set_activeSession (delete userId (activeSession (db w))) (db w)) w,
              Failed DuracaoInvalida))
  \/ (exists a,
        activeSession (db w) !! userId = Some a
        /\ 0 < elapsed (now env) (as_startTime a)
        /\ timeSession (db w) !! newId env = None
        /\ delete_active env userId w =
             ({| db := {| project := project (db w);
                          activeSession := delete userId (activeSession (db w));
                          timeSession := <[newId env := promoted_row env userId a]>
                                           (timeSession (db w)) |};
                 emitted := emitted w ++ [userId] |},
              Json 200 (promoted_row env userId a,
                        include_project (db w) (ts_projectId (promoted_row env userId a))))).
Proof.
  destruct (find_fails env) eqn:Hf.
  { left. exists ErroInterno. by apply delete_active_find_fails. }
  destruct (activeSession (db w) !! userId) as [a|] eqn:Ha.
  2: { left. exists NenhumaSessaoAtiva. by apply delete_active_absent. }
  destruct (Z.le_gt_cases (elapsed (now env) (as_startTime a)) 0) as [Hle|Hpos].
  - rewrite (delete_active_invalid env userId w a) by done.
    destruct (delete_fails env); [left; by eexists|].
    right. left. by exists a.
  - rewrite (delete_active_positive env userId w a) by done.
    destruct (create_fails env); simpl; [left; by eexists|].
    destruct (timeSession (db w) !! newId env) eqn:Hid; simpl; [left; by eexists|].
    destruct (delete_fails env); simpl; [left; by eexists|].
    right. right. by exists a.
Qed.

(** X4.  Stopping touches nobody else and loses no history: the other
    users' slots and the projects are as before, every historical
    session that existed still exists unchanged, and the emitter has
    emitted at most one more event, for the requesting user. *)
Theorem delete_active_leaves_the_rest (env : Env) (userId : string) (w : World) :
  let w' := (delete_active env userId w).1 in
  (forall other, other <> userId ->
     activeSession (db w') !! other = activeSession (db w) !! other)
  /\ project (db w') = project (db w)
  /\ (forall id s, timeSession (db w) !! id = Some s ->
        timeSession (db w') !! id = Some s)
  /\ (emitted w' = emitted w \/ emitted w' = emitted w ++ [userId]).
Proof.
  destruct (delete_active_cases env userId w)
    as [[f ->] | [(a & _ & _ & ->) | (a & _ & _ & Hfresh & ->)]]; simpl.
  - repeat split; auto.
  - repeat split; auto. intros other Hne. by rewrite lookup_delete_ne.
  - repeat split; auto.
    + intros other Hne. by rewrite lookup_delete_ne.
    + intros id s Hs. rewrite lookup_insert_ne; [done|]. congruence.
Qed.

(** X5.  A successful stop cannot be repeated: the next stop for the
    same user, its lookup going through, is answered 404 "no active
    session" and changes nothing. *)
Theorem stop_twice (env env' : Env) (userId : string) (w w' : World) (code : Z)
    (r : TimeSession * option ProjectSummary) :
  delete_active env userId w = (w', Json code r) ->
  find_fails env' = false ->
  delete_active env' userId w' = (w', Failed NenhumaSessaoAtiva).
Proof.
  intros Hstop Hfind.
  apply delete_active_success in Hstop as (a & _ & _ & _ & _ & Hreg & _).
  apply delete_active_absent; [done|]. rewrite Hreg. apply lookup_delete_eq.
Qed.

Lemma stop_twice_witness :
  delete_active (demo_env 12000) "u1" (delete_active (demo_env 11000) "u1" demo_world).1
  = ((delete_active (demo_env 11000) "u1" demo_world).1, Failed NenhumaSessaoAtiva).
Proof.
  apply (stop_twice (demo_env 11000) (demo_env 12000) "u1" demo_world _ 200
           (promoted_row (demo_env 11000) "u1" demo_slot,
            include_project demo_db (Some "p1")));
    reflexivity.
Defined.

(** X6.  Start, then stop.  For a user without a slot, a successful
    upsert followed by a successful stop leaves no slot and one more
    historical session: it starts at the body's start time and has its
    mode, ends at the clock reading of the stop, lasts the whole seconds
    in between, belongs to the user, carries the body's description
    trimmed (none when blank or left out) and its project (none when
    left out); the emitter has emitted exactly twice for the user. *)
Theorem start_then_stop (env1 env2 : Env) (userId : string) (body : ActiveBody)
    (w w1 w2 : World) (c1 c2 : Z) (r1 : ActiveSession * option ProjectSummary)
    (r2 : TimeSession * option ProjectSummary) :
  activeSession (db w) !! userId = None ->
  post_active env1 userId body w = (w1, Json c1 r1) ->
  delete_active env2 userId w1 = (w2, Json c2 r2) ->
  activeSession (db w2) !! userId = None
  /\ timeSession (db w2) = <[ts_id r2.1 := r2.1]> (timeSession (db w))
  /\ timeSession (db w) !! ts_id r2.1 = None
  /\ ts_startTime r2.1 = ab_startTime body
  /\ ts_endTime r2.1 = now env2
  /\ ts_durationSeconds r2.1 = (now env2 - ab_startTime body) / 1000
  /\ ts_mode r2.1 = ab_mode body
  /\ ts_userId r2.1 = userId
  /\ ts_description r2.1 = ab_description body ≫= trimmed_or_undefined
  /\ ts_projectId r2.1 = or_null (ab_projectId body)
  /\ emitted w2 = emitted w ++ [userId; userId].
Proof.
  intros Hnone Hstart Hstop.
  destruct (post_active_cases env1 userId body w)
    as [[f Hfail] | (_ & _ & row & Hrow & Hok)]; [congruence|].
  rewrite Hok in Hstart. injection Hstart as <- _ _.
  rewrite Hnone in Hrow.
  destruct (delete_active_cases env2 userId
              {| db := set_activeSession (<[userId := row]> (activeSession (db w))) (db w);
                 emitted := emitted w ++ [userId] |})
    as [[f Hfail] | [(a & _ & _ & Hinv) | (a & Ha & _ & Hfresh & Hok2)]];
    [congruence | congruence |].
  rewrite Hok2 in Hstop. injection Hstop as <- _ <-.
  simpl in Ha, Hfresh. rewrite lookup_insert_eq in Ha. injection Ha as <-.
  subst row. simpl.
  destruct (activeSessionData_clean userId body) as [Hdesc Hproj]. simpl in Hdesc, Hproj.
  rewrite (clean_description_keeps _ Hdesc), (clean_projectId_keeps _ Hproj).
  rewrite lookup_delete_eq, <- app_assoc. done.
Qed.

Lemma start_then_stop_witness :
  exists s : TimeSession,
    timeSession (db (delete_active (demo_env 11000) "u1" after_padded_start).1)
      = <["s1" := s]> ∅
    /\ ts_durationSeconds s = 10
    /\ ts_description s = Some "draft".
Proof.
  destruct (start_then_stop (demo_env 1000) (demo_env 11000) "u1" padded_body idle_world
              after_padded_start
              (delete_active (demo_env 11000) "u1" after_padded_start).1 200 200
              (activeSession_created "s1" (activeSessionData "u1" padded_body), None)
              (promoted_row (demo_env 11000) "u1"
                 (activeSession_created "s1" (activeSessionData "u1" padded_body)),
               None))
    as (_ & Hts & _ & _ & _ & Hdur & _ & _ & Hdesc & _).
  - reflexivity.
  - reflexivity.
  - reflexivity.
  - eexists. split; [exact Hts|]. split; [exact Hdur | exact Hdesc].
Defined.

Lemma post_active_slot_wf (env : Env) (userId : string) (body : ActiveBody) (w : World) :
  (forall u a, activeSession (db w) !! u = Some a -> slot_wf u a) ->
  forall u a, activeSession (db (post_active env userId body w).1) !! u = Some a ->
              slot_wf u a.
Proof.
  intros Hwf u a.
  destruct (post_active_cases env userId body w)
    as [[f ->] | (_ & Hschema & row & Hrow & ->)]; [apply Hwf|].
  simpl. destruct (decide (userId = u)) as [<-|Hne].
  2: { rewrite lookup_insert_ne by done. apply Hwf. }
  rewrite lookup_insert_eq. intros [= <-].
  unfold activeSessionSchema in Hschema.
  apply andb_prop in Hschema as [Hschema Hcycle].
  apply andb_prop in Hschema as [_ Htarget].
  assert (Hc : 0 <= default 0 (ab_pomodoroCycle body)).
  { destruct (ab_pomodoroCycle body); simpl; lia. }
  destruct (activeSessionData_clean userId body) as [Hdesc Hproj].
  destruct (activeSession (db w) !! userId) as [old|] eqn:Hold; subst row.
  - destruct (Hwf _ _ Hold) as (_ & [Hodesc _] & _ & Hotarget).
    split; [done|]. split; [split; [|exact Hproj]|]. 
    + simpl in *. destruct (ab_description body ≫= trimmed_or_undefined); done.
    + split; [exact Hc|]. simpl.
      destruct (ab_targetSeconds body) as [| |n]; simpl in *; [done|done|].
      intros ? [= <-]. lia.
  - split; [done|]. split; [by split|]. split; [exact Hc|]. simpl.
    destruct (ab_targetSeconds body) as [| |n]; simpl in *; [done|done|].
    intros ? [= <-]. lia.
Qed.

(** X7.  In every world the session routes can reach from an empty
    register, each slot is filed under its own user, its description is
    trimmed and not blank (or absent), its project id is not empty (or
    absent), its pomodoro cycle is at least zero and so is its target
    when it has one. *)
Theorem reachable_slots_wf (w : World) (userId : string) (a : ActiveSession) :
  reachable w ->
  activeSession (db w) !! userId = Some a ->
  slot_wf userId a.
Proof.
  intros Hreach. revert userId a.
  induction Hreach as [d Hempty | env u b w _ IH | env u id b w _ IH
                      | env u b w _ IH | env u w _ IH]; intros userId a.
  - simpl. by rewrite Hempty, lookup_empty.
  - rewrite post_session_register. apply IH.
  - rewrite patch_session_register. apply IH.
  - by apply post_active_slot_wf.
  - destruct (delete_active_cases env u w)
      as [[f ->] | [(a0 & _ & _ & ->) | (a0 & _ & _ & _ & ->)]]; simpl;
      [apply IH | |]; intros Hu; apply lookup_delete_Some in Hu as [_ Hu];
      by apply IH.
Qed.

Lemma reachable_slots_wf_witness :
  exists a, activeSession (db after_second_upsert) !! "u1" = Some a /\ slot_wf "u1" a.
Proof.
  eexists. split; [reflexivity|].
  apply (reachable_slots_wf after_second_upsert).
  - apply reach_post_active, reach_post_active, (reach_start (db idle_world)).
    reflexivity.
  - reflexivity.
Defined.

(** ** Patching and deleting historical sessions *)

(** What the patch route does: it fails and changes nothing, or it
    replaces the one row. *)
Lemma patch_session_cases (env : Env) (userId id : string) (body : UpdateBody)
    (w : World) :
  (exists f, patch_session env userId id body w = (w, Failed f))
  \/ (exists existing data,
        timeSession (db w) !! id = Some existing
        /\ ts_userId existing = userId
        /\ ud_description data = ub_description body
        /\ ud_startTime data
           = match ub_startTime body with ValidDate t => Some t | _ => None end
        /\ ud_endTime data
           = match ub_endTime body with ValidDate t => Some t | _ => None end
        /\ ud_durationSeconds data
           = (if supplied (ub_startTime body) || supplied (ub_endTime body)
              then Some ((default (ts_endTime existing) (ud_endTime data)
                          - default (ts_startTime existing) (ud_startTime data)) / 1000)
              else None)
        /\ (forall n, ud_durationSeconds data = Some n -> 0 <= n)
        /\ ud_projectId data
           = match ub_projectId body with
             | Undefined => None
             | v => Some (or_null v)
             end
        /\ patch_session env userId id body w =
             (set_db (set_timeSession
                        (<[id := timeSession_updated existing data]> (timeSession (db w)))
                        (db w)) w,
              Json 200 (timeSession_updated existing data,
                        include_project (db w)
                          (ts_projectId (timeSession_updated existing data))))).
Proof.
  remember (patch_session env userId id body w) as res eqn:E.
  unfold patch_session in E.
  destruct (updateSessionSchema body); simpl in E; [|left; by eexists].
  unfold call at 1 in E. unfold timeSession_findFirst in E.
  destruct (find_fails env) eqn:Hf; [left; eexists; by rewrite set_db_id in E|].
  rewrite set_db_id in E.
  destruct (timeSession (db w) !! id) as [s0|] eqn:Hs0; simpl in E; [|left; by eexists].
  destruct (decide (ts_userId s0 = userId)) as [Hown|]; [|left; by eexists].
  match type of E with
  | context [check_project ?e ?u ?p ?k ?w] =>
      destruct (check_project_cases e u p k w) as [Hk | [f Hk]];
        rewrite Hk in E; clear Hk; [|left; by eexists]
  end.
  assert (Hfin : forall data,
            res = call (timeSession_update env id data)
                    (fun session w0 =>
                       (w0, Json 200 (session,
                                      include_project (db w0) (ts_projectId session)))) w ->
            (exists f, res = (w, Failed f))
            \/ res = (set_db (set_timeSession
                                (<[id := timeSession_updated s0 data]> (timeSession (db w)))
                                (db w)) w,
                      Json 200 (timeSession_updated s0 data,
                                include_project (db w)
                                  (ts_projectId (timeSession_updated s0 data))))).
  { intros data ->. unfold call, timeSession_update.
    destruct (update_fails env); [left; eexists; by rewrite set_db_id|].
    rewrite Hs0. by right. }
  destruct (ub_startTime body) as [| |st]; [|left; by eexists|];
    (destruct (ub_endTime body) as [| |en]; [|left; by eexists|]);
    simpl in E;
    try (match type of E with
         | context [Z.ltb ?x 0] => destruct (Z.ltb_spec x 0) as [Hneg|Hnn]
         end; [left; by eexists|]);
    (apply Hfin in E as [Hfail | Hok]; [by left|]);
    right;
    match type of Hok with
    | context [timeSession_updated s0 ?data] => exists s0, data
    end;
    (split; [done|]); (split; [done|]);
    repeat split; try exact Hok; simpl; try done;
    intros n [= <-]; done.
Qed.

(** X8.  A patch that does not answer 200 changes nothing.  One that
    does rewrites one row of the requesting user and nothing else: the
    row keeps its id, owner and mode; the other sessions, the register,
    the projects and the emitted events are as before.  When the body
    supplies a start or an end, the row ends no earlier than it starts
    and lasts the whole seconds in between; when it supplies neither,
    start, end and duration are kept.  A supplied description is stored
    as given. *)
Theorem patch_session_rewrites_one_row (env : Env) (userId id : string)
    (body : UpdateBody) (w : World) :
  let w' := (patch_session env userId id body w).1 in
  let res := (patch_session env userId id body w).2 in
  (forall f, res = Failed f -> w' = w)
  /\ (forall code r, res = Json code r ->
      exists existing,
        timeSession (db w) !! id = Some existing
        /\ ts_userId existing = userId
        /\ timeSession (db w') = <[id := r.1]> (timeSession (db w))
        /\ activeSession (db w') = activeSession (db w)
        /\ project (db w') = project (db w)
        /\ emitted w' = emitted w
        /\ ts_id r.1 = ts_id existing
        /\ ts_userId r.1 = userId
        /\ ts_mode r.1 = ts_mode existing
        /\ (supplied (ub_startTime body) || supplied (ub_endTime body) = true ->
            ts_startTime r.1 <= ts_endTime r.1
            /\ ts_durationSeconds r.1 = (ts_endTime r.1 - ts_startTime r.1) / 1000)
        /\ (supplied (ub_startTime body) || supplied (ub_endTime body) = false ->
            ts_startTime r.1 = ts_startTime existing
            /\ ts_endTime r.1 = ts_endTime existing
            /\ ts_durationSeconds r.1 = ts_durationSeconds existing)
        /\ (forall s, ub_description body = Some s -> ts_description r.1 = Some s)
        /\ (ub_description body = None -> ts_description r.1 = ts_description existing)).
Proof.
  destruct (patch_session_cases env userId id body w)
    as [[f' ->] | (s0 & data & Hs0 & Hown & Hdesc & Hst & Hen & Hdur & Hnn & _ & ->)];
    simpl; [split; [done|discriminate]|].
  split; [discriminate|]. intros code r [= _ <-].
  exists s0. simpl. rewrite Hdesc, Hdur.
  do 9 (split; [done|]). split; [|split; [|split]].
  - intros Hsup. rewrite Hsup in *. simpl.
    specialize (Hnn _ Hdur). split; [|done].
    set (x := default (ts_endTime s0) (ud_endTime data)
              - default (ts_startTime s0) (ud_startTime data)) in *.
    destruct (Z.le_gt_cases 0 x) as [Hx|Hx]; [lia|].
    assert (x / 1000 < 0) by (apply Z.div_lt_upper_bound; lia). lia.
  - intros Hsup. rewrite Hsup. simpl.
    destruct (ub_startTime body), (ub_endTime body); try discriminate.
    by rewrite Hst, Hen.
  - by intros s ->.
  - by intros ->.
Qed.

Lemma patch_session_rewrites_one_row_witness :
  (exists r,
     (patch_session (demo_env 70000) "u1" "s0" (move_end 61500) history_world).2
       = Json 200 r
     /\ ts_startTime r.1 <= ts_endTime r.1
     /\ ts_durationSeconds r.1 = 61)
  /\ (patch_session (demo_env 70000) "u1" "s0" bad_end history_world).1 = history_world.
Proof.
  set (r := (timeSession_updated demo_session
               {| ud_description := None; ud_projectId := None; ud_startTime := None;
                  ud_endTime := Some 61500; ud_durationSeconds := Some 61 |},
             include_project (db history_world) (Some "p1"))).
  destruct (patch_session_rewrites_one_row (demo_env 70000) "u1" "s0" (move_end 61500)
              history_world) as [_ Hok].
  destruct (patch_session_rewrites_one_row (demo_env 70000) "u1" "s0" bad_end
              history_world) as [Hfail _].
  split.
  - exists r. split; [reflexivity|].
    destruct (Hok 200 r) as (s0 & _ & _ & _ & _ & _ & _ & _ & _ & _ & Hsup & _);
      [reflexivity|].
    destruct Hsup as [Hle Hdur]; [reflexivity|]. split; [exact Hle|].
    rewrite Hdur. reflexivity.
  - apply (Hfail DataTerminoInvalida). reflexivity.
Defined.

Lemma delete_session_cases (env : Env) (userId id : string) (w : World) :
  (exists f, delete_session env userId id w = (w, Failed f))
  \/ (exists s,
        timeSession (db w) !! id = Some s
        /\ ts_userId s = userId
        /\ delete_session env userId id w =
             (set_db (set_timeSession (delete id (timeSession (db w))) (db w)) w,
              Json 204 tt)).
Proof.
  unfold delete_session, call, timeSession_findFirst, timeSession_delete.
  destruct (find_fails env); [left; eexists; by rewrite set_db_id|].
  destruct (timeSession (db w) !! id) as [s|] eqn:Hs; simpl;
    [|left; eexists; by rewrite !set_db_id].
  destruct (decide (ts_userId s = userId)) as [Hown|];
    [|left; eexists; by rewrite !set_db_id].
  destruct (delete_fails env); simpl; [left; eexists; by rewrite !set_db_id|].
  rewrite !set_db_id, Hs. right. by exists s.
Qed.

(** X9.  A session of another user, or one that does not exist, can be
    neither patched nor deleted: with a valid body and the lookup going
    through, both routes answer 404 "session not found" and change
    nothing. *)
Theorem sessions_are_owner_scoped (env : Env) (userId id : string)
    (body : UpdateBody) (w : World) :
  find_fails env = false ->
  updateSessionSchema body = true ->
  (forall s, timeSession (db w) !! id = Some s -> ts_userId s <> userId) ->
  patch_session env userId id body w = (w, Failed SessaoNaoEncontrada)
  /\ delete_session env userId id w = (w, Failed SessaoNaoEncontrada)
  /\ status SessaoNaoEncontrada = 404.
Proof.
  intros Hf Hschema Hforeign.
  assert (Hfind : timeSession_findFirst env id userId (db w) = (db w, Done None)).
  { unfold timeSession_findFirst. rewrite Hf.
    destruct (timeSession (db w) !! id) as [s|] eqn:Hs; simpl; [|done].
    destruct (decide (ts_userId s = userId)); [|done]. by destruct (Hforeign s). }
  split; [|split; [|done]].
  - unfold patch_session. rewrite Hschema. simpl. unfold call at 1.
    rewrite Hfind. by rewrite set_db_id.
  - unfold delete_session, call. rewrite Hfind. by rewrite set_db_id.
Qed.

Lemma sessions_are_owner_scoped_witness :
  patch_session (demo_env 70000) "u2" "s0" (rename_to "mine") history_world
    = (history_world, Failed SessaoNaoEncontrada)
  /\ delete_session (demo_env 70000) "u2" "s0" history_world
    = (history_world, Failed SessaoNaoEncontrada)
  /\ status SessaoNaoEncontrada = 404.
Proof.
  apply (sessions_are_owner_scoped (demo_env 70000) "u2" "s0" (rename_to "mine")
           history_world).
  - reflexivity.
  - reflexivity.
  - intros s Hs. vm_compute in Hs. injection Hs as <-. discriminate.
Defined.

(** X10.  Deleting a session removes that one row, which belonged to
    the requesting user, and nothing else: the other sessions, the
    register, the projects and the emitted events are as before.  A
    delete that does not answer 204 changes nothing. *)
Theorem delete_session_removes_one_row (env : Env) (userId id : string) (w : World) :
  let w' := (delete_session env userId id w).1 in
  let r := (delete_session env userId id w).2 in
  (forall f, r = Failed f -> w' = w)
  /\ (forall code, r = Json code tt ->
        code = 204
        /\ (exists s, timeSession (db w) !! id = Some s /\ ts_userId s = userId)
        /\ timeSession (db w') = delete id (timeSession (db w))
        /\ activeSession (db w') = activeSession (db w)
        /\ project (db w') = project (db w)
        /\ emitted w' = emitted w).
Proof.
  destruct (delete_session_cases env userId id w)
    as [[f ->] | (s & Hs & Hown & ->)]; simpl.
  - split; [done|]. discriminate.
  - split; [discriminate|]. intros code [= <-]. repeat split; eauto.
Qed.

Lemma delete_session_removes_one_row_witness :
  timeSession (db (delete_session (demo_env 70000) "u1" "s0" history_world).1) = ∅
  /\ activeSession (db (delete_session (demo_env 70000) "u1" "s0" history_world).1)
     = activeSession (db history_world).
Proof.
  destruct (delete_session_removes_one_row (demo_env 70000) "u1" "s0" history_world)
    as [_ Hok].
  destruct (Hok 204) as (_ & _ & Hts & Hreg & _); [reflexivity|].
  split; [rewrite Hts; reflexivity | exact Hreg].
Defined.

(** X11.  Create, then delete.  A session created by the create route
    and then deleted by its owner, the calls going through, leaves the
    historical sessions exactly as they were before the create. *)
Theorem create_then_delete (env env' : Env) (userId : string) (body : CreateBody)
    (w w1 : World) (code : Z) (r : TimeSession * option ProjectSummary) :
  post_session env userId body w = (w1, Json code r) ->
  find_fails env' = false ->
  delete_fails env' = false ->
  (delete_session env' userId (ts_id r.1) w1).2 = Json 204 tt
  /\ db (delete_session env' userId (ts_id r.1) w1).1 = db w
  /\ emitted (delete_session env' userId (ts_id r.1) w1).1 = emitted w.
Proof.
  intros Hcreate Hf Hd.
  unfold post_session in Hcreate.
  destruct (negb (createSessionSchema body)); [discriminate|].
  match type of Hcreate with
  | context [check_project ?e ?u ?p ?k ?w] =>
      destruct (check_project_cases e u p k w) as [Hk | [f Hk]];
        rewrite Hk in Hcreate; clear Hk; [|discriminate]
  end.
  unfold call, timeSession_create in Hcreate.
  destruct (create_fails env); [discriminate|].
  destruct (timeSession (db w) !! newId env) eqn:Hfresh; [discriminate|].
  injection Hcreate as <- _ <-. simpl.
  unfold delete_session, call, timeSession_findFirst, timeSession_delete.
  rewrite Hf, Hd. simpl. rewrite lookup_insert_eq. simpl.
  rewrite decide_True by done. simpl. rewrite lookup_insert_eq. simpl.
  split; [done|]. split; [|done].
  rewrite delete_insert_eq, delete_id by done. by destruct (db w).
Qed.

Lemma create_then_delete_witness :
  db (delete_session (demo_env 30000) "u1" "s1" after_create).1 = db idle_world.
Proof.
  destruct (create_then_delete (demo_env 20000) (demo_env 30000) "u1" skewed_body
              idle_world after_create 201
              ({| ts_id := "s1"; ts_description := None; ts_startTime := 0;
                  ts_endTime := 10000; ts_durationSeconds := 999; ts_mode := stopwatch;
                  ts_projectId := None; ts_userId := "u1" |}, None))
    as (_ & Hdb & _); [reflexivity..|].
  exact Hdb.
Defined.

Lemma post_session_cases (env : Env) (userId : string) (body : CreateBody) (w : World) :
  (createSessionSchema body = false
   /\ post_session env userId body w = (w, Failed DadosInvalidos))
  \/ (createSessionSchema body = true
      /\ (find_fails env = true
          \/ forall i, or_null (cb_projectId body) = Some i ->
                       exists p, project (db w) !! i = Some p /\ p_userId p = userId)
      /\ post_session env userId body w = (w, Failed ErroInterno))
  \/ (createSessionSchema body = true /\ find_fails env = false
      /\ (exists i, or_null (cb_projectId body) = Some i
                    /\ forall p, project (db w) !! i = Some p -> p_userId p <> userId)
      /\ post_session env userId body w = (w, Failed ProjetoNaoEncontrado))
  \/ (createSessionSchema body = true
      /\ (forall i, or_null (cb_projectId body) = Some i ->
            exists p, project (db w) !! i = Some p /\ p_userId p = userId)
      /\ timeSession (db w) !! newId env = None
      /\ post_session env userId body w =
           (set_db (set_timeSession
                      (<[newId env := created_row env userId body]> (timeSession (db w)))
                      (db w)) w,
            Json 201 (created_row env userId body,
                      include_project (db w) (or_null (cb_projectId body))))).
Proof.
  remember (post_session env userId body w) as res eqn:E.
  unfold post_session in E.
  destruct (createSessionSchema body); simpl in E; [|by left].
  right.
  assert (Hgo : forall k : Handler (TimeSession * option ProjectSummary),
            k = call (timeSession_create env
                        {| sd_description := cb_description body;
                           sd_startTime := cb_startTime body;
                           sd_endTime := cb_endTime body;
                           sd_durationSeconds := cb_durationSeconds body;
                           sd_mode := cb_mode body;
                           sd_userId := userId;
                           sd_projectId := or_null (cb_projectId body) |})
                  (fun session w0 =>
                     (w0, Json 201 (session,
                                    include_project (db w0) (ts_projectId session)))) ->
            k w = (w, Failed ErroInterno)
            \/ (timeSession (db w) !! newId env = None
                /\ k w = (set_db (set_timeSession
                                    (<[newId env := created_row env userId body]>
                                       (timeSession (db w))) (db w)) w,
                          Json 201 (created_row env userId body,
                                    include_project (db w) (or_null (cb_projectId body)))))).
  { intros k ->. unfold call, timeSession_create.
    destruct (create_fails env); [left; by rewrite set_db_id|].
    destruct (timeSession (db w) !! newId env); [left; by rewrite set_db_id|].
    by right. }
  unfold check_project in E.
  destruct (or_null (cb_projectId body)) as [i|] eqn:Hi.
  - unfold call at 1 in E. unfold project_findFirst in E.
    destruct (find_fails env) eqn:Hf.
    { left. rewrite set_db_id in E. split; [done|]. split; [by left|done]. }
    rewrite set_db_id in E.
    destruct (project (db w) !! i) as [p|] eqn:Hp; simpl in E.
    2: { right. left. do 2 (split; [done|]). split; [|exact E]. exists i.
         split; [done|]. intros q. by rewrite Hp. }
    destruct (decide (p_userId p = userId)) as [Hown|Hother].
    2: { right. left. do 2 (split; [done|]). split; [|exact E]. exists i.
         split; [done|]. intros q. rewrite Hp. by intros [= <-]. }
    assert (Howned : forall j, Some i = Some j ->
              exists q, project (db w) !! j = Some q /\ p_userId q = userId)
      by (intros j [= <-]; by exists p).
    destruct (Hgo _ eq_refl) as [Hfail | [Hfresh Hok]].
    + left. split; [done|]. split; [by right|]. by rewrite E.
    + right. right. split; [done|]. split; [done|]. split; [done|]. by rewrite E.
  - destruct (Hgo _ eq_refl) as [Hfail | [Hfresh Hok]].
    + left. split; [done|]. split; [by right|]. by rewrite E.
    + right. right. split; [done|]. split; [done|]. split; [done|]. by rewrite E.
Qed.

(** X12.  Creating a historical session never touches the register and
    never emits; it answers 400 to a negative duration or an empty
    project id and 404 to a project that is not the user's, and any
    answer other than 201 leaves the world as it was. *)
Theorem post_session_is_quiet (env : Env) (userId : string) (body : CreateBody)
    (w : World) :
  let w' := (post_session env userId body w).1 in
  let r := (post_session env userId body w).2 in
  activeSession (db w') = activeSession (db w)
  /\ project (db w') = project (db w)
  /\ emitted w' = emitted w
  /\ (forall f, r = Failed f -> w' = w)
  /\ (cb_durationSeconds body < 0 \/ cb_projectId body = Val "" ->
      r = Failed DadosInvalidos)
  /\ (createSessionSchema body = true -> find_fails env = false ->
      forall i, cb_projectId body = Val i ->
                (forall p, project (db w) !! i = Some p -> p_userId p <> userId) ->
                r = Failed ProjetoNaoEncontrado).
Proof.
  intros w' r. subst w' r.
  assert (Hbad : cb_durationSeconds body < 0 \/ cb_projectId body = Val "" ->
                 createSessionSchema body = false).
  { unfold createSessionSchema. intros [Hneg | ->]; [|done].
    destruct (Z.leb_spec 0 (cb_durationSeconds body)); [lia|]. apply andb_false_r. }
  assert (Hval : forall i, createSessionSchema body = true -> cb_projectId body = Val i ->
                           or_null (cb_projectId body) = Some i).
  { intros i Hs Hi. unfold createSessionSchema in Hs. rewrite Hi in *. simpl in *.
    by destruct (truthy i). }
  assert (Hclash : forall i,
            createSessionSchema body = true -> cb_projectId body = Val i ->
            (forall p, project (db w) !! i = Some p -> p_userId p <> userId) ->
            (forall j, or_null (cb_projectId body) = Some j ->
                       exists p, project (db w) !! j = Some p /\ p_userId p = userId) ->
            False).
  { intros i Hs Hi Hforeign Howned.
    destruct (Howned i (Hval i Hs Hi)) as (p & Hp & Hown). by apply (Hforeign p). }
  destruct (post_session_cases env userId body w)
    as [[Hs ->] | [(Hs & Hwhy & ->) | [(Hs & Hf & (i & Hi & Hforeign) & ->)
                                     | (Hs & Howned & _ & ->)]]]; simpl.
  - repeat split; try done. congruence.
  - repeat split; try done.
    + intros Hb. apply Hbad in Hb. congruence.
    + intros _ Hf j Hj Hforeign. destruct Hwhy as [?|Howned]; [congruence|].
      by destruct (Hclash j).
  - repeat split; try done. intros Hb. apply Hbad in Hb. congruence.
  - repeat split; try done.
    + intros Hb. apply Hbad in Hb. congruence.
    + intros _ _ j Hj Hforeign. by destruct (Hclash j).
Qed.

(** ** Further properties of the stream *)

(** X13.  Once [cleanup] has run, the connection is inert: whatever
    ticks and change events follow, nothing more is written, no query is
    issued and the cache stays as it was. *)
Theorem closed_stream_stays_silent (c : Conn) (steps : list StreamStep) :
  stream_run (cleanup c) steps = cleanup c.
Proof.
  induction steps as [|s steps IH]; [done|].
  unfold stream_run in *. simpl.
  replace (stream_step (cleanup c) s) with (cleanup c); [exact IH|].
  by destruct s.
Qed.

Lemma stream_step_keeps_user (c : Conn) (s : StreamStep) :
  conn_userId (stream_step c s) = conn_userId c.
Proof.
  destruct s as [t | u t currentTime fails d |]; simpl; [| |done].
  - destruct (tick_cases t c) as [-> | (a & p & _ & _ & ->)]; done.
  - destruct (isClosed c); [done|]. unfold onChangeHandler.
    destruct (decide _); [|done].
    by destruct (sendCurrentState_keeps true t currentTime fails d c) as (-> & _).
Qed.

(** X14.  On an open connection that is not closed along the way, the
    queries issued are exactly the change events for the connection's
    own user: ticks and other users' events cost none, and neither the
    clock nor a failing query changes the count. *)
Theorem queries_count_own_changes (c : Conn) (steps : list StreamStep) :
  isClosed c = false ->
  forallb (fun s => negb (is_close s)) steps = true ->
  queries (stream_run c steps)
  = (queries c + List.length (List.filter (is_change_of (conn_userId c)) steps))%nat.
Proof.
  revert c. induction steps as [|s steps IH]; intros c Hopen Hnoclose.
  - simpl. lia.
  - simpl in Hnoclose. apply andb_prop in Hnoclose as [Hs Hrest].
    unfold stream_run in *. simpl foldl.
    assert (Hstep : isClosed (stream_step c s) = false
                    /\ queries (stream_step c s)
                       = (queries c + if is_change_of (conn_userId c) s then 1 else 0)%nat).
    { destruct s as [t | u t currentTime fails d |]; simpl in *; [| |done].
      - destruct (tick_cases t c) as [-> | (a & p & _ & _ & ->)]; simpl; split; [done|lia|done|lia].
      - rewrite Hopen. unfold onChangeHandler.
        destruct (decide (u = conn_userId c)) as [->|Hne].
        + rewrite bool_decide_true by done.
          destruct (onChangeHandler_own t currentTime fails d c) as (_ & Hc & Hq).
          unfold onChangeHandler in Hc, Hq. rewrite decide_True in Hc, Hq by done.
          rewrite Hc, Hq. split; [done|lia].
        + rewrite bool_decide_false by done. split; [done|lia]. }
    destruct Hstep as [Hopen' Hq].
    rewrite (IH _ Hopen' Hrest), stream_step_keeps_user, Hq. simpl.
    destruct (is_change_of (conn_userId c) s); simpl; lia.
Qed.

Lemma queries_count_own_changes_witness :
  queries (stream_run demo_conn mixed_steps) = 3%nat.
Proof.
  rewrite (queries_count_own_changes demo_conn mixed_steps); reflexivity.
Defined.

(** X15.  A query that is rejected costs a query and writes the error
    event, flag false, but leaves the cache and the time of the last
    query as they were: the ticks that follow keep reporting the session
    cached before. *)
Theorem failed_query_keeps_cache (forceQuery : bool) (t currentTime : Z) (d : Db)
    (c : Conn) :
  forceQuery = true \/ QUERY_CACHE_MS < t - lastQueryTime c ->
  let c' := sendCurrentState forceQuery t currentTime true d c in
  written c' = written c ++ [StateError]
  /\ ev_active StateError = false
  /\ queries c' = S (queries c)
  /\ cachedState c' = cachedState c
  /\ lastQueryTime c' = lastQueryTime c
  /\ (forall t' a p,
        isClosed c = false ->
        cachedState c = Some (Some (a, p)) ->
        written (tick t' c')
          = written c ++ [StateError;
                          StateActive (payload a p (elapsed t' (as_startTime a)))]).
Proof.
  intros Hquery c'. subst c'. unfold sendCurrentState.
  assert (Hshould : forceQuery || Z.ltb QUERY_CACHE_MS (t - lastQueryTime c) = true).
  { destruct Hquery as [-> | Hlate]; [done|].
    apply orb_true_iff. right. by apply Z.ltb_lt. }
  rewrite Hshould. simpl. do 5 (split; [done|]).
  intros t' a p Hopen Hcache. unfold tick. simpl. rewrite Hopen, Hcache. simpl.
  by rewrite <- app_assoc.
Qed.

Lemma failed_query_keeps_cache_witness :
  written demo_conn_after_fault = written demo_conn ++ [StateError]
  /\ cachedState demo_conn_after_fault = cachedState demo_conn
  /\ written (tick 8200 demo_conn_after_fault)
     = written demo_conn
       ++ [StateError;
           StateActive (payload demo_slot (include_project demo_db (Some "p1")) 7)].
Proof.
  destruct (failed_query_keeps_cache true 6000 6000 demo_db demo_conn)
    as (Hw & _ & _ & Hc & _ & Htick); [by left|].
  split; [exact Hw|]. split; [exact Hc|].
  apply (Htick 8200 demo_slot (include_project demo_db (Some "p1"))); reflexivity.
Defined.

(** X16.  A change event is answered from the store as the write left
    it.  After a successful upsert, the handler of a connection of that
    user, its query going through, writes the active event of the row
    the upsert replied, with the elapsed seconds at that moment; after a
    successful stop it writes the inactive event. *)
Theorem change_push_reflects_write (env : Env) (userId : string) (w : World)
    (t currentTime : Z) (c : Conn) :
  conn_userId c = userId ->
  (forall body w' code r,
     post_active env userId body w = (w', Json code r) ->
     written (onChangeHandler userId t currentTime false (db w') c)
       = written c
         ++ [StateActive (payload r.1 r.2 (elapsed currentTime (as_startTime r.1)))])
  /\ (forall w' code r,
        delete_active env userId w = (w', Json code r) ->
        written (onChangeHandler userId t currentTime false (db w') c)
          = written c ++ [StateInactive]).
Proof.
  intros <-. split.
  - intros body w' code r Hpost.
    unfold onChangeHandler. rewrite decide_True by done.
    rewrite sendCurrentState_forced. simpl.
    destruct (post_active_cases env (conn_userId c) body w)
      as [[f Hfail] | (_ & _ & row & _ & Hok)]; [congruence|].
    rewrite Hok in Hpost. injection Hpost as <- _ <-.
    unfold fetch. simpl. by rewrite lookup_insert_eq.
  - intros w' code r Hstop.
    unfold onChangeHandler. rewrite decide_True by done.
    rewrite sendCurrentState_forced. simpl.
    apply delete_active_success in Hstop as (a & _ & _ & _ & _ & Hreg & _).
    unfold fetch. by rewrite Hreg, lookup_delete_eq.
Qed.

Lemma change_push_reflects_write_witness :
  written (onChangeHandler "u1" 2500 2600 false (db after_first_upsert) idle_conn)
  = [StateInactive;
     StateActive (payload (activeSession_created "s1" (activeSessionData "u1" first_body))
                    (include_project (db idle_world) (Some "p1")) 1)].
Proof.
  destruct (change_push_reflects_write (demo_env 1000) "u1" idle_world 2500 2600 idle_conn)
    as [Hup _]; [reflexivity|].
  apply (Hup first_body after_first_upsert 200
           (activeSession_created "s1" (activeSessionData "u1" first_body),
            include_project (db idle_world) (Some "p1"))).
  reflexivity.
Defined.

(** * Pomodoro settings *)

(** X17.  Reading the settings creates them on first use and is
    idempotent afterwards: a user without a row gets the defaults
    (25, 5, 15 and 4 minutes or cycles, no automatic break) stored under
    the user's name; a user with a row gets that row and the store is
    not touched; and reading again after a successful read returns the
    same row and changes nothing. *)
Theorem get_pomodoro_lazy_and_idempotent (env env' : Env) (userId : string)
    (m m' : gmap string PomodoroSettings) (code : Z) (s : PomodoroSettings) :
  get_pomodoro env userId m = (m', Json code s) ->
  (m !! userId = None ->
     m' = <[userId := s]> m
     /\ s = settings_row (newId env) userId default_settings)
  /\ (forall old, m !! userId = Some old -> s = old /\ m' = m)
  /\ (find_fails env' = false -> get_pomodoro env' userId m' = (m', Json 200 s)).
Proof.
  unfold get_pomodoro. destruct (find_fails env); [discriminate|].
  destruct (m !! userId) as [old|] eqn:Hold.
  - intros [= <- _ <-]. split; [discriminate|]. split.
    + by intros ? [= <-].
    + intros ->. by rewrite Hold.
  - destruct (create_fails env); [discriminate|].
    intros [= <- _ <-]. split; [done|]. split; [discriminate|].
    intros ->. by rewrite lookup_insert_eq.
Qed.

Lemma get_pomodoro_lazy_and_idempotent_witness :
  exists s,
    (get_pomodoro (demo_env 0) "u1" ∅).2 = Json 200 s
    /\ pm_workMinutes s = 25 /\ pm_longBreakInterval s = 4
    /\ get_pomodoro (demo_env 9) "u1" (get_pomodoro (demo_env 0) "u1" ∅).1
       = ((get_pomodoro (demo_env 0) "u1" ∅).1, Json 200 s).
Proof.
  exists (settings_row "s1" "u1" default_settings).
  destruct (get_pomodoro_lazy_and_idempotent (demo_env 0) (demo_env 9) "u1" ∅
              (get_pomodoro (demo_env 0) "u1" ∅).1 200
              (settings_row "s1" "u1" default_settings))
    as (_ & _ & Hagain); [reflexivity|].
  do 3 (split; [reflexivity|]). apply Hagain. reflexivity.
Defined.

Lemma positive_default_spec (dflt : Z) (v : option Z) (n : Z) :
  0 < dflt ->
  positive_default dflt v = Some n ->
  0 < n /\ n = default dflt v.
Proof.
  intros Hd. destruct v as [k|]; simpl.
  - destruct (Z.ltb_spec 0 k); [|discriminate]. by intros [= <-].
  - by intros [= <-].
Qed.

(** What a 200 from the PUT route stores. *)
Lemma put_pomodoro_success (env : Env) (userId : string) (body : SettingsBody)
    (m m' : gmap string PomodoroSettings) (code : Z) (s : PomodoroSettings) :
  put_pomodoro env userId body m = (m', Json code s) ->
  m' = <[userId := s]> m
  /\ pm_workMinutes s = default 25 (sb_workMinutes body)
  /\ pm_shortBreakMinutes s = default 5 (sb_shortBreakMinutes body)
  /\ pm_longBreakMinutes s = default 15 (sb_longBreakMinutes body)
  /\ pm_longBreakInterval s = default 4 (sb_longBreakInterval body)
  /\ pm_autoStartBreak s = default false (sb_autoStartBreak body)
  /\ (0 < pm_workMinutes s /\ 0 < pm_shortBreakMinutes s
      /\ 0 < pm_longBreakMinutes s /\ 0 < pm_longBreakInterval s)
  /\ pm_id s = match m !! userId with Some old => pm_id old | None => newId env end
  /\ pm_userId s = match m !! userId with Some old => pm_userId old | None => userId end.
Proof.
  unfold put_pomodoro, pomodoroSettingsSchema.
  destruct (positive_default 25 _) as [a|] eqn:Ha; simpl; [|discriminate].
  destruct (positive_default 5 _) as [b|] eqn:Hb; simpl; [|discriminate].
  destruct (positive_default 15 _) as [c|] eqn:Hc; simpl; [|discriminate].
  destruct (positive_default 4 _) as [d|] eqn:Hd; simpl; [|discriminate].
  apply positive_default_spec in Ha as [? ?]; [|lia].
  apply positive_default_spec in Hb as [? ?]; [|lia].
  apply positive_default_spec in Hc as [? ?]; [|lia].
  apply positive_default_spec in Hd as [? ?]; [|lia].
  destruct (upsert_fails env); [discriminate|].
  intros [= <- _ <-]. destruct (m !! userId); simpl; repeat split; done.
Qed.

(** X18.  Saving the settings replaces all five of them: each is the
    body's value, or the default (25, 5, 15, 4, no automatic break) when
    the body leaves it out, whatever the row held before; only the id
    and the owner of an existing row are kept.  Reading afterwards
    returns the row just saved, and the other users' rows are as
    before. *)
Theorem put_pomodoro_replaces_all (env env' : Env) (userId : string)
    (body : SettingsBody) (m m' : gmap string PomodoroSettings) (code : Z)
    (s : PomodoroSettings) :
  put_pomodoro env userId body m = (m', Json code s) ->
  pm_workMinutes s = default 25 (sb_workMinutes body)
  /\ pm_shortBreakMinutes s = default 5 (sb_shortBreakMinutes body)
  /\ pm_longBreakMinutes s = default 15 (sb_longBreakMinutes body)
  /\ pm_longBreakInterval s = default 4 (sb_longBreakInterval body)
  /\ pm_autoStartBreak s = default false (sb_autoStartBreak body)
  /\ (forall old, m !! userId = Some old -> pm_id s = pm_id old)
  /\ (forall other, other <> userId -> m' !! other = m !! other)
  /\ (find_fails env' = false -> get_pomodoro env' userId m' = (m', Json 200 s)).
Proof.
  intros Hput.
  apply put_pomodoro_success in Hput
    as (-> & Hw & Hs & Hl & Hi & Ha & _ & Hid & _).
  do 5 (split; [done|]). split; [|split].
  - intros old Hold. by rewrite Hid, Hold.
  - intros other Hne. by rewrite lookup_insert_ne.
  - intros Hf. unfold get_pomodoro. by rewrite Hf, lookup_insert_eq.
Qed.

Lemma put_pomodoro_replaces_all_witness :
  exists s,
    put_pomodoro (demo_env 5) "u1" only_interval settings_after_put
      = (<["u1" := s]> settings_after_put, Json 200 s)
    /\ pm_workMinutes s = 25
    /\ pm_longBreakInterval s = 2
    /\ pm_autoStartBreak s = false.
Proof.
  exists (settings_row "s1" "u1"
            {| st_workMinutes := 25; st_shortBreakMinutes := 5; st_longBreakMinutes := 15;
               st_longBreakInterval := 2; st_autoStartBreak := false |}).
  split; [reflexivity|].
  destruct (put_pomodoro_replaces_all (demo_env 5) (demo_env 6) "u1" only_interval
              settings_after_put
              (put_pomodoro (demo_env 5) "u1" only_interval settings_after_put).1 200
              (settings_row "s1" "u1"
                 {| st_workMinutes := 25; st_shortBreakMinutes := 5;
                    st_longBreakMinutes := 15; st_longBreakInterval := 2;
                    st_autoStartBreak := false |}))
    as (Hw & _ & _ & Hi & Ha & _); [reflexivity|].
  split; [exact Hw|]. split; [exact Hi | exact Ha].
Defined.

Lemma put_pomodoro_failure (env : Env) (userId : string) (body : SettingsBody)
    (m : gmap string PomodoroSettings) (f : Failure) :
  (put_pomodoro env userId body m).2 = Failed f ->
  (put_pomodoro env userId body m).1 = m.
Proof.
  unfold put_pomodoro. destruct (pomodoroSettingsSchema body); [|done].
  destruct (upsert_fails env); [done|discriminate].
Qed.

(** X19.  A body with a duration or interval that is zero or negative
    is answered 400 and nothing is stored; more generally a PUT that
    does not answer 200 leaves the store as it was. *)
Theorem put_pomodoro_rejects_nonpositive (env : Env) (userId : string)
    (body : SettingsBody) (m : gmap string PomodoroSettings) :
  ((exists n, n <= 0
              /\ (sb_workMinutes body = Some n \/ sb_shortBreakMinutes body = Some n
                  \/ sb_longBreakMinutes body = Some n
                  \/ sb_longBreakInterval body = Some n)) ->
   put_pomodoro env userId body m = (m, Failed DadosInvalidos)
   /\ status DadosInvalidos = 400)
  /\ (forall f, (put_pomodoro env userId body m).2 = Failed f ->
                (put_pomodoro env userId body m).1 = m).
Proof.
  split.
  - intros (n & Hn & Hwhere). split; [|done].
    assert (Hbad : forall dflt, positive_default dflt (Some n) = None).
    { intros dflt. simpl. by destruct (Z.ltb_spec 0 n); [lia|]. }
    unfold put_pomodoro, pomodoroSettingsSchema.
    destruct Hwhere as [-> | [-> | [-> | ->]]]; rewrite Hbad; simpl; [done|..];
      repeat (match goal with
              | |- context [positive_default ?d ?v] =>
                  destruct (positive_default d v); simpl; [|done]
              end); done.
  - intros f. apply put_pomodoro_failure.
Qed.

Lemma put_pomodoro_rejects_nonpositive_witness :
  put_pomodoro (demo_env 5) "u1" zero_work settings_after_put
  = (settings_after_put, Failed DadosInvalidos).
Proof.
  destruct (put_pomodoro_rejects_nonpositive (demo_env 5) "u1" zero_work settings_after_put)
    as [Hbad _].
  apply Hbad. exists 0. split; [lia|]. by left.
Defined.

(** X20.  The two settings routes keep the table sound: if every row is
    filed under its own user with positive durations and interval, so
    is every row after a GET or a PUT, whatever the request. *)
Theorem settings_routes_keep_ok (env : Env) (userId : string) (body : SettingsBody)
    (m : gmap string PomodoroSettings) :
  settings_ok m ->
  settings_ok (get_pomodoro env userId m).1
  /\ settings_ok (put_pomodoro env userId body m).1.
Proof.
  intros Hok. split.
  - unfold get_pomodoro. destruct (find_fails env); [done|].
    destruct (m !! userId) eqn:Hu; [done|].
    destruct (create_fails env); [done|]. simpl.
    intros u s. destruct (decide (userId = u)) as [<-|Hne].
    + rewrite lookup_insert_eq. intros [= <-]. simpl. repeat split; lia.
    + rewrite lookup_insert_ne by done. apply Hok.
  - destruct (put_pomodoro env userId body m) as [m' [code s|f]] eqn:Hput; simpl.
    + apply put_pomodoro_success in Hput as (-> & _ & _ & _ & _ & _ & Hpos & _ & Hown).
      intros u s'. destruct (decide (userId = u)) as [<-|Hne].
      * rewrite lookup_insert_eq. intros [= <-]. split; [|exact Hpos].
        rewrite Hown. destruct (m !! userId) as [old|] eqn:Hold; [|done].
        by destruct (Hok _ _ Hold).
      * rewrite lookup_insert_ne by done. apply Hok.
    + assert (Hsame : (put_pomodoro env userId body m).1 = m)
        by (apply (put_pomodoro_failure env userId body m f); by rewrite Hput).
      rewrite Hput in Hsame. simpl in Hsame. by subst.
Qed.

Lemma settings_routes_keep_ok_witness :
  settings_ok settings_after_put
  /\ settings_ok (get_pomodoro (demo_env 0) "u1" ∅).1.
Proof.
  destruct (settings_routes_keep_ok (demo_env 0) "u1" long_work ∅) as [Hget Hput].
  - intros u s Hs. by rewrite lookup_empty in Hs.
  - split; [exact Hput | exact Hget].
Defined.

(** * Access tokens *)

Lemma accessToken_touch_keeps (id : string) (t : Z) (rows : list AccessToken) :
  List.map without_lastUsedAt (accessToken_touch id t rows)
  = List.map without_lastUsedAt rows.
Proof.
  unfold accessToken_touch. rewrite List.map_map. apply List.map_ext.
  intros r. by destruct (bool_decide (at_id r = id)).
Qed.

Lemma authToken_cases (env : Env) (authHeader queryToken : option string)
    (rows : list AccessToken) :
  (exists res, authToken env authHeader queryToken rows = (rows, res)
               /\ forall u, res <> Next u)
  \/ (exists token r,
        presented_token authHeader queryToken = Some token
        /\ token <> ""
        /\ accessToken_findValid token rows = Some r
        /\ authToken env authHeader queryToken rows
           = (accessToken_touch (at_id r) (now env) rows, Next (at_userId r))).
Proof.
  unfold authToken.
  destruct (presented_token authHeader queryToken) as [token|]; [|left; by eexists].
  destruct (truthy token) eqn:Ht; simpl; [|left; by eexists].
  destruct (find_fails env); [left; by eexists|].
  destruct (accessToken_findValid token rows) as [r|] eqn:Hr; [|left; by eexists].
  destruct (update_fails env); [left; by eexists|].
  right. exists token, r. by apply truthy_true in Ht.
Qed.

(** X21.  The middleware lets a request through only for a stored token
    that is not revoked, and as the user who owns it: the token is the
    one presented, it is not empty, and the only thing the request
    changes in the table is the [lastUsedAt] of rows with that row's id,
    set to the clock reading.  A request that is refused changes
    nothing. *)
Theorem authToken_sound (env : Env) (authHeader queryToken : option string)
    (rows : list AccessToken) :
  let rows' := (authToken env authHeader queryToken rows).1 in
  let res := (authToken env authHeader queryToken rows).2 in
  (forall u, res = Next u ->
     exists r,
       In r rows
       /\ presented_token authHeader queryToken = Some (at_token r)
       /\ at_token r <> ""
       /\ at_revokedAt r = None
       /\ at_userId r = u
       /\ rows' = accessToken_touch (at_id r) (now env) rows
       /\ List.map without_lastUsedAt rows' = List.map without_lastUsedAt rows)
  /\ ((forall u, res <> Next u) -> rows' = rows).
Proof.
  destruct (authToken_cases env authHeader queryToken rows)
    as [(res & -> & Hno) | (token & r & Htok & Hne & Hfind & ->)]; simpl.
  - split; [|done]. intros u Hu. by destruct (Hno u).
  - split.
    + intros u [= <-]. exists r.
      apply List.find_some in Hfind as [Hin Hr].
      apply andb_prop in Hr as [Ht Hrev].
      apply bool_decide_eq_true in Ht, Hrev. subst token.
      repeat split; try done. apply accessToken_touch_keeps.
    + intros Hno. by destruct (Hno (at_userId r)).
Qed.

Lemma authToken_sound_witness :
  (authToken (demo_env 500) (Some "Bearer abc123") None demo_tokens).2 = Next "u1"
  /\ (authToken (demo_env 500) None (Some "def456") demo_tokens)
     = (demo_tokens, TokenInvalido).
Proof.
  split; [reflexivity|].
  destruct (authToken_sound (demo_env 500) None (Some "def456") demo_tokens)
    as [_ Hrefused].
  rewrite <- Hrefused at 1; [reflexivity|]. intros u. discriminate.
Defined.

(** X22.  The header wins over the query string.  With an
    [Authorization] header that starts with ["Bearer "] the query token
    is never looked at, so a header whose token is blank is answered 401
    "token missing" even next to a valid query token; a header that
    does not start with ["Bearer "] is ignored altogether. *)
Theorem bearer_header_shadows_query (env : Env) (h : string)
    (queryToken : option string) (rows : list AccessToken) :
  (String.prefix "Bearer " h = true ->
     authToken env (Some h) queryToken rows = authToken env (Some h) None rows
     /\ (trim (substring_from 7 h) = "" ->
         authToken env (Some h) queryToken rows = (rows, TokenAusente)))
  /\ (String.prefix "Bearer " h = false ->
      authToken env (Some h) queryToken rows = authToken env None queryToken rows).
Proof.
  unfold authToken, presented_token. split; intros ->; [|done].
  split; [done|]. by intros ->.
Qed.

Lemma bearer_header_shadows_query_witness :
  authToken (demo_env 500) (Some "Bearer   ") (Some "abc123") demo_tokens
    = (demo_tokens, TokenAusente)
  /\ (authToken (demo_env 500) (Some "Basic xyz") (Some "abc123") demo_tokens).2
     = Next "u1".
Proof.
  destruct (bearer_header_shadows_query (demo_env 500) "Bearer   " (Some "abc123")
              demo_tokens) as [Hbearer _].
  destruct (bearer_header_shadows_query (demo_env 500) "Basic xyz" (Some "abc123")
              demo_tokens) as [_ Hother].
  split.
  - apply Hbearer; reflexivity.
  - rewrite Hother; reflexivity.
Defined.

Lemma delete_token_cases (env : Env) (userId id : string) (rows : list AccessToken) :
  (exists res, delete_token env userId id rows = (rows, res) /\ res <> TokenDeleted)
  \/ (exists r,
        In r rows /\ at_id r = id /\ at_userId r = userId
        /\ delete_token env userId id rows
           = (List.filter (fun r => negb (bool_decide (at_id r = id))) rows, TokenDeleted)).
Proof.
  unfold delete_token. destruct (find_fails env); [left; by eexists|].
  destruct (List.find _ rows) as [r|] eqn:Hr; [|left; by eexists].
  destruct (delete_fails env); [left; by eexists|].
  right. exists r. apply List.find_some in Hr as [Hin Hr].
  apply andb_prop in Hr as [Hi Hu]. apply bool_decide_eq_true in Hi, Hu. done.
Qed.

Lemma In_map_at (f : AccessToken -> string) (r : AccessToken) (rows : list AccessToken) :
  In r rows -> In (f r) (List.map f rows).
Proof. apply List.in_map. Qed.

(** Under a unique index, two rows that agree on the indexed column are
    the same row. *)
Lemma NoDup_map_eq (f : AccessToken -> string) (rows : list AccessToken)
    (r1 r2 : AccessToken) :
  NoDup (List.map f rows) -> In r1 rows -> In r2 rows -> f r1 = f r2 -> r1 = r2.
Proof.
  induction rows as [|r rows IH]; simpl; [done|].
  intros Hnd [<-|H1] [<-|H2] Heq; [done| | |].
  - apply NoDup_cons_1_1 in Hnd. destruct Hnd.
    apply list_elem_of_In. rewrite Heq. by apply List.in_map.
  - apply NoDup_cons_1_1 in Hnd. destruct Hnd.
    apply list_elem_of_In. rewrite <- Heq. by apply List.in_map.
  - apply NoDup_cons_1_2 in Hnd. by apply IH.
Qed.

(** Leaving out rows on which a test fails does not change what [find]
    finds for it. *)
Lemma find_filter_other (P : AccessToken -> bool) (id : string)
    (rows : list AccessToken) :
  (forall x, In x rows -> at_id x = id -> P x = false) ->
  List.find P (List.filter (fun r => negb (bool_decide (at_id r = id))) rows)
  = List.find P rows.
Proof.
  induction rows as [|x rows IH]; intros Hall; [done|]. simpl.
  destruct (bool_decide (at_id x = id)) eqn:Hx; simpl.
  - apply bool_decide_eq_true in Hx. rewrite (Hall x) by (by left || done).
    apply IH. intros y Hy. apply Hall. by right.
  - destruct (P x); [done|]. apply IH. intros y Hy. apply Hall. by right.
Qed.

(** X23.  A deleted token opens nothing any more.  With the table's
    unique indexes in place, after a token row is deleted by its owner a
    request presenting that token is refused (401 "invalid token" when
    the lookup goes through), while every other token is looked up as
    before.  Somebody else's token id is answered 404 and nothing is
    deleted. *)
Theorem deleted_token_is_refused (env env' : Env) (userId id : string)
    (rows : list AccessToken) :
  tokens_unique rows ->
  let rows' := (delete_token env userId id rows).1 in
  let res := (delete_token env userId id rows).2 in
  (res = TokenDeleted ->
     forall r, In r rows -> at_id r = id ->
       at_userId r = userId
       /\ (forall authHeader queryToken,
             presented_token authHeader queryToken = Some (at_token r) ->
             forall u, (authToken env' authHeader queryToken rows').2 <> Next u)
       /\ (find_fails env' = false -> at_token r <> "" ->
           (authToken env' None (Some (at_token r)) rows').2 = TokenInvalido)
       /\ (forall token, token <> at_token r ->
             accessToken_findValid token rows' = accessToken_findValid token rows))
  /\ (find_fails env = false ->
      (forall r, In r rows -> at_id r = id -> at_userId r <> userId) ->
      res = TokenNaoEncontrado /\ rows' = rows).
Proof.
  intros [Htok Hid] rows' res. subst rows' res. split.
  - destruct (delete_token_cases env userId id rows)
      as [(res & -> & Hno) | (r0 & Hin0 & Hid0 & Hu0 & ->)]; simpl; [done|].
    intros _ r Hin Hr.
    assert (r = r0) as -> by (apply (NoDup_map_eq at_id rows); congruence).
    set (rows' := List.filter (fun r => negb (bool_decide (at_id r = id))) rows).
    assert (Hgone : accessToken_findValid (at_token r0) rows' = None).
    { unfold accessToken_findValid.
      destruct (List.find _ rows') as [x|] eqn:Hx; [|done].
      apply List.find_some in Hx as [Hxin Hx].
      apply List.filter_In in Hxin as [Hxin Hxid].
      apply andb_prop in Hx as [Hxt _]. apply bool_decide_eq_true in Hxt.
      assert (x = r0) as -> by (by apply (NoDup_map_eq at_token rows)).
      rewrite bool_decide_true in Hxid by done. discriminate. }
    split; [done|]. split; [|split].
    + intros authHeader queryToken Hp u.
      unfold authToken. rewrite Hp.
      destruct (negb _); [done|]. destruct (find_fails env'); [done|].
      by rewrite Hgone.
    + intros Hf Hne. unfold authToken. simpl.
      apply truthy_true in Hne. rewrite Hne. simpl. rewrite ?Hne. simpl.
      by rewrite Hf, Hgone.
    + intros token Hne. unfold accessToken_findValid. subst rows'.
      apply find_filter_other. intros x Hx Hxid.
      assert (x = r0) as -> by (apply (NoDup_map_eq at_id rows); congruence).
      by rewrite bool_decide_false.
  - intros Hf Hforeign. unfold delete_token. rewrite Hf.
    destruct (List.find _ rows) as [r|] eqn:Hr; [|done].
    apply List.find_some in Hr as [Hin Hr].
    apply andb_prop in Hr as [Hi Hu]. apply bool_decide_eq_true in Hi, Hu.
    by destruct (Hforeign r).
Qed.

Lemma demo_tokens_unique : tokens_unique demo_tokens.
Proof.
  split; simpl;
    repeat (apply NoDup_cons_2;
            [rewrite list_elem_of_In; simpl; intuition discriminate|]);
    apply NoDup_nil_2.
Qed.

Lemma deleted_token_is_refused_witness :
  (delete_token (demo_env 600) "u1" "t1" demo_tokens).2 = TokenDeleted
  /\ (authToken (demo_env 700) None (Some "abc123")
        (delete_token (demo_env 600) "u1" "t1" demo_tokens).1).2 = TokenInvalido
  /\ (delete_token (demo_env 600) "u1" "t2" demo_tokens) = (demo_tokens, TokenNaoEncontrado).
Proof.
  destruct (deleted_token_is_refused (demo_env 600) (demo_env 700) "u1" "t1" demo_tokens
              demo_tokens_unique) as [Hdel _].
  destruct (deleted_token_is_refused (demo_env 600) (demo_env 700) "u1" "t2" demo_tokens
              demo_tokens_unique) as [_ Hforeign].
  split; [reflexivity|]. split.
  - destruct (Hdel eq_refl
                {| at_id := "t1"; at_token := "abc123"; at_createdAt := 10;
                   at_lastUsedAt := None; at_revokedAt := None; at_userId := "u1" |})
      as (_ & _ & Hrefused & _); [by left | reflexivity |].
    apply Hrefused; [reflexivity | discriminate].
  - destruct Hforeign as [Hres Hrows]; [reflexivity | |].
    + intros r [<- | [<- | []]]; simpl; discriminate.
    + reflexivity.
Defined.

Lemma find_app_fresh (P : AccessToken -> bool) (rows : list AccessToken)
    (r : AccessToken) :
  (forall x, In x rows -> P x = false) -> P r = true ->
  List.find P (rows ++ [r]) = Some r.
Proof.
  intros Hall Hr. induction rows as [|x rows IH]; simpl.
  - by rewrite Hr.
  - rewrite (Hall x) by (by left). apply IH. intros y Hy. apply Hall. by right.
Qed.

(** X24.  A token just issued authenticates its user.  After a
    successful POST /tokens for a token that is not empty and has no
    white space around it (the hex string has none), a request that
    presents it, as ["Bearer " ++ token] in the header or as the query
    token, is let through as the user it was issued to, the calls going
    through. *)
Theorem issued_token_authenticates (env env' : Env) (userId token id : string)
    (createdAt : Z) (rows rows' : list AccessToken) (queryToken : option string) :
  post_token env userId token rows = (rows', TokenCreated id token createdAt) ->
  token <> "" ->
  trim token = token ->
  find_fails env' = false ->
  update_fails env' = false ->
  (authToken env' (Some ("Bearer " +:+ token)) queryToken rows').2 = Next userId
  /\ (authToken env' None (Some token) rows').2 = Next userId
  /\ id = newId env /\ createdAt = now env.
Proof.
  intros Hpost Hne Htrim Hf Hu. unfold post_token in Hpost.
  destruct (create_fails env); [discriminate|].
  destruct (existsb _ rows) eqn:Hex; [discriminate|].
  injection Hpost as <- <- <-.
  set (r := {| at_id := newId env; at_token := token; at_createdAt := now env;
               at_lastUsedAt := None; at_revokedAt := None; at_userId := userId |}).
  assert (Hfind : accessToken_findValid token (rows ++ [r]) = Some r).
  { apply find_app_fresh.
    - intros x Hx.
      assert (Hno : bool_decide (at_token x = token) || bool_decide (at_id x = newId env)
                    = false).
      { destruct (_ || _) eqn:E; [|done].
        assert (existsb (fun r => bool_decide (at_token r = token)
                                  || bool_decide (at_id r = newId env)) rows = true)
          by (apply List.existsb_exists; by exists x).
        congruence. }
      apply orb_false_elim in Hno as [-> _]. done.
    - simpl. by rewrite !bool_decide_true. }
  apply truthy_true in Hne.
  split; [|split; [|done]].
  - assert (Hp : String.prefix "Bearer " ("Bearer " +:+ token) = true)
      by (by destruct token).
    assert (Hs : substring_from 7 ("Bearer " +:+ token) = token) by reflexivity.
    unfold authToken, presented_token. rewrite Hp, Hs, Htrim, Hne. simpl.
    by rewrite Hf, Hfind, Hu.
  - unfold authToken, presented_token. simpl. rewrite Hne. simpl. rewrite Hne. simpl.
    by rewrite Hf, Hfind, Hu.
Qed.

Lemma issued_token_authenticates_witness :
  (authToken (demo_env 900) (Some "Bearer 0a1b2c") None
     (post_token (demo_env 800) "u3" "0a1b2c" demo_tokens).1).2 = Next "u3".
Proof.
  destruct (issued_token_authenticates (demo_env 800) (demo_env 900) "u3" "0a1b2c" "s1" 800
              demo_tokens (post_token (demo_env 800) "u3" "0a1b2c" demo_tokens).1 None)
    as [Hheader _]; [reflexivity | discriminate | reflexivity..|].
  exact Hheader.
Defined.

Lemma accessToken_touch_columns (id : string) (t : Z) (rows : list AccessToken) :
  List.map at_token (accessToken_touch id t rows) = List.map at_token rows
  /\ List.map at_id (accessToken_touch id t rows) = List.map at_id rows.
Proof.
  unfold accessToken_touch. rewrite !List.map_map.
  split; apply List.map_ext; intros r; by destruct (bool_decide (at_id r = id)).
Qed.

Lemma NoDup_map_filter (f : AccessToken -> string) (P : AccessToken -> bool)
    (rows : list AccessToken) :
  NoDup (List.map f rows) -> NoDup (List.map f (List.filter P rows)).
Proof.
  induction rows as [|x rows IH]; simpl; [done|].
  intros Hnd. pose proof (NoDup_cons_1_1 _ _ Hnd) as Hx.
  apply NoDup_cons_1_2 in Hnd. destruct (P x); simpl; [|by apply IH].
  apply NoDup_cons_2; [|by apply IH].
  intros Hin. apply Hx. apply list_elem_of_In in Hin. apply list_elem_of_In.
  apply List.in_map_iff in Hin as (y & Hy & Hyin).
  apply List.filter_In in Hyin as [Hyin _].
  apply List.in_map_iff. by exists y.
Qed.

Lemma NoDup_map_snoc (f : AccessToken -> string) (rows : list AccessToken)
    (r : AccessToken) :
  NoDup (List.map f rows) -> (forall x, In x rows -> f x <> f r) ->
  NoDup (List.map f (rows ++ [r])).
Proof.
  intros Hnd Hfresh. rewrite List.map_app. apply NoDup_app. split; [done|].
  split; [|apply NoDup_singleton].
  intros y Hy Hr. apply list_elem_of_In in Hy. simpl in Hr.
  apply list_elem_of_singleton in Hr. subst y.
  apply List.in_map_iff in Hy as (x & Hx & Hin). by apply (Hfresh x).
Qed.

(** X25.  The middleware and the two token routes keep the table's
    unique indexes: if no two rows share a token or an id, none do
    after a request is authenticated, a token is issued or a token is
    deleted; an issue that would repeat a stored token is refused. *)
Theorem token_routes_keep_unique (env : Env) (authHeader queryToken : option string)
    (userId token id : string) (rows : list AccessToken) :
  tokens_unique rows ->
  tokens_unique (authToken env authHeader queryToken rows).1
  /\ tokens_unique (post_token env userId token rows).1
  /\ tokens_unique (delete_token env userId id rows).1
  /\ (In token (List.map at_token rows) ->
      post_token env userId token rows = (rows, TokenErro)).
Proof.
  intros [Htok Hid]. split; [|split; [|split]].
  - destruct (authToken_cases env authHeader queryToken rows)
      as [(res & -> & _) | (tk & r & _ & _ & _ & ->)]; simpl; [done|].
    destruct (accessToken_touch_columns (at_id r) (now env) rows) as [Ht Hi].
    unfold tokens_unique. by rewrite Ht, Hi.
  - unfold post_token. destruct (create_fails env); [done|].
    destruct (existsb _ rows) eqn:Hex; [done|]. simpl.
    assert (Hfresh : forall x, In x rows -> at_token x <> token /\ at_id x <> newId env).
    { intros x Hx.
      destruct (bool_decide (at_token x = token) || bool_decide (at_id x = newId env))
        eqn:E.
      - assert (existsb (fun r => bool_decide (at_token r = token)
                                  || bool_decide (at_id r = newId env)) rows = true)
          by (apply List.existsb_exists; by exists x).
        congruence.
      - apply orb_false_elim in E as [E1 E2].
        by apply bool_decide_eq_false in E1, E2. }
    split; apply NoDup_map_snoc; try done; intros x Hx; by apply Hfresh.
  - destruct (delete_token_cases env userId id rows)
      as [(res & -> & _) | (r & _ & _ & _ & ->)]; simpl; [done|].
    split; by apply NoDup_map_filter.
  - intros Hin. apply List.in_map_iff in Hin as (x & Hx & Hin).
    unfold post_token. destruct (create_fails env); [done|].
    replace (existsb _ rows) with true; [done|].
    symmetry. apply List.existsb_exists. exists x. split; [done|].
    by rewrite bool_decide_true.
Qed.

Lemma token_routes_keep_unique_witness :
  tokens_unique (post_token (demo_env 800) "u3" "0a1b2c" demo_tokens).1
  /\ post_token (demo_env 800) "u3" "abc123" demo_tokens = (demo_tokens, TokenErro).
Proof.
  destruct (token_routes_keep_unique (demo_env 800) None None "u3" "0a1b2c" "t1"
              demo_tokens demo_tokens_unique) as (_ & Hpost & _).
  destruct (token_routes_keep_unique (demo_env 800) None None "u3" "abc123" "t1"
              demo_tokens demo_tokens_unique) as (_ & _ & _ & Hdup).
  split; [exact Hpost|]. apply Hdup. by left.
Defined.

(** * Reports *)

Lemma add_session_bump m s : add_session m s = bump ts_durationSeconds m s.
Proof. reflexivity. Qed.

Lemma count_session_bump m s : count_session m s = bump (fun _ => 0) m s.
Proof.
  unfold count_session, bump. simpl. f_equal.
  destruct (default _ _) as [p t c]. simpl. f_equal. lia.
Qed.

Lemma foldl_bump_ext (f : gmap string ProjectTotal -> _ -> gmap string ProjectTotal)
    (weight : TimeSession -> Z) (l : list (TimeSession * option ProjectSummary)) m :
  (forall m s, f m s = bump weight m s) -> foldl f m l = foldl (bump weight) m l.
Proof.
  intros Hf. revert m. induction l as [|s l IH]; intros m; simpl; [done|].
  by rewrite Hf, IH.
Qed.

Lemma total_of_insert (f : ProjectTotal -> Z) (m : gmap string ProjectTotal)
    (k : string) (e : ProjectTotal) :
  total_of f (<[k := e]> m)
  = f e + total_of f m - match m !! k with Some old => f old | None => 0 end.
Proof.
  unfold total_of.
  assert (Hcomm : forall (m0 : gmap string ProjectTotal) (j1 j2 : string)
                         (z1 z2 : ProjectTotal) (y : Z),
            j1 <> j2 -> m0 !! j1 = Some z1 -> m0 !! j2 = Some z2 ->
            f z1 + (f z2 + y) = f z2 + (f z1 + y)) by (intros; lia).
  destruct (m !! k) as [old|] eqn:Hk.
  - rewrite <- insert_delete_eq.
    rewrite map_fold_insert_L; [|by apply Hcomm | by rewrite lookup_delete_eq].
    rewrite (map_fold_delete_L _ 0 k old m); [lia | by apply Hcomm | done].
  - rewrite map_fold_insert_L; [lia | by apply Hcomm | done].
Qed.

Lemma weight_of_app weight l1 l2 :
  weight_of weight (l1 ++ l2) = weight_of weight l1 + weight_of weight l2.
Proof.
  unfold weight_of. induction l1 as [|s l1 IH]; simpl; [done|]. rewrite IH. lia.
Qed.

Lemma under_key_app k l1 l2 : under_key k (l1 ++ l2) = under_key k l1 ++ under_key k l2.
Proof. apply List.filter_app. Qed.

(** What the loop leaves under each key. *)
Lemma bump_lookup (weight : TimeSession -> Z) (k : string)
    (l : list (TimeSession * option ProjectSummary)) :
  foldl (bump weight) ∅ l !! k =
    match under_key k l with
    | [] => None
    | first :: _ =>
        Some {| pt_project := first.2;
                pt_totalSeconds := weight_of weight (under_key k l);
                pt_sessionCount := Z.of_nat (List.length (under_key k l)) |}
    end.
Proof.
  induction l as [|s l IH] using rev_ind; [done|].
  rewrite foldl_app, under_key_app. simpl foldl. unfold bump at 1.
  unfold under_key at 2 4 6. simpl List.filter.
  destruct (decide (project_key (ts_projectId s.1) = k)) as [Hk|Hk].
  - rewrite bool_decide_true by done. rewrite Hk, lookup_insert_eq, IH.
    rewrite weight_of_app, List.length_app. simpl.
    destruct (under_key k l) as [|first rest]; simpl; f_equal; f_equal;
      unfold weight_of; simpl; lia.
  - rewrite bool_decide_false by done. rewrite lookup_insert_ne by done.
    by rewrite IH, !app_nil_r.
Qed.

(** The columns of [byProject] add up to the totals over the list. *)
Lemma bump_totals (weight : TimeSession -> Z)
    (l : list (TimeSession * option ProjectSummary)) :
  total_of pt_totalSeconds (foldl (bump weight) ∅ l) = weight_of weight l
  /\ total_of pt_sessionCount (foldl (bump weight) ∅ l) = Z.of_nat (List.length l).
Proof.
  induction l as [|s l [IHt IHc]] using rev_ind; [done|].
  rewrite foldl_app, weight_of_app, List.length_app. simpl foldl. unfold bump at 1 3.
  rewrite !total_of_insert, IHt, IHc.
  destruct (foldl (bump weight) ∅ l !! project_key (ts_projectId s.1)) as [old|];
    simpl; unfold weight_of; simpl; lia.
Qed.

Lemma foldl_seconds (l : list (TimeSession * option ProjectSummary)) (z : Z) :
  foldl (fun sum s => sum + ts_durationSeconds s.1) z l
  = z + weight_of ts_durationSeconds l.
Proof.
  revert z. unfold weight_of. induction l as [|s l IH]; intros z; simpl; [lia|].
  rewrite IH. lia.
Qed.

Lemma findMany_spec (userId : string) (mode : option SessionMode) (fromDate toDate : Z)
    (d : Db) (s : TimeSession) (p : option ProjectSummary) :
  In (s, p) (timeSession_findMany userId mode fromDate toDate d)
  <-> (exists id, timeSession d !! id = Some s)
      /\ ts_userId s = userId
      /\ (forall m, mode = Some m -> ts_mode s = m)
      /\ fromDate <= ts_startTime s <= toDate
      /\ p = include_project d (ts_projectId s).
Proof.
  unfold timeSession_findMany. rewrite List.in_map_iff. split.
  - intros (s' & [= <- <-] & Hin). apply List.filter_In in Hin as [Hin Hp].
    apply List.in_map_iff in Hin as ([id s''] & Hs & Hin). simpl in Hs. subst s''.
    apply list_elem_of_In, elem_of_map_to_list in Hin.
    unfold in_period in Hp.
    apply andb_prop in Hp as [Hp Hto]. apply andb_prop in Hp as [Hp Hfrom].
    apply andb_prop in Hp as [Hu Hm].
    apply bool_decide_eq_true in Hu. apply Z.leb_le in Hfrom, Hto.
    split; [by exists id|]. split; [done|]. split; [|done].
    intros m ->. by apply bool_decide_eq_true in Hm.
  - intros ((id & Hid) & Hu & Hm & [Hfrom Hto] & ->). exists s. split; [done|].
    apply List.filter_In. split.
    + apply List.in_map_iff. exists (id, s). split; [done|].
      by apply list_elem_of_In, elem_of_map_to_list.
    + unfold in_period. rewrite bool_decide_true by done.
      apply Z.leb_le in Hfrom, Hto. rewrite Hfrom, Hto.
      destruct mode as [m|]; [|done]. by rewrite bool_decide_true by (by apply Hm).
Qed.

(** X26.  The summary is consistent with its breakdown.  It counts the
    user's sessions that start inside the period, and only those; its
    total is the sum of their durations; and the [totalSeconds] of the
    entries of [byProject] add up to the total, their [sessionCount] to
    the number of sessions. *)
Theorem summary_totals_agree (env : Env) (userId : string) (fromDate toDate : Z)
    (d : Db) (code : Z) (r : Summary) :
  get_summary env userId fromDate toDate d = Json code r ->
  let sessions := timeSession_findMany userId None fromDate toDate d in
  (forall s p, In (s, p) sessions <->
     (exists id, timeSession d !! id = Some s)
     /\ ts_userId s = userId
     /\ fromDate <= ts_startTime s <= toDate
     /\ p = include_project d (ts_projectId s))
  /\ su_totalSeconds r = seconds_of sessions
  /\ su_sessionCount r = Z.of_nat (List.length sessions)
  /\ total_of pt_totalSeconds (su_byProject r) = su_totalSeconds r
  /\ total_of pt_sessionCount (su_byProject r) = su_sessionCount r.
Proof.
  unfold get_summary. destruct (find_fails env); [discriminate|].
  intros [= _ <-]. set (sessions := timeSession_findMany _ _ _ _ _). simpl.
  split; [|split; [|split; [done|]]].
  - intros s p. unfold sessions. rewrite findMany_spec. split.
    + intros (Hid & Hu & _ & Hper & Hp). done.
    + intros (Hid & Hu & Hper & Hp). repeat split; try done; lia.
  - rewrite foldl_seconds. unfold seconds_of, weight_of. lia.
  - rewrite (foldl_bump_ext add_session ts_durationSeconds) by apply add_session_bump.
    destruct (bump_totals ts_durationSeconds sessions) as [-> ->].
    rewrite foldl_seconds. split; [lia|done].
Qed.

Lemma summary_totals_agree_witness :
  exists r,
    get_summary (demo_env 0) "u1" 0 250000 report_db = Json 200 r
    /\ su_totalSeconds r = 1590
    /\ su_sessionCount r = 3
    /\ total_of pt_totalSeconds (su_byProject r) = 1590.
Proof.
  eexists. split; [reflexivity|].
  match goal with
  | |- su_totalSeconds ?r = _ /\ _ =>
      destruct (summary_totals_agree (demo_env 0) "u1" 0 250000 report_db 200 r eq_refl)
        as (_ & _ & _ & Htot & _)
  end.
  split; [vm_compute; reflexivity|]. split; [vm_compute; reflexivity|].
  rewrite Htot. vm_compute. reflexivity.
Defined.

(** X27.  Each entry of the summary's breakdown is one project's
    share.  A key has an entry exactly when some session of the list is
    filed under it (the project id, ["null"] for a session without
    project); the entry carries the project joined to the first such
    session, the sum of the durations of these sessions and their
    number, which is at least one. *)
Theorem summary_entry_per_project (env : Env) (userId : string) (fromDate toDate : Z)
    (d : Db) (code : Z) (r : Summary) (k : string) :
  get_summary env userId fromDate toDate d = Json code r ->
  let mine := under_key k (timeSession_findMany userId None fromDate toDate d) in
  (su_byProject r !! k = None <-> mine = [])
  /\ (forall e, su_byProject r !! k = Some e ->
        pt_totalSeconds e = seconds_of mine
        /\ pt_sessionCount e = Z.of_nat (List.length mine)
        /\ 1 <= pt_sessionCount e
        /\ exists first rest, mine = first :: rest /\ pt_project e = first.2).
Proof.
  unfold get_summary. destruct (find_fails env); [discriminate|].
  intros [= _ <-]. simpl.
  rewrite (foldl_bump_ext add_session ts_durationSeconds) by apply add_session_bump.
  rewrite bump_lookup.
  set (mine := under_key k _).
  destruct mine as [|first rest] eqn:Hmine.
  - split; [done|]. discriminate.
  - split; [split; discriminate|].
    intros e [= <-]. simpl. repeat split; [lia|]. by exists first, rest.
Qed.

Lemma summary_entry_per_project_witness :
  exists r e,
    get_summary (demo_env 0) "u1" 0 250000 report_db = Json 200 r
    /\ su_byProject r !! "p1" = Some e
    /\ pt_totalSeconds e = 1560
    /\ pt_sessionCount e = 2
    /\ su_byProject r !! "p2" = None.
Proof.
  eexists. eexists. split; [reflexivity|]. split; [vm_compute; reflexivity|].
  match goal with
  | |- pt_totalSeconds ?e = _ /\ _ /\ su_byProject ?r !! _ = _ =>
      destruct (summary_entry_per_project (demo_env 0) "u1" 0 250000 report_db 200 r "p1"
                  eq_refl) as [_ Hentry];
      destruct (summary_entry_per_project (demo_env 0) "u1" 0 250000 report_db 200 r "p2"
                  eq_refl) as [Hnone _];
      destruct (Hentry e) as (Ht & Hc & _); [vm_compute; reflexivity|]
  end.
  split; [rewrite Ht; vm_compute; reflexivity|].
  split; [rewrite Hc; vm_compute; reflexivity|].
  apply Hnone. vm_compute. reflexivity.
Defined.

(** X28.  The pomodoro report counts pomodoro sessions only: its total
    is the number of the user's sessions of mode [pomodoro] that start
    inside the period, each entry of its breakdown counts the sessions
    filed under its key, and the counts add up to the total. *)
Theorem pomodoro_report_counts (env : Env) (userId : string) (fromDate toDate : Z)
    (d : Db) (code : Z) (r : PomodoroReport) :
  get_pomodoro_report env userId fromDate toDate d = Json code r ->
  let sessions := timeSession_findMany userId (Some pomodoro) fromDate toDate d in
  (forall s p, In (s, p) sessions <->
     (exists id, timeSession d !! id = Some s)
     /\ ts_userId s = userId
     /\ ts_mode s = pomodoro
     /\ fromDate <= ts_startTime s <= toDate
     /\ p = include_project d (ts_projectId s))
  /\ pr_total r = Z.of_nat (List.length sessions)
  /\ total_of pt_sessionCount (pr_byProject r) = pr_total r
  /\ (forall k e, pr_byProject r !! k = Some e ->
        pt_sessionCount e = Z.of_nat (List.length (under_key k sessions))).
Proof.
  unfold get_pomodoro_report. destruct (find_fails env); [discriminate|].
  intros [= _ <-]. set (sessions := timeSession_findMany _ _ _ _ _). simpl.
  split; [|split; [done|split]].
  - intros s p. unfold sessions. rewrite findMany_spec. split.
    + intros (Hid & Hu & Hm & Hper & Hp). split; [done|]. split; [done|].
      split; [by apply Hm|]. by split.
    + intros (Hid & Hu & Hm & Hper & Hp). split; [done|]. split; [done|].
      split; [by intros ? [= <-]|]. by split.
  - rewrite (foldl_bump_ext count_session (fun _ => 0)) by apply count_session_bump.
    by destruct (bump_totals (fun _ => 0) sessions) as [_ ->].
  - intros k e.
    rewrite (foldl_bump_ext count_session (fun _ => 0)) by apply count_session_bump.
    rewrite bump_lookup. fold sessions.
    destruct (under_key k sessions); [discriminate|]. by intros [= <-].
Qed.

Lemma pomodoro_report_counts_witness :
  exists r,
    get_pomodoro_report (demo_env 0) "u1" 0 500000 report_db = Json 200 r
    /\ pr_total r = 1
    /\ total_of pt_sessionCount (pr_byProject r) = 1.
Proof.
  eexists. split; [reflexivity|].
  match goal with
  | |- pr_total ?r = _ /\ _ =>
      destruct (pomodoro_report_counts (demo_env 0) "u1" 0 500000 report_db 200 r eq_refl)
        as (_ & Htotal & Hsum & _)
  end.
  split; [vm_compute; reflexivity|]. rewrite Hsum. vm_compute. reflexivity.
Defined.

(** * Projects and who owns what *)

Lemma check_project_owned {R} (env : Env) (userId : string) (pid : js_opt string)
    (k : Handler R) (w w' : World) (code : Z) (r : R) :
  check_project env userId pid k w = (w', Json code r) ->
  k w = (w', Json code r)
  /\ forall i, or_null pid = Some i ->
               exists p, project (db w) !! i = Some p /\ p_userId p = userId.
Proof.
  unfold check_project. destruct (or_null pid) as [i|]; [|by intros ->].
  unfold call, project_findFirst. destruct (find_fails env); [discriminate|].
  rewrite set_db_id.
  destruct (project (db w) !! i) as [p|] eqn:Hp; simpl; [|discriminate].
  destruct (decide (p_userId p = userId)); [|discriminate].
  intros ->. split; [done|]. intros j [= <-]. by exists p.
Qed.

Lemma post_active_owned (env : Env) (userId : string) (body : ActiveBody)
    (w w' : World) (code : Z) (r : ActiveSession * option ProjectSummary) :
  post_active env userId body w = (w', Json code r) ->
  forall i, or_null (ab_projectId body) = Some i ->
            exists p, project (db w) !! i = Some p /\ p_userId p = userId.
Proof.
  unfold post_active. destruct (negb _); [discriminate|].
  intros H. by destruct (check_project_owned _ _ _ _ _ _ _ _ H) as [_ Ho].
Qed.

Lemma patch_session_owned (env : Env) (userId id : string) (body : UpdateBody)
    (w w' : World) (code : Z) (r : TimeSession * option ProjectSummary) :
  patch_session env userId id body w = (w', Json code r) ->
  forall i, or_null (ub_projectId body) = Some i ->
            exists p, project (db w) !! i = Some p /\ p_userId p = userId.
Proof.
  unfold patch_session. destruct (negb _); [discriminate|].
  unfold call at 1. unfold timeSession_findFirst.
  destruct (find_fails env); [discriminate|]. rewrite set_db_id.
  destruct (_ ≫= _) as [existing|]; [|discriminate].
  intros H. by destruct (check_project_owned _ _ _ _ _ _ _ _ H) as [_ Ho].
Qed.

Lemma refs_owned_post_active (env : Env) (userId : string) (body : ActiveBody)
    (w : World) :
  refs_owned (db w) -> refs_owned (db (post_active env userId body w).1).
Proof.
  intros [Hslots Hsessions].
  destruct (post_active env userId body w) as [w' [code r|f]] eqn:E.
  2: { assert (Hsame : (post_active env userId body w).1 = w)
         by (destruct (post_active_cases env userId body w)
               as [[f' ->] | (_ & _ & row & _ & Hok)]; [done|congruence]).
       rewrite E in Hsame. simpl in *. by subst. }
  pose proof (post_active_owned _ _ _ _ _ _ _ E) as Howned.
  destruct (post_active_cases env userId body w)
    as [[f Hfail] | (_ & _ & row & Hrow & Hok)]; [congruence|].
  rewrite Hok in E. injection E as <- _ _. simpl. split; simpl; [|exact Hsessions].
  intros u a i. destruct (decide (userId = u)) as [<-|Hne].
  - rewrite lookup_insert_eq. intros [= <-] Hi. apply Howned.
    rewrite <- Hi. subst row. by destruct (activeSession (db w) !! userId).
  - rewrite lookup_insert_ne by done. apply Hslots.
Qed.

Lemma refs_owned_delete_active (env : Env) (userId : string) (w : World) :
  refs_owned (db w) -> refs_owned (db (delete_active env userId w).1).
Proof.
  intros [Hslots Hsessions].
  destruct (delete_active_cases env userId w)
    as [[f ->] | [(a & _ & _ & ->) | (a & Ha & _ & _ & ->)]]; simpl; [done| |].
  - split; simpl; [|exact Hsessions].
    intros u a' i Hu. apply lookup_delete_Some in Hu as [_ Hu]. by apply (Hslots u).
  - split; simpl.
    + intros u a' i Hu. apply lookup_delete_Some in Hu as [_ Hu]. by apply (Hslots u).
    + intros k s i. destruct (decide (newId env = k)) as [<-|Hne].
      * rewrite lookup_insert_eq. intros [= <-]. simpl. intros Hi.
        destruct (as_projectId a) as [j|] eqn:Hj; simpl in Hi; [|discriminate].
        destruct (truthy j); [|discriminate]. injection Hi as <-.
        by apply (Hslots userId a).
      * rewrite lookup_insert_ne by done. apply Hsessions.
Qed.

Lemma refs_owned_post_session (env : Env) (userId : string) (body : CreateBody)
    (w : World) :
  refs_owned (db w) -> refs_owned (db (post_session env userId body w).1).
Proof.
  intros [Hslots Hsessions].
  destruct (post_session_cases env userId body w)
    as [[_ ->] | [(_ & _ & ->) | [(_ & _ & _ & ->) | (_ & Howned & _ & ->)]]];
    simpl; [done..|].
  split; simpl; [exact Hslots|].
  intros k s i. destruct (decide (newId env = k)) as [<-|Hne].
  - rewrite lookup_insert_eq. intros [= <-]. simpl. apply Howned.
  - rewrite lookup_insert_ne by done. apply Hsessions.
Qed.

Lemma refs_owned_patch_session (env : Env) (userId id : string) (body : UpdateBody)
    (w : World) :
  refs_owned (db w) -> refs_owned (db (patch_session env userId id body w).1).
Proof.
  intros [Hslots Hsessions].
  destruct (patch_session env userId id body w) as [w' [code r|f]] eqn:E.
  2: { destruct (patch_session_cases env userId id body w)
         as [[f' Hfail] | (s0 & data & _ & _ & _ & _ & _ & _ & _ & _ & Hok)];
         [|congruence].
       rewrite Hfail in E. injection E as <- _. by split. }
  pose proof (patch_session_owned _ _ _ _ _ _ _ _ E) as Howned.
  destruct (patch_session_cases env userId id body w)
    as [[f' Hfail] | (s0 & data & Hs0 & Hown & _ & _ & _ & _ & _ & Hpid & Hok)];
    [congruence|].
  rewrite Hok in E. injection E as <- _ _. simpl. split; simpl; [exact Hslots|].
  intros k s i. destruct (decide (id = k)) as [<-|Hne].
  - rewrite lookup_insert_eq. intros [= <-]. simpl. rewrite Hpid, Hown.
    destruct (ub_projectId body) as [| |j] eqn:Hb; simpl.
    + rewrite <- Hown. by apply (Hsessions id s0).
    + discriminate.
    + intros Hi. by apply Howned.
  - rewrite lookup_insert_ne by done. apply Hsessions.
Qed.

Lemma refs_owned_delete_session (env : Env) (userId id : string) (w : World) :
  refs_owned (db w) -> refs_owned (db (delete_session env userId id w).1).
Proof.
  intros [Hslots Hsessions].
  destruct (delete_session_cases env userId id w)
    as [[f ->] | (s & _ & _ & ->)]; simpl; [done|].
  split; simpl; [exact Hslots|].
  intros k s' i Hk. apply lookup_delete_Some in Hk as [_ Hk]. by apply (Hsessions k).
Qed.

Lemma project_owned_Some (d : Db) (id userId : string) (p : Project) :
  project_owned d id userId = Some p <-> project d !! id = Some p /\ p_userId p = userId.
Proof.
  unfold project_owned. destruct (project d !! id) as [q|]; simpl.
  - destruct (decide (p_userId q = userId)); split.
    + by intros [= <-].
    + by intros [[= <-] _].
    + discriminate.
    + intros [[= <-] ?]. done.
  - split; [discriminate|]. by intros [? _].
Qed.

Lemma sessions_of_project_zero (d : Db) (id userId : string) :
  (0 <? sessions_of_project d id userId)%nat = false <->
  forall k s, timeSession d !! k = Some s -> ts_projectId s = Some id ->
              ts_userId s <> userId.
Proof.
  unfold sessions_of_project.
  set (P := fun s => bool_decide (ts_projectId s = Some id)
                     && bool_decide (ts_userId s = userId)).
  split.
  - intros Hzero k s Hk Hp Hu.
    assert (Hin : In s (List.filter P (List.map snd (map_to_list (timeSession d))))).
    { apply List.filter_In. split.
      - apply List.in_map_iff. exists (k, s). split; [done|].
        by apply list_elem_of_In, elem_of_map_to_list.
      - unfold P. by rewrite !bool_decide_true. }
    destruct (List.filter P _); [done|]. simpl in Hzero. discriminate.
  - intros Hnone. destruct (List.filter P _) as [|s l] eqn:Hl; [done|].
    assert (Hin : In s (List.filter P (List.map snd (map_to_list (timeSession d)))))
      by (rewrite Hl; by left).
    apply List.filter_In in Hin as [Hin Hp].
    apply List.in_map_iff in Hin as ([k s'] & Hs & Hin). simpl in Hs. subst s'.
    apply list_elem_of_In, elem_of_map_to_list in Hin.
    unfold P in Hp. apply andb_prop in Hp as [Hp Hu].
    apply bool_decide_eq_true in Hp, Hu. by destruct (Hnone k s).
Qed.

Lemma delete_project_cases (env : Env) (userId id : string) (w : World) :
  (exists res, delete_project env userId id w = (w, res)
               /\ forall code, res <> Answered code tt)
  \/ (exists p,
        project (db w) !! id = Some p /\ p_userId p = userId
        /\ (forall k s, timeSession (db w) !! k = Some s -> ts_projectId s = Some id ->
                        ts_userId s <> userId)
        /\ delete_project env userId id w
           = (set_db (project_delete id (db w)) w, Answered 204 tt)).
Proof.
  unfold delete_project. destruct (find_fails env); [left; by eexists|].
  destruct (project_owned (db w) id userId) as [p|] eqn:Hp; [|left; by eexists].
  apply project_owned_Some in Hp as [Hp Hown].
  destruct (0 <? sessions_of_project (db w) id userId)%nat eqn:Hn; [left; by eexists|].
  destruct (delete_fails env); [left; by eexists|].
  right. exists p. by rewrite <- sessions_of_project_zero.
Qed.

Lemma refs_owned_project_routes (env : Env) (userId id : string) (body : ProjectBody)
    (w : World) :
  refs_owned (db w) ->
  refs_owned (db (post_project env userId body w).1)
  /\ refs_owned (db (put_project env userId id body w).1)
  /\ refs_owned (db (delete_project env userId id w).1).
Proof.
  intros [Hslots Hsessions]. split; [|split].
  - unfold post_project. destruct (negb _); [done|].
    destruct (create_fails env); [done|].
    destruct (project (db w) !! newId env) eqn:Hfresh; [done|]. simpl.
    split; simpl.
    + intros u a i Hu Hi. destruct (Hslots u a i Hu Hi) as (p & Hp & Hown).
      exists p. rewrite lookup_insert_ne; [done|]. congruence.
    + intros k s i Hk Hi. destruct (Hsessions k s i Hk Hi) as (p & Hp & Hown).
      exists p. rewrite lookup_insert_ne; [done|]. congruence.
  - unfold put_project. destruct (negb _); [done|].
    destruct (find_fails env); [done|].
    destruct (project_owned (db w) id userId) as [existing|] eqn:He; [|done].
    apply project_owned_Some in He as [He Hown].
    destruct (update_fails env); [done|]. simpl. split; simpl.
    + intros u a i Hu Hi. destruct (Hslots u a i Hu Hi) as (p & Hp & Hpo).
      destruct (decide (id = i)) as [<-|Hne].
      * rewrite lookup_insert_eq. eexists. split; [done|]. simpl. congruence.
      * exists p. by rewrite lookup_insert_ne.
    + intros k s i Hk Hi. destruct (Hsessions k s i Hk Hi) as (p & Hp & Hpo).
      destruct (decide (id = i)) as [<-|Hne].
      * rewrite lookup_insert_eq. eexists. split; [done|]. simpl. congruence.
      * exists p. by rewrite lookup_insert_ne.
  - destruct (delete_project_cases env userId id w)
      as [(res & -> & _) | (p & _ & _ & _ & ->)]; simpl; [done|].
    split; simpl.
    + intros u a i. rewrite lookup_fmap.
      destruct (activeSession (db w) !! u) as [a0|] eqn:Hu; simpl; [|discriminate].
      intros [= <-]. simpl.
      destruct (bool_decide (as_projectId a0 = Some id)) eqn:Hb; [discriminate|].
      apply bool_decide_eq_false in Hb. intros Hi.
      destruct (Hslots u a0 i Hu Hi) as (q & Hq & Hqo). exists q.
      rewrite lookup_delete_ne; [done|]. congruence.
    + intros k s i. rewrite lookup_fmap.
      destruct (timeSession (db w) !! k) as [s0|] eqn:Hk; simpl; [|discriminate].
      intros [= <-]. simpl.
      destruct (bool_decide (ts_projectId s0 = Some id)) eqn:Hb; [discriminate|].
      apply bool_decide_eq_false in Hb. intros Hi.
      destruct (Hsessions k s0 i Hk Hi) as (q & Hq & Hqo). exists q.
      rewrite lookup_delete_ne; [done|]. congruence.
Qed.

(** X29.  No request crosses users.  If every project named by a slot
    or a historical session exists and belongs to that slot's or
    session's user, this is still so after any request to a session or
    project route, whatever the body, the clock and the storage
    faults. *)
Theorem requests_keep_references_owned (w w' : World) :
  refs_owned (db w) -> api_step w w' -> refs_owned (db w').
Proof.
  intros Hok Hstep. destruct Hstep.
  - by apply refs_owned_post_session.
  - by apply refs_owned_patch_session.
  - by apply refs_owned_delete_session.
  - by apply refs_owned_post_active.
  - by apply refs_owned_delete_active.
  - by apply (refs_owned_project_routes env userId "" body w).
  - by apply (refs_owned_project_routes env userId id body w).
  - by apply (refs_owned_project_routes env userId id {| pb_name := ""; pb_color := "" |} w).
Qed.

Lemma shared_world_refs_owned : refs_owned (db shared_world).
Proof.
  split.
  - intros u a i Hu Hi. simpl in Hu.
    apply lookup_singleton_Some in Hu as [<- <-]. injection Hi as <-.
    by exists demo_project.
  - intros k s i Hk Hi. simpl in Hk.
    apply lookup_singleton_Some in Hk as [<- <-]. injection Hi as <-.
    by exists demo_project.
Qed.

Lemma requests_keep_references_owned_witness :
  refs_owned (db (post_active (demo_env 1000) "u2" first_body shared_world).1)
  /\ (post_active (demo_env 1000) "u2" first_body shared_world).2
     = Failed ProjetoNaoEncontrado.
Proof.
  split; [|reflexivity].
  apply (requests_keep_references_owned shared_world).
  - exact shared_world_refs_owned.
  - apply step_post_active.
Defined.

(** X30.  A project with history cannot be deleted, and deleting one
    loses no history.  In a store where references are owned, the
    delete route refuses with 400 a project of the user that some
    historical session names, and changes nothing; when it answers 204
    the project is gone, no historical session named it so all of them
    are as before, and the slots that named it have lost the link and
    nothing else. *)
Theorem delete_project_guards_history (env : Env) (userId id : string) (w : World) :
  refs_owned (db w) ->
  let w' := (delete_project env userId id w).1 in
  let res := (delete_project env userId id w).2 in
  (find_fails env = false ->
   (exists p, project (db w) !! id = Some p /\ p_userId p = userId) ->
   (exists k s, timeSession (db w) !! k = Some s /\ ts_projectId s = Some id) ->
   res = Refused ProjetoComSessoes /\ w' = w)
  /\ (res = Answered 204 tt ->
      project (db w') = delete id (project (db w))
      /\ timeSession (db w') = timeSession (db w)
      /\ (forall u, activeSession (db w') !! u
                    = unlink_slot id <$> activeSession (db w) !! u)
      /\ emitted w' = emitted w)
  /\ ((forall code, res <> Answered code tt) -> w' = w).
Proof.
  intros [Hslots Hsessions] w' res. subst w' res. split; [|split].
  - intros Hf (p & Hp & Hown) (k & s & Hk & Hs).
    unfold delete_project. rewrite Hf.
    replace (project_owned (db w) id userId) with (Some p)
      by (symmetry; by apply project_owned_Some).
    destruct (0 <? sessions_of_project (db w) id userId)%nat eqn:Hn; [done|].
    exfalso. rewrite sessions_of_project_zero in Hn. apply (Hn k s Hk Hs).
    destruct (Hsessions k s id Hk Hs) as (q & Hq & Hqo). congruence.
  - destruct (delete_project_cases env userId id w)
      as [(res & -> & Hno) | (p & Hp & Hown & Hnone & ->)]; simpl.
    { intros ->. by destruct (Hno 204). }
    intros _. split; [done|]. split; [|split; [|done]].
    + apply map_eq. intros k. rewrite lookup_fmap.
      destruct (timeSession (db w) !! k) as [s|] eqn:Hk; simpl; [|done].
      f_equal. destruct s as [i0 de st en du mo pr us]. unfold unlink_session. simpl.
      f_equal. destruct (decide (pr = Some id)) as [->|Hne].
      * exfalso. apply (Hnone k _ Hk eq_refl). simpl.
        destruct (Hsessions k _ id Hk eq_refl) as (q & Hq & Hqo). simpl in Hqo. congruence.
      * by rewrite bool_decide_false.
    + intros u. by rewrite lookup_fmap.
  - destruct (delete_project_cases env userId id w)
      as [(res & -> & Hno) | (p & _ & _ & _ & ->)]; simpl; [done|].
    intros Hno. by destruct (Hno 204).
Qed.

Lemma delete_project_guards_history_witness :
  delete_project (demo_env 0) "u1" "p1" shared_world
    = (shared_world, Refused ProjetoComSessoes)
  /\ project (db (delete_project (demo_env 0) "u2" "p2" shared_world).1)
     = delete "p2" (project (db shared_world))
  /\ timeSession (db (delete_project (demo_env 0) "u2" "p2" shared_world).1)
     = timeSession (db shared_world).
Proof.
  destruct (delete_project_guards_history (demo_env 0) "u1" "p1" shared_world
              shared_world_refs_owned) as (Hrefuse & _ & _).
  destruct (delete_project_guards_history (demo_env 0) "u2" "p2" shared_world
              shared_world_refs_owned) as (_ & Hgone & _).
  split.
  - destruct Hrefuse as [Hres Hw]; [reflexivity | by exists demo_project
                                   | by exists "s0", demo_session |].
    rewrite <- Hres, <- Hw at 1. by destruct (delete_project _ _ _ _).
  - destruct Hgone as (Hp & Hts & _); [reflexivity|]. by split.
Defined.
